(** * noitu: the Vietnamese word-chain engine

    A shallow embedding of [src/wordChecker.ts] and [src/nextWordFinder.ts]
    (with the interfaces of [src/types.ts]) and of [validateDictionary] of
    [src/index.ts], and the properties of the specification checked
    against it.

    JavaScript strings are sequences of UTF-16 code units; a code unit is
    an [N] below [0x10000].  The built-ins the engine calls
    ([String.prototype.normalize], [toLowerCase], [trim], [split] and the
    regular expressions) are modelled after ECMAScript and the Unicode
    Character Database, version 14.0.0. *)

From Stdlib Require Import String Ascii NArith List Lia Permutation DecimalString.
From stdpp Require Import base list gmap.

Abbreviation jsstring := (list N).

(** ** Unicode character data *)

Module Unicode.
Local Open Scope N_scope.

(** The canonical decompositions of UnicodeData.txt (field Decomposition_Mapping
    without a compatibility tag), each applied until nothing decomposes.
    Hangul syllables are left to [hangul_decompose]. *)
Definition decomposition_table : list (N * list N) :=
  [
   (0xC0, [0x41; 0x300]); (0xC1, [0x41; 0x301]); (0xC2, [0x41; 0x302]); (0xC3, [0x41; 0x303]);
   (0xC4, [0x41; 0x308]); (0xC5, [0x41; 0x30A]); (0xC7, [0x43; 0x327]); (0xC8, [0x45; 0x300]);
   (0xC9, [0x45; 0x301]); (0xCA, [0x45; 0x302]); (0xCB, [0x45; 0x308]); (0xCC, [0x49; 0x300]);
   (0xCD, [0x49; 0x301]); (0xCE, [0x49; 0x302]); (0xCF, [0x49; 0x308]); (0xD1, [0x4E; 0x303]);
   (0xD2, [0x4F; 0x300]); (0xD3, [0x4F; 0x301]); (0xD4, [0x4F; 0x302]); (0xD5, [0x4F; 0x303]);
   (0xD6, [0x4F; 0x308]); (0xD9, [0x55; 0x300]); (0xDA, [0x55; 0x301]); (0xDB, [0x55; 0x302]);
   (0xDC, [0x55; 0x308]); (0xDD, [0x59; 0x301]); (0xE0, [0x61; 0x300]); (0xE1, [0x61; 0x301]);
   (0xE2, [0x61; 0x302]); (0xE3, [0x61; 0x303]); (0xE4, [0x61; 0x308]); (0xE5, [0x61; 0x30A]);
   (0xE7, [0x63; 0x327]); (0xE8, [0x65; 0x300]); (0xE9, [0x65; 0x301]); (0xEA, [0x65; 0x302]);
   (0xEB, [0x65; 0x308]); (0xEC, [0x69; 0x300]); (0xED, [0x69; 0x301]); (0xEE, [0x69; 0x302]);
   (0xEF, [0x69; 0x308]); (0xF1, [0x6E; 0x303]); (0xF2, [0x6F; 0x300]); (0xF3, [0x6F; 0x301]);
   (0xF4, [0x6F; 0x302]); (0xF5, [0x6F; 0x303]); (0xF6, [0x6F; 0x308]); (0xF9, [0x75; 0x300]);
   (0xFA, [0x75; 0x301]); (0xFB, [0x75; 0x302]); (0xFC, [0x75; 0x308]); (0xFD, [0x79; 0x301]);
   (0xFF, [0x79; 0x308]); (0x100, [0x41; 0x304]); (0x101, [0x61; 0x304]);
   (0x102, [0x41; 0x306]); (0x103, [0x61; 0x306]); (0x104, [0x41; 0x328]);
   (0x105, [0x61; 0x328]); (0x106, [0x43; 0x301]); (0x107, [0x63; 0x301]);
   (0x108, [0x43; 0x302]); (0x109, [0x63; 0x302]); (0x10A, [0x43; 0x307]);
   (0x10B, [0x63; 0x307]); (0x10C, [0x43; 0x30C]); (0x10D, [0x63; 0x30C]);
   (0x10E, [0x44; 0x30C]); (0x10F, [0x64; 0x30C]); (0x112, [0x45; 0x304]);
   (0x113, [0x65; 0x304]); (0x114, [0x45; 0x306]); (0x115, [0x65; 0x306]);
   (0x116, [0x45; 0x307]); (0x117, [0x65; 0x307]); (0x118, [0x45; 0x328]);
   (0x119, [0x65; 0x328]); (0x11A, [0x45; 0x30C]); (0x11B, [0x65; 0x30C]);
   (0x11C, [0x47; 0x302]); (0x11D, [0x67; 0x302]); (0x11E, [0x47; 0x306]);
   (0x11F, [0x67; 0x306]); (0x120, [0x47; 0x307]); (0x121, [0x67; 0x307]);
   (0x122, [0x47; 0x327]); (0x123, [0x67; 0x327]); (0x124, [0x48; 0x302]);
   (0x125, [0x68; 0x302]); (0x128, [0x49; 0x303]); (0x129, [0x69; 0x303]);
   (0x12A, [0x49; 0x304]); (0x12B, [0x69; 0x304]); (0x12C, [0x49; 0x306]);
   (0x12D, [0x69; 0x306]); (0x12E, [0x49; 0x328]); (0x12F, [0x69; 0x328]);
   (0x130, [0x49; 0x307]); (0x134, [0x4A; 0x302]); (0x135, [0x6A; 0x302]);
   (0x136, [0x4B; 0x327]); (0x137, [0x6B; 0x327]); (0x139, [0x4C; 0x301]);
   (0x13A, [0x6C; 0x301]); (0x13B, [0x4C; 0x327]); (0x13C, [0x6C; 0x327]);
   (0x13D, [0x4C; 0x30C]); (0x13E, [0x6C; 0x30C]); (0x143, [0x4E; 0x301]);
   (0x144, [0x6E; 0x301]); (0x145, [0x4E; 0x327]); (0x146, [0x6E; 0x327]);
   (0x147, [0x4E; 0x30C]); (0x148, [0x6E; 0x30C]); (0x14C, [0x4F; 0x304]);
   (0x14D, [0x6F; 0x304]); (0x14E, [0x4F; 0x306]); (0x14F, [0x6F; 0x306]);
   (0x150, [0x4F; 0x30B]); (0x151, [0x6F; 0x30B]); (0x154, [0x52; 0x301]);
   (0x155, [0x72; 0x301]); (0x156, [0x52; 0x327]); (0x157, [0x72; 0x327]);
   (0x158, [0x52; 0x30C]); (0x159, [0x72; 0x30C]); (0x15A, [0x53; 0x301]);
   (0x15B, [0x73; 0x301]); (0x15C, [0x53; 0x302]); (0x15D, [0x73; 0x302]);
   (0x15E, [0x53; 0x327]); (0x15F, [0x73; 0x327]); (0x160, [0x53; 0x30C]);
   (0x161, [0x73; 0x30C]); (0x162, [0x54; 0x327]); (0x163, [0x74; 0x327]);
   (0x164, [0x54; 0x30C]); (0x165, [0x74; 0x30C]); (0x168, [0x55; 0x303]);
   (0x169, [0x75; 0x303]); (0x16A, [0x55; 0x304]); (0x16B, [0x75; 0x304]);
   (0x16C, [0x55; 0x306]); (0x16D, [0x75; 0x306]); (0x16E, [0x55; 0x30A]);
   (0x16F, [0x75; 0x30A]); (0x170, [0x55; 0x30B]); (0x171, [0x75; 0x30B]);
   (0x172, [0x55; 0x328]); (0x173, [0x75; 0x328]); (0x174, [0x57; 0x302]);
   (0x175, [0x77; 0x302]); (0x176, [0x59; 0x302]); (0x177, [0x79; 0x302]);
   (0x178, [0x59; 0x308]); (0x179, [0x5A; 0x301]); (0x17A, [0x7A; 0x301]);
   (0x17B, [0x5A; 0x307]); (0x17C, [0x7A; 0x307]); (0x17D, [0x5A; 0x30C]);
   (0x17E, [0x7A; 0x30C]); (0x1A0, [0x4F; 0x31B]); (0x1A1, [0x6F; 0x31B]);
   (0x1AF, [0x55; 0x31B]); (0x1B0, [0x75; 0x31B]); (0x1CD, [0x41; 0x30C]);
   (0x1CE, [0x61; 0x30C]); (0x1CF, [0x49; 0x30C]); (0x1D0, [0x69; 0x30C]);
   (0x1D1, [0x4F; 0x30C]); (0x1D2, [0x6F; 0x30C]); (0x1D3, [0x55; 0x30C]);
   (0x1D4, [0x75; 0x30C]); (0x1D5, [0x55; 0x308; 0x304]); (0x1D6, [0x75; 0x308; 0x304]);
   (0x1D7, [0x55; 0x308; 0x301]); (0x1D8, [0x75; 0x308; 0x301]); (0x1D9, [0x55; 0x308; 0x30C]);
   (0x1DA, [0x75; 0x308; 0x30C]); (0x1DB, [0x55; 0x308; 0x300]); (0x1DC, [0x75; 0x308; 0x300]);
   (0x1DE, [0x41; 0x308; 0x304]); (0x1DF, [0x61; 0x308; 0x304]); (0x1E0, [0x41; 0x307; 0x304]);
   (0x1E1, [0x61; 0x307; 0x304]); (0x1E2, [0xC6; 0x304]); (0x1E3, [0xE6; 0x304]);
   (0x1E6, [0x47; 0x30C]); (0x1E7, [0x67; 0x30C]); (0x1E8, [0x4B; 0x30C]);
   (0x1E9, [0x6B; 0x30C]); (0x1EA, [0x4F; 0x328]); (0x1EB, [0x6F; 0x328]);
   (0x1EC, [0x4F; 0x328; 0x304]); (0x1ED, [0x6F; 0x328; 0x304]); (0x1EE, [0x1B7; 0x30C]);
   (0x1EF, [0x292; 0x30C]); (0x1F0, [0x6A; 0x30C]); (0x1F4, [0x47; 0x301]);
   (0x1F5, [0x67; 0x301]); (0x1F8, [0x4E; 0x300]); (0x1F9, [0x6E; 0x300]);
   (0x1FA, [0x41; 0x30A; 0x301]); (0x1FB, [0x61; 0x30A; 0x301]); (0x1FC, [0xC6; 0x301]);
   (0x1FD, [0xE6; 0x301]); (0x1FE, [0xD8; 0x301]); (0x1FF, [0xF8; 0x301]);
   (0x200, [0x41; 0x30F]); (0x201, [0x61; 0x30F]); (0x202, [0x41; 0x311]);
   (0x203, [0x61; 0x311]); (0x204, [0x45; 0x30F]); (0x205, [0x65; 0x30F]);
   (0x206, [0x45; 0x311]); (0x207, [0x65; 0x311]); (0x208, [0x49; 0x30F]);
   (0x209, [0x69; 0x30F]); (0x20A, [0x49; 0x311]); (0x20B, [0x69; 0x311]);
   (0x20C, [0x4F; 0x30F]); (0x20D, [0x6F; 0x30F]); (0x20E, [0x4F; 0x311]);
   (0x20F, [0x6F; 0x311]); (0x210, [0x52; 0x30F]); (0x211, [0x72; 0x30F]);
   (0x212, [0x52; 0x311]); (0x213, [0x72; 0x311]); (0x214, [0x55; 0x30F]);
   (0x215, [0x75; 0x30F]); (0x216, [0x55; 0x311]); (0x217, [0x75; 0x311]);
   (0x218, [0x53; 0x326]); (0x219, [0x73; 0x326]); (0x21A, [0x54; 0x326]);
   (0x21B, [0x74; 0x326]); (0x21E, [0x48; 0x30C]); (0x21F, [0x68; 0x30C]);
   (0x226, [0x41; 0x307]); (0x227, [0x61; 0x307]); (0x228, [0x45; 0x327]);
   (0x229, [0x65; 0x327]); (0x22A, [0x4F; 0x308; 0x304]); (0x22B, [0x6F; 0x308; 0x304]);
   (0x22C, [0x4F; 0x303; 0x304]); (0x22D, [0x6F; 0x303; 0x304]); (0x22E, [0x4F; 0x307]);
   (0x22F, [0x6F; 0x307]); (0x230, [0x4F; 0x307; 0x304]); (0x231, [0x6F; 0x307; 0x304]);
   (0x232, [0x59; 0x304]); (0x233, [0x79; 0x304]); (0x340, [0x300]); (0x341, [0x301]);
   (0x343, [0x313]); (0x344, [0x308; 0x301]); (0x374, [0x2B9]); (0x37E, [0x3B]);
   (0x385, [0xA8; 0x301]); (0x386, [0x391; 0x301]); (0x387, [0xB7]); (0x388, [0x395; 0x301]);
   (0x389, [0x397; 0x301]); (0x38A, [0x399; 0x301]); (0x38C, [0x39F; 0x301]);
   (0x38E, [0x3A5; 0x301]); (0x38F, [0x3A9; 0x301]); (0x390, [0x3B9; 0x308; 0x301]);
   (0x3AA, [0x399; 0x308]); (0x3AB, [0x3A5; 0x308]); (0x3AC, [0x3B1; 0x301]);
   (0x3AD, [0x3B5; 0x301]); (0x3AE, [0x3B7; 0x301]); (0x3AF, [0x3B9; 0x301]);
   (0x3B0, [0x3C5; 0x308; 0x301]); (0x3CA, [0x3B9; 0x308]); (0x3CB, [0x3C5; 0x308]);
   (0x3CC, [0x3BF; 0x301]); (0x3CD, [0x3C5; 0x301]); (0x3CE, [0x3C9; 0x301]);
   (0x3D3, [0x3D2; 0x301]); (0x3D4, [0x3D2; 0x308]); (0x400, [0x415; 0x300]);
   (0x401, [0x415; 0x308]); (0x403, [0x413; 0x301]); (0x407, [0x406; 0x308]);
   (0x40C, [0x41A; 0x301]); (0x40D, [0x418; 0x300]); (0x40E, [0x423; 0x306]);
   (0x419, [0x418; 0x306]); (0x439, [0x438; 0x306]); (0x450, [0x435; 0x300]);
   (0x451, [0x435; 0x308]); (0x453, [0x433; 0x301]); (0x457, [0x456; 0x308]);
   (0x45C, [0x43A; 0x301]); (0x45D, [0x438; 0x300]); (0x45E, [0x443; 0x306]);
   (0x476, [0x474; 0x30F]); (0x477, [0x475; 0x30F]); (0x4C1, [0x416; 0x306]);
   (0x4C2, [0x436; 0x306]); (0x4D0, [0x410; 0x306]); (0x4D1, [0x430; 0x306]);
   (0x4D2, [0x410; 0x308]); (0x4D3, [0x430; 0x308]); (0x4D6, [0x415; 0x306]);
   (0x4D7, [0x435; 0x306]); (0x4DA, [0x4D8; 0x308]); (0x4DB, [0x4D9; 0x308]);
   (0x4DC, [0x416; 0x308]); (0x4DD, [0x436; 0x308]); (0x4DE, [0x417; 0x308]);
   (0x4DF, [0x437; 0x308]); (0x4E2, [0x418; 0x304]); (0x4E3, [0x438; 0x304]);
   (0x4E4, [0x418; 0x308]); (0x4E5, [0x438; 0x308]); (0x4E6, [0x41E; 0x308]);
   (0x4E7, [0x43E; 0x308]); (0x4EA, [0x4E8; 0x308]); (0x4EB, [0x4E9; 0x308]);
   (0x4EC, [0x42D; 0x308]); (0x4ED, [0x44D; 0x308]); (0x4EE, [0x423; 0x304]);
   (0x4EF, [0x443; 0x304]); (0x4F0, [0x423; 0x308]); (0x4F1, [0x443; 0x308]);
   (0x4F2, [0x423; 0x30B]); (0x4F3, [0x443; 0x30B]); (0x4F4, [0x427; 0x308]);
   (0x4F5, [0x447; 0x308]); (0x4F8, [0x42B; 0x308]); (0x4F9, [0x44B; 0x308]);
   (0x622, [0x627; 0x653]); (0x623, [0x627; 0x654]); (0x624, [0x648; 0x654]);
   (0x625, [0x627; 0x655]); (0x626, [0x64A; 0x654]); (0x6C0, [0x6D5; 0x654]);
   (0x6C2, [0x6C1; 0x654]); (0x6D3, [0x6D2; 0x654]); (0x929, [0x928; 0x93C]);
   (0x931, [0x930; 0x93C]); (0x934, [0x933; 0x93C]); (0x958, [0x915; 0x93C]);
   (0x959, [0x916; 0x93C]); (0x95A, [0x917; 0x93C]); (0x95B, [0x91C; 0x93C]);
   (0x95C, [0x921; 0x93C]); (0x95D, [0x922; 0x93C]); (0x95E, [0x92B; 0x93C]);
   (0x95F, [0x92F; 0x93C]); (0x9CB, [0x9C7; 0x9BE]); (0x9CC, [0x9C7; 0x9D7]);
   (0x9DC, [0x9A1; 0x9BC]); (0x9DD, [0x9A2; 0x9BC]); (0x9DF, [0x9AF; 0x9BC]);
   (0xA33, [0xA32; 0xA3C]); (0xA36, [0xA38; 0xA3C]); (0xA59, [0xA16; 0xA3C]);
   (0xA5A, [0xA17; 0xA3C]); (0xA5B, [0xA1C; 0xA3C]); (0xA5E, [0xA2B; 0xA3C]);
   (0xB48, [0xB47; 0xB56]); (0xB4B, [0xB47; 0xB3E]); (0xB4C, [0xB47; 0xB57]);
   (0xB5C, [0xB21; 0xB3C]); (0xB5D, [0xB22; 0xB3C]); (0xB94, [0xB92; 0xBD7]);
   (0xBCA, [0xBC6; 0xBBE]); (0xBCB, [0xBC7; 0xBBE]); (0xBCC, [0xBC6; 0xBD7]);
   (0xC48, [0xC46; 0xC56]); (0xCC0, [0xCBF; 0xCD5]); (0xCC7, [0xCC6; 0xCD5]);
   (0xCC8, [0xCC6; 0xCD6]); (0xCCA, [0xCC6; 0xCC2]); (0xCCB, [0xCC6; 0xCC2; 0xCD5]);
   (0xD4A, [0xD46; 0xD3E]); (0xD4B, [0xD47; 0xD3E]); (0xD4C, [0xD46; 0xD57]);
   (0xDDA, [0xDD9; 0xDCA]); (0xDDC, [0xDD9; 0xDCF]); (0xDDD, [0xDD9; 0xDCF; 0xDCA]);
   (0xDDE, [0xDD9; 0xDDF]); (0xF43, [0xF42; 0xFB7]); (0xF4D, [0xF4C; 0xFB7]);
   (0xF52, [0xF51; 0xFB7]); (0xF57, [0xF56; 0xFB7]); (0xF5C, [0xF5B; 0xFB7]);
   (0xF69, [0xF40; 0xFB5]); (0xF73, [0xF71; 0xF72]); (0xF75, [0xF71; 0xF74]);
   (0xF76, [0xFB2; 0xF80]); (0xF78, [0xFB3; 0xF80]); (0xF81, [0xF71; 0xF80]);
   (0xF93, [0xF92; 0xFB7]); (0xF9D, [0xF9C; 0xFB7]); (0xFA2, [0xFA1; 0xFB7]);
   (0xFA7, [0xFA6; 0xFB7]); (0xFAC, [0xFAB; 0xFB7]); (0xFB9, [0xF90; 0xFB5]);
   (0x1026, [0x1025; 0x102E]); (0x1B06, [0x1B05; 0x1B35]); (0x1B08, [0x1B07; 0x1B35]);
   (0x1B0A, [0x1B09; 0x1B35]); (0x1B0C, [0x1B0B; 0x1B35]); (0x1B0E, [0x1B0D; 0x1B35]);
   (0x1B12, [0x1B11; 0x1B35]); (0x1B3B, [0x1B3A; 0x1B35]); (0x1B3D, [0x1B3C; 0x1B35]);
   (0x1B40, [0x1B3E; 0x1B35]); (0x1B41, [0x1B3F; 0x1B35]); (0x1B43, [0x1B42; 0x1B35]);
   (0x1E00, [0x41; 0x325]); (0x1E01, [0x61; 0x325]); (0x1E02, [0x42; 0x307]);
   (0x1E03, [0x62; 0x307]); (0x1E04, [0x42; 0x323]); (0x1E05, [0x62; 0x323]);
   (0x1E06, [0x42; 0x331]); (0x1E07, [0x62; 0x331]); (0x1E08, [0x43; 0x327; 0x301]);
   (0x1E09, [0x63; 0x327; 0x301]); (0x1E0A, [0x44; 0x307]); (0x1E0B, [0x64; 0x307]);
   (0x1E0C, [0x44; 0x323]); (0x1E0D, [0x64; 0x323]); (0x1E0E, [0x44; 0x331]);
   (0x1E0F, [0x64; 0x331]); (0x1E10, [0x44; 0x327]); (0x1E11, [0x64; 0x327]);
   (0x1E12, [0x44; 0x32D]); (0x1E13, [0x64; 0x32D]); (0x1E14, [0x45; 0x304; 0x300]);
   (0x1E15, [0x65; 0x304; 0x300]); (0x1E16, [0x45; 0x304; 0x301]);
   (0x1E17, [0x65; 0x304; 0x301]); (0x1E18, [0x45; 0x32D]); (0x1E19, [0x65; 0x32D]);
   (0x1E1A, [0x45; 0x330]); (0x1E1B, [0x65; 0x330]); (0x1E1C, [0x45; 0x327; 0x306]);
   (0x1E1D, [0x65; 0x327; 0x306]); (0x1E1E, [0x46; 0x307]); (0x1E1F, [0x66; 0x307]);
   (0x1E20, [0x47; 0x304]); (0x1E21, [0x67; 0x304]); (0x1E22, [0x48; 0x307]);
   (0x1E23, [0x68; 0x307]); (0x1E24, [0x48; 0x323]); (0x1E25, [0x68; 0x323]);
   (0x1E26, [0x48; 0x308]); (0x1E27, [0x68; 0x308]); (0x1E28, [0x48; 0x327]);
   (0x1E29, [0x68; 0x327]); (0x1E2A, [0x48; 0x32E]); (0x1E2B, [0x68; 0x32E]);
   (0x1E2C, [0x49; 0x330]); (0x1E2D, [0x69; 0x330]); (0x1E2E, [0x49; 0x308; 0x301]);
   (0x1E2F, [0x69; 0x308; 0x301]); (0x1E30, [0x4B; 0x301]); (0x1E31, [0x6B; 0x301]);
   (0x1E32, [0x4B; 0x323]); (0x1E33, [0x6B; 0x323]); (0x1E34, [0x4B; 0x331]);
   (0x1E35, [0x6B; 0x331]); (0x1E36, [0x4C; 0x323]); (0x1E37, [0x6C; 0x323]);
   (0x1E38, [0x4C; 0x323; 0x304]); (0x1E39, [0x6C; 0x323; 0x304]); (0x1E3A, [0x4C; 0x331]);
   (0x1E3B, [0x6C; 0x331]); (0x1E3C, [0x4C; 0x32D]); (0x1E3D, [0x6C; 0x32D]);
   (0x1E3E, [0x4D; 0x301]); (0x1E3F, [0x6D; 0x301]); (0x1E40, [0x4D; 0x307]);
   (0x1E41, [0x6D; 0x307]); (0x1E42, [0x4D; 0x323]); (0x1E43, [0x6D; 0x323]);
   (0x1E44, [0x4E; 0x307]); (0x1E45, [0x6E; 0x307]); (0x1E46, [0x4E; 0x323]);
   (0x1E47, [0x6E; 0x323]); (0x1E48, [0x4E; 0x331]); (0x1E49, [0x6E; 0x331]);
   (0x1E4A, [0x4E; 0x32D]); (0x1E4B, [0x6E; 0x32D]); (0x1E4C, [0x4F; 0x303; 0x301]);
   (0x1E4D, [0x6F; 0x303; 0x301]); (0x1E4E, [0x4F; 0x303; 0x308]);
   (0x1E4F, [0x6F; 0x303; 0x308]); (0x1E50, [0x4F; 0x304; 0x300]);
   (0x1E51, [0x6F; 0x304; 0x300]); (0x1E52, [0x4F; 0x304; 0x301]);
   (0x1E53, [0x6F; 0x304; 0x301]); (0x1E54, [0x50; 0x301]); (0x1E55, [0x70; 0x301]);
   (0x1E56, [0x50; 0x307]); (0x1E57, [0x70; 0x307]); (0x1E58, [0x52; 0x307]);
   (0x1E59, [0x72; 0x307]); (0x1E5A, [0x52; 0x323]); (0x1E5B, [0x72; 0x323]);
   (0x1E5C, [0x52; 0x323; 0x304]); (0x1E5D, [0x72; 0x323; 0x304]); (0x1E5E, [0x52; 0x331]);
   (0x1E5F, [0x72; 0x331]); (0x1E60, [0x53; 0x307]); (0x1E61, [0x73; 0x307]);
   (0x1E62, [0x53; 0x323]); (0x1E63, [0x73; 0x323]); (0x1E64, [0x53; 0x301; 0x307]);
   (0x1E65, [0x73; 0x301; 0x307]); (0x1E66, [0x53; 0x30C; 0x307]);
   (0x1E67, [0x73; 0x30C; 0x307]); (0x1E68, [0x53; 0x323; 0x307]);
   (0x1E69, [0x73; 0x323; 0x307]); (0x1E6A, [0x54; 0x307]); (0x1E6B, [0x74; 0x307]);
   (0x1E6C, [0x54; 0x323]); (0x1E6D, [0x74; 0x323]); (0x1E6E, [0x54; 0x331]);
   (0x1E6F, [0x74; 0x331]); (0x1E70, [0x54; 0x32D]); (0x1E71, [0x74; 0x32D]);
   (0x1E72, [0x55; 0x324]); (0x1E73, [0x75; 0x324]); (0x1E74, [0x55; 0x330]);
   (0x1E75, [0x75; 0x330]); (0x1E76, [0x55; 0x32D]); (0x1E77, [0x75; 0x32D]);
   (0x1E78, [0x55; 0x303; 0x301]); (0x1E79, [0x75; 0x303; 0x301]);
   (0x1E7A, [0x55; 0x304; 0x308]); (0x1E7B, [0x75; 0x304; 0x308]); (0x1E7C, [0x56; 0x303]);
   (0x1E7D, [0x76; 0x303]); (0x1E7E, [0x56; 0x323]); (0x1E7F, [0x76; 0x323]);
   (0x1E80, [0x57; 0x300]); (0x1E81, [0x77; 0x300]); (0x1E82, [0x57; 0x301]);
   (0x1E83, [0x77; 0x301]); (0x1E84, [0x57; 0x308]); (0x1E85, [0x77; 0x308]);
   (0x1E86, [0x57; 0x307]); (0x1E87, [0x77; 0x307]); (0x1E88, [0x57; 0x323]);
   (0x1E89, [0x77; 0x323]); (0x1E8A, [0x58; 0x307]); (0x1E8B, [0x78; 0x307]);
   (0x1E8C, [0x58; 0x308]); (0x1E8D, [0x78; 0x308]); (0x1E8E, [0x59; 0x307]);
   (0x1E8F, [0x79; 0x307]); (0x1E90, [0x5A; 0x302]); (0x1E91, [0x7A; 0x302]);
   (0x1E92, [0x5A; 0x323]); (0x1E93, [0x7A; 0x323]); (0x1E94, [0x5A; 0x331]);
   (0x1E95, [0x7A; 0x331]); (0x1E96, [0x68; 0x331]); (0x1E97, [0x74; 0x308]);
   (0x1E98, [0x77; 0x30A]); (0x1E99, [0x79; 0x30A]); (0x1E9B, [0x17F; 0x307]);
   (0x1EA0, [0x41; 0x323]); (0x1EA1, [0x61; 0x323]); (0x1EA2, [0x41; 0x309]);
   (0x1EA3, [0x61; 0x309]); (0x1EA4, [0x41; 0x302; 0x301]); (0x1EA5, [0x61; 0x302; 0x301]);
   (0x1EA6, [0x41; 0x302; 0x300]); (0x1EA7, [0x61; 0x302; 0x300]);
   (0x1EA8, [0x41; 0x302; 0x309]); (0x1EA9, [0x61; 0x302; 0x309]);
   (0x1EAA, [0x41; 0x302; 0x303]); (0x1EAB, [0x61; 0x302; 0x303]);
   (0x1EAC, [0x41; 0x323; 0x302]); (0x1EAD, [0x61; 0x323; 0x302]);
   (0x1EAE, [0x41; 0x306; 0x301]); (0x1EAF, [0x61; 0x306; 0x301]);
   (0x1EB0, [0x41; 0x306; 0x300]); (0x1EB1, [0x61; 0x306; 0x300]);
   (0x1EB2, [0x41; 0x306; 0x309]); (0x1EB3, [0x61; 0x306; 0x309]);
   (0x1EB4, [0x41; 0x306; 0x303]); (0x1EB5, [0x61; 0x306; 0x303]);
   (0x1EB6, [0x41; 0x323; 0x306]); (0x1EB7, [0x61; 0x323; 0x306]); (0x1EB8, [0x45; 0x323]);
   (0x1EB9, [0x65; 0x323]); (0x1EBA, [0x45; 0x309]); (0x1EBB, [0x65; 0x309]);
   (0x1EBC, [0x45; 0x303]); (0x1EBD, [0x65; 0x303]); (0x1EBE, [0x45; 0x302; 0x301]);
   (0x1EBF, [0x65; 0x302; 0x301]); (0x1EC0, [0x45; 0x302; 0x300]);
   (0x1EC1, [0x65; 0x302; 0x300]); (0x1EC2, [0x45; 0x302; 0x309]);
   (0x1EC3, [0x65; 0x302; 0x309]); (0x1EC4, [0x45; 0x302; 0x303]);
   (0x1EC5, [0x65; 0x302; 0x303]); (0x1EC6, [0x45; 0x323; 0x302]);
   (0x1EC7, [0x65; 0x323; 0x302]); (0x1EC8, [0x49; 0x309]); (0x1EC9, [0x69; 0x309]);
   (0x1ECA, [0x49; 0x323]); (0x1ECB, [0x69; 0x323]); (0x1ECC, [0x4F; 0x323]);
   (0x1ECD, [0x6F; 0x323]); (0x1ECE, [0x4F; 0x309]); (0x1ECF, [0x6F; 0x309]);
   (0x1ED0, [0x4F; 0x302; 0x301]); (0x1ED1, [0x6F; 0x302; 0x301]);
   (0x1ED2, [0x4F; 0x302; 0x300]); (0x1ED3, [0x6F; 0x302; 0x300]);
   (0x1ED4, [0x4F; 0x302; 0x309]); (0x1ED5, [0x6F; 0x302; 0x309]);
   (0x1ED6, [0x4F; 0x302; 0x303]); (0x1ED7, [0x6F; 0x302; 0x303]);
   (0x1ED8, [0x4F; 0x323; 0x302]); (0x1ED9, [0x6F; 0x323; 0x302]);
   (0x1EDA, [0x4F; 0x31B; 0x301]); (0x1EDB, [0x6F; 0x31B; 0x301]);
   (0x1EDC, [0x4F; 0x31B; 0x300]); (0x1EDD, [0x6F; 0x31B; 0x300]);
   (0x1EDE, [0x4F; 0x31B; 0x309]); (0x1EDF, [0x6F; 0x31B; 0x309]);
   (0x1EE0, [0x4F; 0x31B; 0x303]); (0x1EE1, [0x6F; 0x31B; 0x303]);
   (0x1EE2, [0x4F; 0x31B; 0x323]); (0x1EE3, [0x6F; 0x31B; 0x323]); (0x1EE4, [0x55; 0x323]);
   (0x1EE5, [0x75; 0x323]); (0x1EE6, [0x55; 0x309]); (0x1EE7, [0x75; 0x309]);
   (0x1EE8, [0x55; 0x31B; 0x301]); (0x1EE9, [0x75; 0x31B; 0x301]);
   (0x1EEA, [0x55; 0x31B; 0x300]); (0x1EEB, [0x75; 0x31B; 0x300]);
   (0x1EEC, [0x55; 0x31B; 0x309]); (0x1EED, [0x75; 0x31B; 0x309]);
   (0x1EEE, [0x55; 0x31B; 0x303]); (0x1EEF, [0x75; 0x31B; 0x303]);
   (0x1EF0, [0x55; 0x31B; 0x323]); (0x1EF1, [0x75; 0x31B; 0x323]); (0x1EF2, [0x59; 0x300]);
   (0x1EF3, [0x79; 0x300]); (0x1EF4, [0x59; 0x323]); (0x1EF5, [0x79; 0x323]);
   (0x1EF6, [0x59; 0x309]); (0x1EF7, [0x79; 0x309]); (0x1EF8, [0x59; 0x303]);
   (0x1EF9, [0x79; 0x303]); (0x1F00, [0x3B1; 0x313]); (0x1F01, [0x3B1; 0x314]);
   (0x1F02, [0x3B1; 0x313; 0x300]); (0x1F03, [0x3B1; 0x314; 0x300]);
   (0x1F04, [0x3B1; 0x313; 0x301]); (0x1F05, [0x3B1; 0x314; 0x301]);
   (0x1F06, [0x3B1; 0x313; 0x342]); (0x1F07, [0x3B1; 0x314; 0x342]); (0x1F08, [0x391; 0x313]);
   (0x1F09, [0x391; 0x314]); (0x1F0A, [0x391; 0x313; 0x300]); (0x1F0B, [0x391; 0x314; 0x300]);
   (0x1F0C, [0x391; 0x313; 0x301]); (0x1F0D, [0x391; 0x314; 0x301]);
   (0x1F0E, [0x391; 0x313; 0x342]); (0x1F0F, [0x391; 0x314; 0x342]); (0x1F10, [0x3B5; 0x313]);
   (0x1F11, [0x3B5; 0x314]); (0x1F12, [0x3B5; 0x313; 0x300]); (0x1F13, [0x3B5; 0x314; 0x300]);
   (0x1F14, [0x3B5; 0x313; 0x301]); (0x1F15, [0x3B5; 0x314; 0x301]); (0x1F18, [0x395; 0x313]);
   (0x1F19, [0x395; 0x314]); (0x1F1A, [0x395; 0x313; 0x300]); (0x1F1B, [0x395; 0x314; 0x300]);
   (0x1F1C, [0x395; 0x313; 0x301]); (0x1F1D, [0x395; 0x314; 0x301]); (0x1F20, [0x3B7; 0x313]);
   (0x1F21, [0x3B7; 0x314]); (0x1F22, [0x3B7; 0x313; 0x300]); (0x1F23, [0x3B7; 0x314; 0x300]);
   (0x1F24, [0x3B7; 0x313; 0x301]); (0x1F25, [0x3B7; 0x314; 0x301]);
   (0x1F26, [0x3B7; 0x313; 0x342]); (0x1F27, [0x3B7; 0x314; 0x342]); (0x1F28, [0x397; 0x313]);
   (0x1F29, [0x397; 0x314]); (0x1F2A, [0x397; 0x313; 0x300]); (0x1F2B, [0x397; 0x314; 0x300]);
   (0x1F2C, [0x397; 0x313; 0x301]); (0x1F2D, [0x397; 0x314; 0x301]);
   (0x1F2E, [0x397; 0x313; 0x342]); (0x1F2F, [0x397; 0x314; 0x342]); (0x1F30, [0x3B9; 0x313]);
   (0x1F31, [0x3B9; 0x314]); (0x1F32, [0x3B9; 0x313; 0x300]); (0x1F33, [0x3B9; 0x314; 0x300]);
   (0x1F34, [0x3B9; 0x313; 0x301]); (0x1F35, [0x3B9; 0x314; 0x301]);
   (0x1F36, [0x3B9; 0x313; 0x342]); (0x1F37, [0x3B9; 0x314; 0x342]); (0x1F38, [0x399; 0x313]);
   (0x1F39, [0x399; 0x314]); (0x1F3A, [0x399; 0x313; 0x300]); (0x1F3B, [0x399; 0x314; 0x300]);
   (0x1F3C, [0x399; 0x313; 0x301]); (0x1F3D, [0x399; 0x314; 0x301]);
   (0x1F3E, [0x399; 0x313; 0x342]); (0x1F3F, [0x399; 0x314; 0x342]); (0x1F40, [0x3BF; 0x313]);
   (0x1F41, [0x3BF; 0x314]); (0x1F42, [0x3BF; 0x313; 0x300]); (0x1F43, [0x3BF; 0x314; 0x300]);
   (0x1F44, [0x3BF; 0x313; 0x301]); (0x1F45, [0x3BF; 0x314; 0x301]); (0x1F48, [0x39F; 0x313]);
   (0x1F49, [0x39F; 0x314]); (0x1F4A, [0x39F; 0x313; 0x300]); (0x1F4B, [0x39F; 0x314; 0x300]);
   (0x1F4C, [0x39F; 0x313; 0x301]); (0x1F4D, [0x39F; 0x314; 0x301]); (0x1F50, [0x3C5; 0x313]);
   (0x1F51, [0x3C5; 0x314]); (0x1F52, [0x3C5; 0x313; 0x300]); (0x1F53, [0x3C5; 0x314; 0x300]);
   (0x1F54, [0x3C5; 0x313; 0x301]); (0x1F55, [0x3C5; 0x314; 0x301]);
   (0x1F56, [0x3C5; 0x313; 0x342]); (0x1F57, [0x3C5; 0x314; 0x342]); (0x1F59, [0x3A5; 0x314]);
   (0x1F5B, [0x3A5; 0x314; 0x300]); (0x1F5D, [0x3A5; 0x314; 0x301]);
   (0x1F5F, [0x3A5; 0x314; 0x342]); (0x1F60, [0x3C9; 0x313]); (0x1F61, [0x3C9; 0x314]);
   (0x1F62, [0x3C9; 0x313; 0x300]); (0x1F63, [0x3C9; 0x314; 0x300]);
   (0x1F64, [0x3C9; 0x313; 0x301]); (0x1F65, [0x3C9; 0x314; 0x301]);
   (0x1F66, [0x3C9; 0x313; 0x342]); (0x1F67, [0x3C9; 0x314; 0x342]); (0x1F68, [0x3A9; 0x313]);
   (0x1F69, [0x3A9; 0x314]); (0x1F6A, [0x3A9; 0x313; 0x300]); (0x1F6B, [0x3A9; 0x314; 0x300]);
   (0x1F6C, [0x3A9; 0x313; 0x301]); (0x1F6D, [0x3A9; 0x314; 0x301]);
   (0x1F6E, [0x3A9; 0x313; 0x342]); (0x1F6F, [0x3A9; 0x314; 0x342]); (0x1F70, [0x3B1; 0x300]);
   (0x1F71, [0x3B1; 0x301]); (0x1F72, [0x3B5; 0x300]); (0x1F73, [0x3B5; 0x301]);
   (0x1F74, [0x3B7; 0x300]); (0x1F75, [0x3B7; 0x301]); (0x1F76, [0x3B9; 0x300]);
   (0x1F77, [0x3B9; 0x301]); (0x1F78, [0x3BF; 0x300]); (0x1F79, [0x3BF; 0x301]);
   (0x1F7A, [0x3C5; 0x300]); (0x1F7B, [0x3C5; 0x301]); (0x1F7C, [0x3C9; 0x300]);
   (0x1F7D, [0x3C9; 0x301]); (0x1F80, [0x3B1; 0x313; 0x345]); (0x1F81, [0x3B1; 0x314; 0x345]);
   (0x1F82, [0x3B1; 0x313; 0x300; 0x345]); (0x1F83, [0x3B1; 0x314; 0x300; 0x345]);
   (0x1F84, [0x3B1; 0x313; 0x301; 0x345]); (0x1F85, [0x3B1; 0x314; 0x301; 0x345]);
   (0x1F86, [0x3B1; 0x313; 0x342; 0x345]); (0x1F87, [0x3B1; 0x314; 0x342; 0x345]);
   (0x1F88, [0x391; 0x313; 0x345]); (0x1F89, [0x391; 0x314; 0x345]);
   (0x1F8A, [0x391; 0x313; 0x300; 0x345]); (0x1F8B, [0x391; 0x314; 0x300; 0x345]);
   (0x1F8C, [0x391; 0x313; 0x301; 0x345]); (0x1F8D, [0x391; 0x314; 0x301; 0x345]);
   (0x1F8E, [0x391; 0x313; 0x342; 0x345]); (0x1F8F, [0x391; 0x314; 0x342; 0x345]);
   (0x1F90, [0x3B7; 0x313; 0x345]); (0x1F91, [0x3B7; 0x314; 0x345]);
   (0x1F92, [0x3B7; 0x313; 0x300; 0x345]); (0x1F93, [0x3B7; 0x314; 0x300; 0x345]);
   (0x1F94, [0x3B7; 0x313; 0x301; 0x345]); (0x1F95, [0x3B7; 0x314; 0x301; 0x345]);
   (0x1F96, [0x3B7; 0x313; 0x342; 0x345]); (0x1F97, [0x3B7; 0x314; 0x342; 0x345]);
   (0x1F98, [0x397; 0x313; 0x345]); (0x1F99, [0x397; 0x314; 0x345]);
   (0x1F9A, [0x397; 0x313; 0x300; 0x345]); (0x1F9B, [0x397; 0x314; 0x300; 0x345]);
   (0x1F9C, [0x397; 0x313; 0x301; 0x345]); (0x1F9D, [0x397; 0x314; 0x301; 0x345]);
   (0x1F9E, [0x397; 0x313; 0x342; 0x345]); (0x1F9F, [0x397; 0x314; 0x342; 0x345]);
   (0x1FA0, [0x3C9; 0x313; 0x345]); (0x1FA1, [0x3C9; 0x314; 0x345]);
   (0x1FA2, [0x3C9; 0x313; 0x300; 0x345]); (0x1FA3, [0x3C9; 0x314; 0x300; 0x345]);
   (0x1FA4, [0x3C9; 0x313; 0x301; 0x345]); (0x1FA5, [0x3C9; 0x314; 0x301; 0x345]);
   (0x1FA6, [0x3C9; 0x313; 0x342; 0x345]); (0x1FA7, [0x3C9; 0x314; 0x342; 0x345]);
   (0x1FA8, [0x3A9; 0x313; 0x345]); (0x1FA9, [0x3A9; 0x314; 0x345]);
   (0x1FAA, [0x3A9; 0x313; 0x300; 0x345]); (0x1FAB, [0x3A9; 0x314; 0x300; 0x345]);
   (0x1FAC, [0x3A9; 0x313; 0x301; 0x345]); (0x1FAD, [0x3A9; 0x314; 0x301; 0x345]);
   (0x1FAE, [0x3A9; 0x313; 0x342; 0x345]); (0x1FAF, [0x3A9; 0x314; 0x342; 0x345]);
   (0x1FB0, [0x3B1; 0x306]); (0x1FB1, [0x3B1; 0x304]); (0x1FB2, [0x3B1; 0x300; 0x345]);
   (0x1FB3, [0x3B1; 0x345]); (0x1FB4, [0x3B1; 0x301; 0x345]); (0x1FB6, [0x3B1; 0x342]);
   (0x1FB7, [0x3B1; 0x342; 0x345]); (0x1FB8, [0x391; 0x306]); (0x1FB9, [0x391; 0x304]);
   (0x1FBA, [0x391; 0x300]); (0x1FBB, [0x391; 0x301]); (0x1FBC, [0x391; 0x345]);
   (0x1FBE, [0x3B9]); (0x1FC1, [0xA8; 0x342]); (0x1FC2, [0x3B7; 0x300; 0x345]);
   (0x1FC3, [0x3B7; 0x345]); (0x1FC4, [0x3B7; 0x301; 0x345]); (0x1FC6, [0x3B7; 0x342]);
   (0x1FC7, [0x3B7; 0x342; 0x345]); (0x1FC8, [0x395; 0x300]); (0x1FC9, [0x395; 0x301]);
   (0x1FCA, [0x397; 0x300]); (0x1FCB, [0x397; 0x301]); (0x1FCC, [0x397; 0x345]);
   (0x1FCD, [0x1FBF; 0x300]); (0x1FCE, [0x1FBF; 0x301]); (0x1FCF, [0x1FBF; 0x342]);
   (0x1FD0, [0x3B9; 0x306]); (0x1FD1, [0x3B9; 0x304]); (0x1FD2, [0x3B9; 0x308; 0x300]);
   (0x1FD3, [0x3B9; 0x308; 0x301]); (0x1FD6, [0x3B9; 0x342]); (0x1FD7, [0x3B9; 0x308; 0x342]);
   (0x1FD8, [0x399; 0x306]); (0x1FD9, [0x399; 0x304]); (0x1FDA, [0x399; 0x300]);
   (0x1FDB, [0x399; 0x301]); (0x1FDD, [0x1FFE; 0x300]); (0x1FDE, [0x1FFE; 0x301]);
   (0x1FDF, [0x1FFE; 0x342]); (0x1FE0, [0x3C5; 0x306]); (0x1FE1, [0x3C5; 0x304]);
   (0x1FE2, [0x3C5; 0x308; 0x300]); (0x1FE3, [0x3C5; 0x308; 0x301]); (0x1FE4, [0x3C1; 0x313]);
   (0x1FE5, [0x3C1; 0x314]); (0x1FE6, [0x3C5; 0x342]); (0x1FE7, [0x3C5; 0x308; 0x342]);
   (0x1FE8, [0x3A5; 0x306]); (0x1FE9, [0x3A5; 0x304]); (0x1FEA, [0x3A5; 0x300]);
   (0x1FEB, [0x3A5; 0x301]); (0x1FEC, [0x3A1; 0x314]); (0x1FED, [0xA8; 0x300]);
   (0x1FEE, [0xA8; 0x301]); (0x1FEF, [0x60]); (0x1FF2, [0x3C9; 0x300; 0x345]);
   (0x1FF3, [0x3C9; 0x345]); (0x1FF4, [0x3C9; 0x301; 0x345]); (0x1FF6, [0x3C9; 0x342]);
   (0x1FF7, [0x3C9; 0x342; 0x345]); (0x1FF8, [0x39F; 0x300]); (0x1FF9, [0x39F; 0x301]);
   (0x1FFA, [0x3A9; 0x300]); (0x1FFB, [0x3A9; 0x301]); (0x1FFC, [0x3A9; 0x345]);
   (0x1FFD, [0xB4]); (0x2000, [0x2002]); (0x2001, [0x2003]); (0x2126, [0x3A9]);
   (0x212A, [0x4B]); (0x212B, [0x41; 0x30A]); (0x219A, [0x2190; 0x338]);
   (0x219B, [0x2192; 0x338]); (0x21AE, [0x2194; 0x338]); (0x21CD, [0x21D0; 0x338]);
   (0x21CE, [0x21D4; 0x338]); (0x21CF, [0x21D2; 0x338]); (0x2204, [0x2203; 0x338]);
   (0x2209, [0x2208; 0x338]); (0x220C, [0x220B; 0x338]); (0x2224, [0x2223; 0x338]);
   (0x2226, [0x2225; 0x338]); (0x2241, [0x223C; 0x338]); (0x2244, [0x2243; 0x338]);
   (0x2247, [0x2245; 0x338]); (0x2249, [0x2248; 0x338]); (0x2260, [0x3D; 0x338]);
   (0x2262, [0x2261; 0x338]); (0x226D, [0x224D; 0x338]); (0x226E, [0x3C; 0x338]);
   (0x226F, [0x3E; 0x338]); (0x2270, [0x2264; 0x338]); (0x2271, [0x2265; 0x338]);
   (0x2274, [0x2272; 0x338]); (0x2275, [0x2273; 0x338]); (0x2278, [0x2276; 0x338]);
   (0x2279, [0x2277; 0x338]); (0x2280, [0x227A; 0x338]); (0x2281, [0x227B; 0x338]);
   (0x2284, [0x2282; 0x338]); (0x2285, [0x2283; 0x338]); (0x2288, [0x2286; 0x338]);
   (0x2289, [0x2287; 0x338]); (0x22AC, [0x22A2; 0x338]); (0x22AD, [0x22A8; 0x338]);
   (0x22AE, [0x22A9; 0x338]); (0x22AF, [0x22AB; 0x338]); (0x22E0, [0x227C; 0x338]);
   (0x22E1, [0x227D; 0x338]); (0x22E2, [0x2291; 0x338]); (0x22E3, [0x2292; 0x338]);
   (0x22EA, [0x22B2; 0x338]); (0x22EB, [0x22B3; 0x338]); (0x22EC, [0x22B4; 0x338]);
   (0x22ED, [0x22B5; 0x338]); (0x2329, [0x3008]); (0x232A, [0x3009]);
   (0x2ADC, [0x2ADD; 0x338]); (0x304C, [0x304B; 0x3099]); (0x304E, [0x304D; 0x3099]);
   (0x3050, [0x304F; 0x3099]); (0x3052, [0x3051; 0x3099]); (0x3054, [0x3053; 0x3099]);
   (0x3056, [0x3055; 0x3099]); (0x3058, [0x3057; 0x3099]); (0x305A, [0x3059; 0x3099]);
   (0x305C, [0x305B; 0x3099]); (0x305E, [0x305D; 0x3099]); (0x3060, [0x305F; 0x3099]);
   (0x3062, [0x3061; 0x3099]); (0x3065, [0x3064; 0x3099]); (0x3067, [0x3066; 0x3099]);
   (0x3069, [0x3068; 0x3099]); (0x3070, [0x306F; 0x3099]); (0x3071, [0x306F; 0x309A]);
   (0x3073, [0x3072; 0x3099]); (0x3074, [0x3072; 0x309A]); (0x3076, [0x3075; 0x3099]);
   (0x3077, [0x3075; 0x309A]); (0x3079, [0x3078; 0x3099]); (0x307A, [0x3078; 0x309A]);
   (0x307C, [0x307B; 0x3099]); (0x307D, [0x307B; 0x309A]); (0x3094, [0x3046; 0x3099]);
   (0x309E, [0x309D; 0x3099]); (0x30AC, [0x30AB; 0x3099]); (0x30AE, [0x30AD; 0x3099]);
   (0x30B0, [0x30AF; 0x3099]); (0x30B2, [0x30B1; 0x3099]); (0x30B4, [0x30B3; 0x3099]);
   (0x30B6, [0x30B5; 0x3099]); (0x30B8, [0x30B7; 0x3099]); (0x30BA, [0x30B9; 0x3099]);
   (0x30BC, [0x30BB; 0x3099]); (0x30BE, [0x30BD; 0x3099]); (0x30C0, [0x30BF; 0x3099]);
   (0x30C2, [0x30C1; 0x3099]); (0x30C5, [0x30C4; 0x3099]); (0x30C7, [0x30C6; 0x3099]);
   (0x30C9, [0x30C8; 0x3099]); (0x30D0, [0x30CF; 0x3099]); (0x30D1, [0x30CF; 0x309A]);
   (0x30D3, [0x30D2; 0x3099]); (0x30D4, [0x30D2; 0x309A]); (0x30D6, [0x30D5; 0x3099]);
   (0x30D7, [0x30D5; 0x309A]); (0x30D9, [0x30D8; 0x3099]); (0x30DA, [0x30D8; 0x309A]);
   (0x30DC, [0x30DB; 0x3099]); (0x30DD, [0x30DB; 0x309A]); (0x30F4, [0x30A6; 0x3099]);
   (0x30F7, [0x30EF; 0x3099]); (0x30F8, [0x30F0; 0x3099]); (0x30F9, [0x30F1; 0x3099]);
   (0x30FA, [0x30F2; 0x3099]); (0x30FE, [0x30FD; 0x3099]); (0xF900, [0x8C48]);
   (0xF901, [0x66F4]); (0xF902, [0x8ECA]); (0xF903, [0x8CC8]); (0xF904, [0x6ED1]);
   (0xF905, [0x4E32]); (0xF906, [0x53E5]); (0xF907, [0x9F9C]); (0xF908, [0x9F9C]);
   (0xF909, [0x5951]); (0xF90A, [0x91D1]); (0xF90B, [0x5587]); (0xF90C, [0x5948]);
   (0xF90D, [0x61F6]); (0xF90E, [0x7669]); (0xF90F, [0x7F85]); (0xF910, [0x863F]);
   (0xF911, [0x87BA]); (0xF912, [0x88F8]); (0xF913, [0x908F]); (0xF914, [0x6A02]);
   (0xF915, [0x6D1B]); (0xF916, [0x70D9]); (0xF917, [0x73DE]); (0xF918, [0x843D]);
   (0xF919, [0x916A]); (0xF91A, [0x99F1]); (0xF91B, [0x4E82]); (0xF91C, [0x5375]);
   (0xF91D, [0x6B04]); (0xF91E, [0x721B]); (0xF91F, [0x862D]); (0xF920, [0x9E1E]);
   (0xF921, [0x5D50]); (0xF922, [0x6FEB]); (0xF923, [0x85CD]); (0xF924, [0x8964]);
   (0xF925, [0x62C9]); (0xF926, [0x81D8]); (0xF927, [0x881F]); (0xF928, [0x5ECA]);
   (0xF929, [0x6717]); (0xF92A, [0x6D6A]); (0xF92B, [0x72FC]); (0xF92C, [0x90CE]);
   (0xF92D, [0x4F86]); (0xF92E, [0x51B7]); (0xF92F, [0x52DE]); (0xF930, [0x64C4]);
   (0xF931, [0x6AD3]); (0xF932, [0x7210]); (0xF933, [0x76E7]); (0xF934, [0x8001]);
   (0xF935, [0x8606]); (0xF936, [0x865C]); (0xF937, [0x8DEF]); (0xF938, [0x9732]);
   (0xF939, [0x9B6F]); (0xF93A, [0x9DFA]); (0xF93B, [0x788C]); (0xF93C, [0x797F]);
   (0xF93D, [0x7DA0]); (0xF93E, [0x83C9]); (0xF93F, [0x9304]); (0xF940, [0x9E7F]);
   (0xF941, [0x8AD6]); (0xF942, [0x58DF]); (0xF943, [0x5F04]); (0xF944, [0x7C60]);
   (0xF945, [0x807E]); (0xF946, [0x7262]); (0xF947, [0x78CA]); (0xF948, [0x8CC2]);
   (0xF949, [0x96F7]); (0xF94A, [0x58D8]); (0xF94B, [0x5C62]); (0xF94C, [0x6A13]);
   (0xF94D, [0x6DDA]); (0xF94E, [0x6F0F]); (0xF94F, [0x7D2F]); (0xF950, [0x7E37]);
   (0xF951, [0x964B]); (0xF952, [0x52D2]); (0xF953, [0x808B]); (0xF954, [0x51DC]);
   (0xF955, [0x51CC]); (0xF956, [0x7A1C]); (0xF957, [0x7DBE]); (0xF958, [0x83F1]);
   (0xF959, [0x9675]); (0xF95A, [0x8B80]); (0xF95B, [0x62CF]); (0xF95C, [0x6A02]);
   (0xF95D, [0x8AFE]); (0xF95E, [0x4E39]); (0xF95F, [0x5BE7]); (0xF960, [0x6012]);
   (0xF961, [0x7387]); (0xF962, [0x7570]); (0xF963, [0x5317]); (0xF964, [0x78FB]);
   (0xF965, [0x4FBF]); (0xF966, [0x5FA9]); (0xF967, [0x4E0D]); (0xF968, [0x6CCC]);
   (0xF969, [0x6578]); (0xF96A, [0x7D22]); (0xF96B, [0x53C3]); (0xF96C, [0x585E]);
   (0xF96D, [0x7701]); (0xF96E, [0x8449]); (0xF96F, [0x8AAA]); (0xF970, [0x6BBA]);
   (0xF971, [0x8FB0]); (0xF972, [0x6C88]); (0xF973, [0x62FE]); (0xF974, [0x82E5]);
   (0xF975, [0x63A0]); (0xF976, [0x7565]); (0xF977, [0x4EAE]); (0xF978, [0x5169]);
   (0xF979, [0x51C9]); (0xF97A, [0x6881]); (0xF97B, [0x7CE7]); (0xF97C, [0x826F]);
   (0xF97D, [0x8AD2]); (0xF97E, [0x91CF]); (0xF97F, [0x52F5]); (0xF980, [0x5442]);
   (0xF981, [0x5973]); (0xF982, [0x5EEC]); (0xF983, [0x65C5]); (0xF984, [0x6FFE]);
   (0xF985, [0x792A]); (0xF986, [0x95AD]); (0xF987, [0x9A6A]); (0xF988, [0x9E97]);
   (0xF989, [0x9ECE]); (0xF98A, [0x529B]); (0xF98B, [0x66C6]); (0xF98C, [0x6B77]);
   (0xF98D, [0x8F62]); (0xF98E, [0x5E74]); (0xF98F, [0x6190]); (0xF990, [0x6200]);
   (0xF991, [0x649A]); (0xF992, [0x6F23]); (0xF993, [0x7149]); (0xF994, [0x7489]);
   (0xF995, [0x79CA]); (0xF996, [0x7DF4]); (0xF997, [0x806F]); (0xF998, [0x8F26]);
   (0xF999, [0x84EE]); (0xF99A, [0x9023]); (0xF99B, [0x934A]); (0xF99C, [0x5217]);
   (0xF99D, [0x52A3]); (0xF99E, [0x54BD]); (0xF99F, [0x70C8]); (0xF9A0, [0x88C2]);
   (0xF9A1, [0x8AAA]); (0xF9A2, [0x5EC9]); (0xF9A3, [0x5FF5]); (0xF9A4, [0x637B]);
   (0xF9A5, [0x6BAE]); (0xF9A6, [0x7C3E]); (0xF9A7, [0x7375]); (0xF9A8, [0x4EE4]);
   (0xF9A9, [0x56F9]); (0xF9AA, [0x5BE7]); (0xF9AB, [0x5DBA]); (0xF9AC, [0x601C]);
   (0xF9AD, [0x73B2]); (0xF9AE, [0x7469]); (0xF9AF, [0x7F9A]); (0xF9B0, [0x8046]);
   (0xF9B1, [0x9234]); (0xF9B2, [0x96F6]); (0xF9B3, [0x9748]); (0xF9B4, [0x9818]);
   (0xF9B5, [0x4F8B]); (0xF9B6, [0x79AE]); (0xF9B7, [0x91B4]); (0xF9B8, [0x96B8]);
   (0xF9B9, [0x60E1]); (0xF9BA, [0x4E86]); (0xF9BB, [0x50DA]); (0xF9BC, [0x5BEE]);
   (0xF9BD, [0x5C3F]); (0xF9BE, [0x6599]); (0xF9BF, [0x6A02]); (0xF9C0, [0x71CE]);
   (0xF9C1, [0x7642]); (0xF9C2, [0x84FC]); (0xF9C3, [0x907C]); (0xF9C4, [0x9F8D]);
   (0xF9C5, [0x6688]); (0xF9C6, [0x962E]); (0xF9C7, [0x5289]); (0xF9C8, [0x677B]);
   (0xF9C9, [0x67F3]); (0xF9CA, [0x6D41]); (0xF9CB, [0x6E9C]); (0xF9CC, [0x7409]);
   (0xF9CD, [0x7559]); (0xF9CE, [0x786B]); (0xF9CF, [0x7D10]); (0xF9D0, [0x985E]);
   (0xF9D1, [0x516D]); (0xF9D2, [0x622E]); (0xF9D3, [0x9678]); (0xF9D4, [0x502B]);
   (0xF9D5, [0x5D19]); (0xF9D6, [0x6DEA]); (0xF9D7, [0x8F2A]); (0xF9D8, [0x5F8B]);
   (0xF9D9, [0x6144]); (0xF9DA, [0x6817]); (0xF9DB, [0x7387]); (0xF9DC, [0x9686]);
   (0xF9DD, [0x5229]); (0xF9DE, [0x540F]); (0xF9DF, [0x5C65]); (0xF9E0, [0x6613]);
   (0xF9E1, [0x674E]); (0xF9E2, [0x68A8]); (0xF9E3, [0x6CE5]); (0xF9E4, [0x7406]);
   (0xF9E5, [0x75E2]); (0xF9E6, [0x7F79]); (0xF9E7, [0x88CF]); (0xF9E8, [0x88E1]);
   (0xF9E9, [0x91CC]); (0xF9EA, [0x96E2]); (0xF9EB, [0x533F]); (0xF9EC, [0x6EBA]);
   (0xF9ED, [0x541D]); (0xF9EE, [0x71D0]); (0xF9EF, [0x7498]); (0xF9F0, [0x85FA]);
   (0xF9F1, [0x96A3]); (0xF9F2, [0x9C57]); (0xF9F3, [0x9E9F]); (0xF9F4, [0x6797]);
   (0xF9F5, [0x6DCB]); (0xF9F6, [0x81E8]); (0xF9F7, [0x7ACB]); (0xF9F8, [0x7B20]);
   (0xF9F9, [0x7C92]); (0xF9FA, [0x72C0]); (0xF9FB, [0x7099]); (0xF9FC, [0x8B58]);
   (0xF9FD, [0x4EC0]); (0xF9FE, [0x8336]); (0xF9FF, [0x523A]); (0xFA00, [0x5207]);
   (0xFA01, [0x5EA6]); (0xFA02, [0x62D3]); (0xFA03, [0x7CD6]); (0xFA04, [0x5B85]);
   (0xFA05, [0x6D1E]); (0xFA06, [0x66B4]); (0xFA07, [0x8F3B]); (0xFA08, [0x884C]);
   (0xFA09, [0x964D]); (0xFA0A, [0x898B]); (0xFA0B, [0x5ED3]); (0xFA0C, [0x5140]);
   (0xFA0D, [0x55C0]); (0xFA10, [0x585A]); (0xFA12, [0x6674]); (0xFA15, [0x51DE]);
   (0xFA16, [0x732A]); (0xFA17, [0x76CA]); (0xFA18, [0x793C]); (0xFA19, [0x795E]);
   (0xFA1A, [0x7965]); (0xFA1B, [0x798F]); (0xFA1C, [0x9756]); (0xFA1D, [0x7CBE]);
   (0xFA1E, [0x7FBD]); (0xFA20, [0x8612]); (0xFA22, [0x8AF8]); (0xFA25, [0x9038]);
   (0xFA26, [0x90FD]); (0xFA2A, [0x98EF]); (0xFA2B, [0x98FC]); (0xFA2C, [0x9928]);
   (0xFA2D, [0x9DB4]); (0xFA2E, [0x90DE]); (0xFA2F, [0x96B7]); (0xFA30, [0x4FAE]);
   (0xFA31, [0x50E7]); (0xFA32, [0x514D]); (0xFA33, [0x52C9]); (0xFA34, [0x52E4]);
   (0xFA35, [0x5351]); (0xFA36, [0x559D]); (0xFA37, [0x5606]); (0xFA38, [0x5668]);
   (0xFA39, [0x5840]); (0xFA3A, [0x58A8]); (0xFA3B, [0x5C64]); (0xFA3C, [0x5C6E]);
   (0xFA3D, [0x6094]); (0xFA3E, [0x6168]); (0xFA3F, [0x618E]); (0xFA40, [0x61F2]);
   (0xFA41, [0x654F]); (0xFA42, [0x65E2]); (0xFA43, [0x6691]); (0xFA44, [0x6885]);
   (0xFA45, [0x6D77]); (0xFA46, [0x6E1A]); (0xFA47, [0x6F22]); (0xFA48, [0x716E]);
   (0xFA49, [0x722B]); (0xFA4A, [0x7422]); (0xFA4B, [0x7891]); (0xFA4C, [0x793E]);
   (0xFA4D, [0x7949]); (0xFA4E, [0x7948]); (0xFA4F, [0x7950]); (0xFA50, [0x7956]);
   (0xFA51, [0x795D]); (0xFA52, [0x798D]); (0xFA53, [0x798E]); (0xFA54, [0x7A40]);
   (0xFA55, [0x7A81]); (0xFA56, [0x7BC0]); (0xFA57, [0x7DF4]); (0xFA58, [0x7E09]);
   (0xFA59, [0x7E41]); (0xFA5A, [0x7F72]); (0xFA5B, [0x8005]); (0xFA5C, [0x81ED]);
   (0xFA5D, [0x8279]); (0xFA5E, [0x8279]); (0xFA5F, [0x8457]); (0xFA60, [0x8910]);
   (0xFA61, [0x8996]); (0xFA62, [0x8B01]); (0xFA63, [0x8B39]); (0xFA64, [0x8CD3]);
   (0xFA65, [0x8D08]); (0xFA66, [0x8FB6]); (0xFA67, [0x9038]); (0xFA68, [0x96E3]);
   (0xFA69, [0x97FF]); (0xFA6A, [0x983B]); (0xFA6B, [0x6075]); (0xFA6C, [0x242EE]);
   (0xFA6D, [0x8218]); (0xFA70, [0x4E26]); (0xFA71, [0x51B5]); (0xFA72, [0x5168]);
   (0xFA73, [0x4F80]); (0xFA74, [0x5145]); (0xFA75, [0x5180]); (0xFA76, [0x52C7]);
   (0xFA77, [0x52FA]); (0xFA78, [0x559D]); (0xFA79, [0x5555]); (0xFA7A, [0x5599]);
   (0xFA7B, [0x55E2]); (0xFA7C, [0x585A]); (0xFA7D, [0x58B3]); (0xFA7E, [0x5944]);
   (0xFA7F, [0x5954]); (0xFA80, [0x5A62]); (0xFA81, [0x5B28]); (0xFA82, [0x5ED2]);
   (0xFA83, [0x5ED9]); (0xFA84, [0x5F69]); (0xFA85, [0x5FAD]); (0xFA86, [0x60D8]);
   (0xFA87, [0x614E]); (0xFA88, [0x6108]); (0xFA89, [0x618E]); (0xFA8A, [0x6160]);
   (0xFA8B, [0x61F2]); (0xFA8C, [0x6234]); (0xFA8D, [0x63C4]); (0xFA8E, [0x641C]);
   (0xFA8F, [0x6452]); (0xFA90, [0x6556]); (0xFA91, [0x6674]); (0xFA92, [0x6717]);
   (0xFA93, [0x671B]); (0xFA94, [0x6756]); (0xFA95, [0x6B79]); (0xFA96, [0x6BBA]);
   (0xFA97, [0x6D41]); (0xFA98, [0x6EDB]); (0xFA99, [0x6ECB]); (0xFA9A, [0x6F22]);
   (0xFA9B, [0x701E]); (0xFA9C, [0x716E]); (0xFA9D, [0x77A7]); (0xFA9E, [0x7235]);
   (0xFA9F, [0x72AF]); (0xFAA0, [0x732A]); (0xFAA1, [0x7471]); (0xFAA2, [0x7506]);
   (0xFAA3, [0x753B]); (0xFAA4, [0x761D]); (0xFAA5, [0x761F]); (0xFAA6, [0x76CA]);
   (0xFAA7, [0x76DB]); (0xFAA8, [0x76F4]); (0xFAA9, [0x774A]); (0xFAAA, [0x7740]);
   (0xFAAB, [0x78CC]); (0xFAAC, [0x7AB1]); (0xFAAD, [0x7BC0]); (0xFAAE, [0x7C7B]);
   (0xFAAF, [0x7D5B]); (0xFAB0, [0x7DF4]); (0xFAB1, [0x7F3E]); (0xFAB2, [0x8005]);
   (0xFAB3, [0x8352]); (0xFAB4, [0x83EF]); (0xFAB5, [0x8779]); (0xFAB6, [0x8941]);
   (0xFAB7, [0x8986]); (0xFAB8, [0x8996]); (0xFAB9, [0x8ABF]); (0xFABA, [0x8AF8]);
   (0xFABB, [0x8ACB]); (0xFABC, [0x8B01]); (0xFABD, [0x8AFE]); (0xFABE, [0x8AED]);
   (0xFABF, [0x8B39]); (0xFAC0, [0x8B8A]); (0xFAC1, [0x8D08]); (0xFAC2, [0x8F38]);
   (0xFAC3, [0x9072]); (0xFAC4, [0x9199]); (0xFAC5, [0x9276]); (0xFAC6, [0x967C]);
   (0xFAC7, [0x96E3]); (0xFAC8, [0x9756]); (0xFAC9, [0x97DB]); (0xFACA, [0x97FF]);
   (0xFACB, [0x980B]); (0xFACC, [0x983B]); (0xFACD, [0x9B12]); (0xFACE, [0x9F9C]);
   (0xFACF, [0x2284A]); (0xFAD0, [0x22844]); (0xFAD1, [0x233D5]); (0xFAD2, [0x3B9D]);
   (0xFAD3, [0x4018]); (0xFAD4, [0x4039]); (0xFAD5, [0x25249]); (0xFAD6, [0x25CD0]);
   (0xFAD7, [0x27ED3]); (0xFAD8, [0x9F43]); (0xFAD9, [0x9F8E]); (0xFB1D, [0x5D9; 0x5B4]);
   (0xFB1F, [0x5F2; 0x5B7]); (0xFB2A, [0x5E9; 0x5C1]); (0xFB2B, [0x5E9; 0x5C2]);
   (0xFB2C, [0x5E9; 0x5BC; 0x5C1]); (0xFB2D, [0x5E9; 0x5BC; 0x5C2]); (0xFB2E, [0x5D0; 0x5B7]);
   (0xFB2F, [0x5D0; 0x5B8]); (0xFB30, [0x5D0; 0x5BC]); (0xFB31, [0x5D1; 0x5BC]);
   (0xFB32, [0x5D2; 0x5BC]); (0xFB33, [0x5D3; 0x5BC]); (0xFB34, [0x5D4; 0x5BC]);
   (0xFB35, [0x5D5; 0x5BC]); (0xFB36, [0x5D6; 0x5BC]); (0xFB38, [0x5D8; 0x5BC]);
   (0xFB39, [0x5D9; 0x5BC]); (0xFB3A, [0x5DA; 0x5BC]); (0xFB3B, [0x5DB; 0x5BC]);
   (0xFB3C, [0x5DC; 0x5BC]); (0xFB3E, [0x5DE; 0x5BC]); (0xFB40, [0x5E0; 0x5BC]);
   (0xFB41, [0x5E1; 0x5BC]); (0xFB43, [0x5E3; 0x5BC]); (0xFB44, [0x5E4; 0x5BC]);
   (0xFB46, [0x5E6; 0x5BC]); (0xFB47, [0x5E7; 0x5BC]); (0xFB48, [0x5E8; 0x5BC]);
   (0xFB49, [0x5E9; 0x5BC]); (0xFB4A, [0x5EA; 0x5BC]); (0xFB4B, [0x5D5; 0x5B9]);
   (0xFB4C, [0x5D1; 0x5BF]); (0xFB4D, [0x5DB; 0x5BF]); (0xFB4E, [0x5E4; 0x5BF]);
   (0x1109A, [0x11099; 0x110BA]); (0x1109C, [0x1109B; 0x110BA]); (0x110AB, [0x110A5; 0x110BA]);
   (0x1112E, [0x11131; 0x11127]); (0x1112F, [0x11132; 0x11127]); (0x1134B, [0x11347; 0x1133E]);
   (0x1134C, [0x11347; 0x11357]); (0x114BB, [0x114B9; 0x114BA]); (0x114BC, [0x114B9; 0x114B0]);
   (0x114BE, [0x114B9; 0x114BD]); (0x115BA, [0x115B8; 0x115AF]); (0x115BB, [0x115B9; 0x115AF]);
   (0x11938, [0x11935; 0x11930]); (0x1D15E, [0x1D157; 0x1D165]); (0x1D15F, [0x1D158; 0x1D165]);
   (0x1D160, [0x1D158; 0x1D165; 0x1D16E]); (0x1D161, [0x1D158; 0x1D165; 0x1D16F]);
   (0x1D162, [0x1D158; 0x1D165; 0x1D170]); (0x1D163, [0x1D158; 0x1D165; 0x1D171]);
   (0x1D164, [0x1D158; 0x1D165; 0x1D172]); (0x1D1BB, [0x1D1B9; 0x1D165]);
   (0x1D1BC, [0x1D1BA; 0x1D165]); (0x1D1BD, [0x1D1B9; 0x1D165; 0x1D16E]);
   (0x1D1BE, [0x1D1BA; 0x1D165; 0x1D16E]); (0x1D1BF, [0x1D1B9; 0x1D165; 0x1D16F]);
   (0x1D1C0, [0x1D1BA; 0x1D165; 0x1D16F]); (0x2F800, [0x4E3D]); (0x2F801, [0x4E38]);
   (0x2F802, [0x4E41]); (0x2F803, [0x20122]); (0x2F804, [0x4F60]); (0x2F805, [0x4FAE]);
   (0x2F806, [0x4FBB]); (0x2F807, [0x5002]); (0x2F808, [0x507A]); (0x2F809, [0x5099]);
   (0x2F80A, [0x50E7]); (0x2F80B, [0x50CF]); (0x2F80C, [0x349E]); (0x2F80D, [0x2063A]);
   (0x2F80E, [0x514D]); (0x2F80F, [0x5154]); (0x2F810, [0x5164]); (0x2F811, [0x5177]);
   (0x2F812, [0x2051C]); (0x2F813, [0x34B9]); (0x2F814, [0x5167]); (0x2F815, [0x518D]);
   (0x2F816, [0x2054B]); (0x2F817, [0x5197]); (0x2F818, [0x51A4]); (0x2F819, [0x4ECC]);
   (0x2F81A, [0x51AC]); (0x2F81B, [0x51B5]); (0x2F81C, [0x291DF]); (0x2F81D, [0x51F5]);
   (0x2F81E, [0x5203]); (0x2F81F, [0x34DF]); (0x2F820, [0x523B]); (0x2F821, [0x5246]);
   (0x2F822, [0x5272]); (0x2F823, [0x5277]); (0x2F824, [0x3515]); (0x2F825, [0x52C7]);
   (0x2F826, [0x52C9]); (0x2F827, [0x52E4]); (0x2F828, [0x52FA]); (0x2F829, [0x5305]);
   (0x2F82A, [0x5306]); (0x2F82B, [0x5317]); (0x2F82C, [0x5349]); (0x2F82D, [0x5351]);
   (0x2F82E, [0x535A]); (0x2F82F, [0x5373]); (0x2F830, [0x537D]); (0x2F831, [0x537F]);
   (0x2F832, [0x537F]); (0x2F833, [0x537F]); (0x2F834, [0x20A2C]); (0x2F835, [0x7070]);
   (0x2F836, [0x53CA]); (0x2F837, [0x53DF]); (0x2F838, [0x20B63]); (0x2F839, [0x53EB]);
   (0x2F83A, [0x53F1]); (0x2F83B, [0x5406]); (0x2F83C, [0x549E]); (0x2F83D, [0x5438]);
   (0x2F83E, [0x5448]); (0x2F83F, [0x5468]); (0x2F840, [0x54A2]); (0x2F841, [0x54F6]);
   (0x2F842, [0x5510]); (0x2F843, [0x5553]); (0x2F844, [0x5563]); (0x2F845, [0x5584]);
   (0x2F846, [0x5584]); (0x2F847, [0x5599]); (0x2F848, [0x55AB]); (0x2F849, [0x55B3]);
   (0x2F84A, [0x55C2]); (0x2F84B, [0x5716]); (0x2F84C, [0x5606]); (0x2F84D, [0x5717]);
   (0x2F84E, [0x5651]); (0x2F84F, [0x5674]); (0x2F850, [0x5207]); (0x2F851, [0x58EE]);
   (0x2F852, [0x57CE]); (0x2F853, [0x57F4]); (0x2F854, [0x580D]); (0x2F855, [0x578B]);
   (0x2F856, [0x5832]); (0x2F857, [0x5831]); (0x2F858, [0x58AC]); (0x2F859, [0x214E4]);
   (0x2F85A, [0x58F2]); (0x2F85B, [0x58F7]); (0x2F85C, [0x5906]); (0x2F85D, [0x591A]);
   (0x2F85E, [0x5922]); (0x2F85F, [0x5962]); (0x2F860, [0x216A8]); (0x2F861, [0x216EA]);
   (0x2F862, [0x59EC]); (0x2F863, [0x5A1B]); (0x2F864, [0x5A27]); (0x2F865, [0x59D8]);
   (0x2F866, [0x5A66]); (0x2F867, [0x36EE]); (0x2F868, [0x36FC]); (0x2F869, [0x5B08]);
   (0x2F86A, [0x5B3E]); (0x2F86B, [0x5B3E]); (0x2F86C, [0x219C8]); (0x2F86D, [0x5BC3]);
   (0x2F86E, [0x5BD8]); (0x2F86F, [0x5BE7]); (0x2F870, [0x5BF3]); (0x2F871, [0x21B18]);
   (0x2F872, [0x5BFF]); (0x2F873, [0x5C06]); (0x2F874, [0x5F53]); (0x2F875, [0x5C22]);
   (0x2F876, [0x3781]); (0x2F877, [0x5C60]); (0x2F878, [0x5C6E]); (0x2F879, [0x5CC0]);
   (0x2F87A, [0x5C8D]); (0x2F87B, [0x21DE4]); (0x2F87C, [0x5D43]); (0x2F87D, [0x21DE6]);
   (0x2F87E, [0x5D6E]); (0x2F87F, [0x5D6B]); (0x2F880, [0x5D7C]); (0x2F881, [0x5DE1]);
   (0x2F882, [0x5DE2]); (0x2F883, [0x382F]); (0x2F884, [0x5DFD]); (0x2F885, [0x5E28]);
   (0x2F886, [0x5E3D]); (0x2F887, [0x5E69]); (0x2F888, [0x3862]); (0x2F889, [0x22183]);
   (0x2F88A, [0x387C]); (0x2F88B, [0x5EB0]); (0x2F88C, [0x5EB3]); (0x2F88D, [0x5EB6]);
   (0x2F88E, [0x5ECA]); (0x2F88F, [0x2A392]); (0x2F890, [0x5EFE]); (0x2F891, [0x22331]);
   (0x2F892, [0x22331]); (0x2F893, [0x8201]); (0x2F894, [0x5F22]); (0x2F895, [0x5F22]);
   (0x2F896, [0x38C7]); (0x2F897, [0x232B8]); (0x2F898, [0x261DA]); (0x2F899, [0x5F62]);
   (0x2F89A, [0x5F6B]); (0x2F89B, [0x38E3]); (0x2F89C, [0x5F9A]); (0x2F89D, [0x5FCD]);
   (0x2F89E, [0x5FD7]); (0x2F89F, [0x5FF9]); (0x2F8A0, [0x6081]); (0x2F8A1, [0x393A]);
   (0x2F8A2, [0x391C]); (0x2F8A3, [0x6094]); (0x2F8A4, [0x226D4]); (0x2F8A5, [0x60C7]);
   (0x2F8A6, [0x6148]); (0x2F8A7, [0x614C]); (0x2F8A8, [0x614E]); (0x2F8A9, [0x614C]);
   (0x2F8AA, [0x617A]); (0x2F8AB, [0x618E]); (0x2F8AC, [0x61B2]); (0x2F8AD, [0x61A4]);
   (0x2F8AE, [0x61AF]); (0x2F8AF, [0x61DE]); (0x2F8B0, [0x61F2]); (0x2F8B1, [0x61F6]);
   (0x2F8B2, [0x6210]); (0x2F8B3, [0x621B]); (0x2F8B4, [0x625D]); (0x2F8B5, [0x62B1]);
   (0x2F8B6, [0x62D4]); (0x2F8B7, [0x6350]); (0x2F8B8, [0x22B0C]); (0x2F8B9, [0x633D]);
   (0x2F8BA, [0x62FC]); (0x2F8BB, [0x6368]); (0x2F8BC, [0x6383]); (0x2F8BD, [0x63E4]);
   (0x2F8BE, [0x22BF1]); (0x2F8BF, [0x6422]); (0x2F8C0, [0x63C5]); (0x2F8C1, [0x63A9]);
   (0x2F8C2, [0x3A2E]); (0x2F8C3, [0x6469]); (0x2F8C4, [0x647E]); (0x2F8C5, [0x649D]);
   (0x2F8C6, [0x6477]); (0x2F8C7, [0x3A6C]); (0x2F8C8, [0x654F]); (0x2F8C9, [0x656C]);
   (0x2F8CA, [0x2300A]); (0x2F8CB, [0x65E3]); (0x2F8CC, [0x66F8]); (0x2F8CD, [0x6649]);
   (0x2F8CE, [0x3B19]); (0x2F8CF, [0x6691]); (0x2F8D0, [0x3B08]); (0x2F8D1, [0x3AE4]);
   (0x2F8D2, [0x5192]); (0x2F8D3, [0x5195]); (0x2F8D4, [0x6700]); (0x2F8D5, [0x669C]);
   (0x2F8D6, [0x80AD]); (0x2F8D7, [0x43D9]); (0x2F8D8, [0x6717]); (0x2F8D9, [0x671B]);
   (0x2F8DA, [0x6721]); (0x2F8DB, [0x675E]); (0x2F8DC, [0x6753]); (0x2F8DD, [0x233C3]);
   (0x2F8DE, [0x3B49]); (0x2F8DF, [0x67FA]); (0x2F8E0, [0x6785]); (0x2F8E1, [0x6852]);
   (0x2F8E2, [0x6885]); (0x2F8E3, [0x2346D]); (0x2F8E4, [0x688E]); (0x2F8E5, [0x681F]);
   (0x2F8E6, [0x6914]); (0x2F8E7, [0x3B9D]); (0x2F8E8, [0x6942]); (0x2F8E9, [0x69A3]);
   (0x2F8EA, [0x69EA]); (0x2F8EB, [0x6AA8]); (0x2F8EC, [0x236A3]); (0x2F8ED, [0x6ADB]);
   (0x2F8EE, [0x3C18]); (0x2F8EF, [0x6B21]); (0x2F8F0, [0x238A7]); (0x2F8F1, [0x6B54]);
   (0x2F8F2, [0x3C4E]); (0x2F8F3, [0x6B72]); (0x2F8F4, [0x6B9F]); (0x2F8F5, [0x6BBA]);
   (0x2F8F6, [0x6BBB]); (0x2F8F7, [0x23A8D]); (0x2F8F8, [0x21D0B]); (0x2F8F9, [0x23AFA]);
   (0x2F8FA, [0x6C4E]); (0x2F8FB, [0x23CBC]); (0x2F8FC, [0x6CBF]); (0x2F8FD, [0x6CCD]);
   (0x2F8FE, [0x6C67]); (0x2F8FF, [0x6D16]); (0x2F900, [0x6D3E]); (0x2F901, [0x6D77]);
   (0x2F902, [0x6D41]); (0x2F903, [0x6D69]); (0x2F904, [0x6D78]); (0x2F905, [0x6D85]);
   (0x2F906, [0x23D1E]); (0x2F907, [0x6D34]); (0x2F908, [0x6E2F]); (0x2F909, [0x6E6E]);
   (0x2F90A, [0x3D33]); (0x2F90B, [0x6ECB]); (0x2F90C, [0x6EC7]); (0x2F90D, [0x23ED1]);
   (0x2F90E, [0x6DF9]); (0x2F90F, [0x6F6E]); (0x2F910, [0x23F5E]); (0x2F911, [0x23F8E]);
   (0x2F912, [0x6FC6]); (0x2F913, [0x7039]); (0x2F914, [0x701E]); (0x2F915, [0x701B]);
   (0x2F916, [0x3D96]); (0x2F917, [0x704A]); (0x2F918, [0x707D]); (0x2F919, [0x7077]);
   (0x2F91A, [0x70AD]); (0x2F91B, [0x20525]); (0x2F91C, [0x7145]); (0x2F91D, [0x24263]);
   (0x2F91E, [0x719C]); (0x2F91F, [0x243AB]); (0x2F920, [0x7228]); (0x2F921, [0x7235]);
   (0x2F922, [0x7250]); (0x2F923, [0x24608]); (0x2F924, [0x7280]); (0x2F925, [0x7295]);
   (0x2F926, [0x24735]); (0x2F927, [0x24814]); (0x2F928, [0x737A]); (0x2F929, [0x738B]);
   (0x2F92A, [0x3EAC]); (0x2F92B, [0x73A5]); (0x2F92C, [0x3EB8]); (0x2F92D, [0x3EB8]);
   (0x2F92E, [0x7447]); (0x2F92F, [0x745C]); (0x2F930, [0x7471]); (0x2F931, [0x7485]);
   (0x2F932, [0x74CA]); (0x2F933, [0x3F1B]); (0x2F934, [0x7524]); (0x2F935, [0x24C36]);
   (0x2F936, [0x753E]); (0x2F937, [0x24C92]); (0x2F938, [0x7570]); (0x2F939, [0x2219F]);
   (0x2F93A, [0x7610]); (0x2F93B, [0x24FA1]); (0x2F93C, [0x24FB8]); (0x2F93D, [0x25044]);
   (0x2F93E, [0x3FFC]); (0x2F93F, [0x4008]); (0x2F940, [0x76F4]); (0x2F941, [0x250F3]);
   (0x2F942, [0x250F2]); (0x2F943, [0x25119]); (0x2F944, [0x25133]); (0x2F945, [0x771E]);
   (0x2F946, [0x771F]); (0x2F947, [0x771F]); (0x2F948, [0x774A]); (0x2F949, [0x4039]);
   (0x2F94A, [0x778B]); (0x2F94B, [0x4046]); (0x2F94C, [0x4096]); (0x2F94D, [0x2541D]);
   (0x2F94E, [0x784E]); (0x2F94F, [0x788C]); (0x2F950, [0x78CC]); (0x2F951, [0x40E3]);
   (0x2F952, [0x25626]); (0x2F953, [0x7956]); (0x2F954, [0x2569A]); (0x2F955, [0x256C5]);
   (0x2F956, [0x798F]); (0x2F957, [0x79EB]); (0x2F958, [0x412F]); (0x2F959, [0x7A40]);
   (0x2F95A, [0x7A4A]); (0x2F95B, [0x7A4F]); (0x2F95C, [0x2597C]); (0x2F95D, [0x25AA7]);
   (0x2F95E, [0x25AA7]); (0x2F95F, [0x7AEE]); (0x2F960, [0x4202]); (0x2F961, [0x25BAB]);
   (0x2F962, [0x7BC6]); (0x2F963, [0x7BC9]); (0x2F964, [0x4227]); (0x2F965, [0x25C80]);
   (0x2F966, [0x7CD2]); (0x2F967, [0x42A0]); (0x2F968, [0x7CE8]); (0x2F969, [0x7CE3]);
   (0x2F96A, [0x7D00]); (0x2F96B, [0x25F86]); (0x2F96C, [0x7D63]); (0x2F96D, [0x4301]);
   (0x2F96E, [0x7DC7]); (0x2F96F, [0x7E02]); (0x2F970, [0x7E45]); (0x2F971, [0x4334]);
   (0x2F972, [0x26228]); (0x2F973, [0x26247]); (0x2F974, [0x4359]); (0x2F975, [0x262D9]);
   (0x2F976, [0x7F7A]); (0x2F977, [0x2633E]); (0x2F978, [0x7F95]); (0x2F979, [0x7FFA]);
   (0x2F97A, [0x8005]); (0x2F97B, [0x264DA]); (0x2F97C, [0x26523]); (0x2F97D, [0x8060]);
   (0x2F97E, [0x265A8]); (0x2F97F, [0x8070]); (0x2F980, [0x2335F]); (0x2F981, [0x43D5]);
   (0x2F982, [0x80B2]); (0x2F983, [0x8103]); (0x2F984, [0x440B]); (0x2F985, [0x813E]);
   (0x2F986, [0x5AB5]); (0x2F987, [0x267A7]); (0x2F988, [0x267B5]); (0x2F989, [0x23393]);
   (0x2F98A, [0x2339C]); (0x2F98B, [0x8201]); (0x2F98C, [0x8204]); (0x2F98D, [0x8F9E]);
   (0x2F98E, [0x446B]); (0x2F98F, [0x8291]); (0x2F990, [0x828B]); (0x2F991, [0x829D]);
   (0x2F992, [0x52B3]); (0x2F993, [0x82B1]); (0x2F994, [0x82B3]); (0x2F995, [0x82BD]);
   (0x2F996, [0x82E6]); (0x2F997, [0x26B3C]); (0x2F998, [0x82E5]); (0x2F999, [0x831D]);
   (0x2F99A, [0x8363]); (0x2F99B, [0x83AD]); (0x2F99C, [0x8323]); (0x2F99D, [0x83BD]);
   (0x2F99E, [0x83E7]); (0x2F99F, [0x8457]); (0x2F9A0, [0x8353]); (0x2F9A1, [0x83CA]);
   (0x2F9A2, [0x83CC]); (0x2F9A3, [0x83DC]); (0x2F9A4, [0x26C36]); (0x2F9A5, [0x26D6B]);
   (0x2F9A6, [0x26CD5]); (0x2F9A7, [0x452B]); (0x2F9A8, [0x84F1]); (0x2F9A9, [0x84F3]);
   (0x2F9AA, [0x8516]); (0x2F9AB, [0x273CA]); (0x2F9AC, [0x8564]); (0x2F9AD, [0x26F2C]);
   (0x2F9AE, [0x455D]); (0x2F9AF, [0x4561]); (0x2F9B0, [0x26FB1]); (0x2F9B1, [0x270D2]);
   (0x2F9B2, [0x456B]); (0x2F9B3, [0x8650]); (0x2F9B4, [0x865C]); (0x2F9B5, [0x8667]);
   (0x2F9B6, [0x8669]); (0x2F9B7, [0x86A9]); (0x2F9B8, [0x8688]); (0x2F9B9, [0x870E]);
   (0x2F9BA, [0x86E2]); (0x2F9BB, [0x8779]); (0x2F9BC, [0x8728]); (0x2F9BD, [0x876B]);
   (0x2F9BE, [0x8786]); (0x2F9BF, [0x45D7]); (0x2F9C0, [0x87E1]); (0x2F9C1, [0x8801]);
   (0x2F9C2, [0x45F9]); (0x2F9C3, [0x8860]); (0x2F9C4, [0x8863]); (0x2F9C5, [0x27667]);
   (0x2F9C6, [0x88D7]); (0x2F9C7, [0x88DE]); (0x2F9C8, [0x4635]); (0x2F9C9, [0x88FA]);
   (0x2F9CA, [0x34BB]); (0x2F9CB, [0x278AE]); (0x2F9CC, [0x27966]); (0x2F9CD, [0x46BE]);
   (0x2F9CE, [0x46C7]); (0x2F9CF, [0x8AA0]); (0x2F9D0, [0x8AED]); (0x2F9D1, [0x8B8A]);
   (0x2F9D2, [0x8C55]); (0x2F9D3, [0x27CA8]); (0x2F9D4, [0x8CAB]); (0x2F9D5, [0x8CC1]);
   (0x2F9D6, [0x8D1B]); (0x2F9D7, [0x8D77]); (0x2F9D8, [0x27F2F]); (0x2F9D9, [0x20804]);
   (0x2F9DA, [0x8DCB]); (0x2F9DB, [0x8DBC]); (0x2F9DC, [0x8DF0]); (0x2F9DD, [0x208DE]);
   (0x2F9DE, [0x8ED4]); (0x2F9DF, [0x8F38]); (0x2F9E0, [0x285D2]); (0x2F9E1, [0x285ED]);
   (0x2F9E2, [0x9094]); (0x2F9E3, [0x90F1]); (0x2F9E4, [0x9111]); (0x2F9E5, [0x2872E]);
   (0x2F9E6, [0x911B]); (0x2F9E7, [0x9238]); (0x2F9E8, [0x92D7]); (0x2F9E9, [0x92D8]);
   (0x2F9EA, [0x927C]); (0x2F9EB, [0x93F9]); (0x2F9EC, [0x9415]); (0x2F9ED, [0x28BFA]);
   (0x2F9EE, [0x958B]); (0x2F9EF, [0x4995]); (0x2F9F0, [0x95B7]); (0x2F9F1, [0x28D77]);
   (0x2F9F2, [0x49E6]); (0x2F9F3, [0x96C3]); (0x2F9F4, [0x5DB2]); (0x2F9F5, [0x9723]);
   (0x2F9F6, [0x29145]); (0x2F9F7, [0x2921A]); (0x2F9F8, [0x4A6E]); (0x2F9F9, [0x4A76]);
   (0x2F9FA, [0x97E0]); (0x2F9FB, [0x2940A]); (0x2F9FC, [0x4AB2]); (0x2F9FD, [0x29496]);
   (0x2F9FE, [0x980B]); (0x2F9FF, [0x980B]); (0x2FA00, [0x9829]); (0x2FA01, [0x295B6]);
   (0x2FA02, [0x98E2]); (0x2FA03, [0x4B33]); (0x2FA04, [0x9929]); (0x2FA05, [0x99A7]);
   (0x2FA06, [0x99C2]); (0x2FA07, [0x99FE]); (0x2FA08, [0x4BCE]); (0x2FA09, [0x29B30]);
   (0x2FA0A, [0x9B12]); (0x2FA0B, [0x9C40]); (0x2FA0C, [0x9CFD]); (0x2FA0D, [0x4CCE]);
   (0x2FA0E, [0x4CED]); (0x2FA0F, [0x9D67]); (0x2FA10, [0x2A0CE]); (0x2FA11, [0x4CF8]);
   (0x2FA12, [0x2A105]); (0x2FA13, [0x2A20E]); (0x2FA14, [0x2A291]); (0x2FA15, [0x9EBB]);
   (0x2FA16, [0x4D56]); (0x2FA17, [0x9EF9]); (0x2FA18, [0x9EFE]); (0x2FA19, [0x9F05]);
   (0x2FA1A, [0x9F0F]); (0x2FA1B, [0x9F16]); (0x2FA1C, [0x9F3B]); (0x2FA1D, [0x2A600])
  ].

(** Canonical_Combining_Class: the ranges [(first, last, class)] of the code
    points of non-zero class. *)
Definition combining_class_table : list (N * N * N) :=
  [
   (0x300, 0x314, 230); (0x315, 0x315, 232); (0x316, 0x319, 220); (0x31A, 0x31A, 232);
   (0x31B, 0x31B, 216); (0x31C, 0x320, 220); (0x321, 0x322, 202); (0x323, 0x326, 220);
   (0x327, 0x328, 202); (0x329, 0x333, 220); (0x334, 0x338, 1); (0x339, 0x33C, 220);
   (0x33D, 0x344, 230); (0x345, 0x345, 240); (0x346, 0x346, 230); (0x347, 0x349, 220);
   (0x34A, 0x34C, 230); (0x34D, 0x34E, 220); (0x350, 0x352, 230); (0x353, 0x356, 220);
   (0x357, 0x357, 230); (0x358, 0x358, 232); (0x359, 0x35A, 220); (0x35B, 0x35B, 230);
   (0x35C, 0x35C, 233); (0x35D, 0x35E, 234); (0x35F, 0x35F, 233); (0x360, 0x361, 234);
   (0x362, 0x362, 233); (0x363, 0x36F, 230); (0x483, 0x487, 230); (0x591, 0x591, 220);
   (0x592, 0x595, 230); (0x596, 0x596, 220); (0x597, 0x599, 230); (0x59A, 0x59A, 222);
   (0x59B, 0x59B, 220); (0x59C, 0x5A1, 230); (0x5A2, 0x5A7, 220); (0x5A8, 0x5A9, 230);
   (0x5AA, 0x5AA, 220); (0x5AB, 0x5AC, 230); (0x5AD, 0x5AD, 222); (0x5AE, 0x5AE, 228);
   (0x5AF, 0x5AF, 230); (0x5B0, 0x5B0, 10); (0x5B1, 0x5B1, 11); (0x5B2, 0x5B2, 12);
   (0x5B3, 0x5B3, 13); (0x5B4, 0x5B4, 14); (0x5B5, 0x5B5, 15); (0x5B6, 0x5B6, 16);
   (0x5B7, 0x5B7, 17); (0x5B8, 0x5B8, 18); (0x5B9, 0x5BA, 19); (0x5BB, 0x5BB, 20);
   (0x5BC, 0x5BC, 21); (0x5BD, 0x5BD, 22); (0x5BF, 0x5BF, 23); (0x5C1, 0x5C1, 24);
   (0x5C2, 0x5C2, 25); (0x5C4, 0x5C4, 230); (0x5C5, 0x5C5, 220); (0x5C7, 0x5C7, 18);
   (0x610, 0x617, 230); (0x618, 0x618, 30); (0x619, 0x619, 31); (0x61A, 0x61A, 32);
   (0x64B, 0x64B, 27); (0x64C, 0x64C, 28); (0x64D, 0x64D, 29); (0x64E, 0x64E, 30);
   (0x64F, 0x64F, 31); (0x650, 0x650, 32); (0x651, 0x651, 33); (0x652, 0x652, 34);
   (0x653, 0x654, 230); (0x655, 0x656, 220); (0x657, 0x65B, 230); (0x65C, 0x65C, 220);
   (0x65D, 0x65E, 230); (0x65F, 0x65F, 220); (0x670, 0x670, 35); (0x6D6, 0x6DC, 230);
   (0x6DF, 0x6E2, 230); (0x6E3, 0x6E3, 220); (0x6E4, 0x6E4, 230); (0x6E7, 0x6E8, 230);
   (0x6EA, 0x6EA, 220); (0x6EB, 0x6EC, 230); (0x6ED, 0x6ED, 220); (0x711, 0x711, 36);
   (0x730, 0x730, 230); (0x731, 0x731, 220); (0x732, 0x733, 230); (0x734, 0x734, 220);
   (0x735, 0x736, 230); (0x737, 0x739, 220); (0x73A, 0x73A, 230); (0x73B, 0x73C, 220);
   (0x73D, 0x73D, 230); (0x73E, 0x73E, 220); (0x73F, 0x741, 230); (0x742, 0x742, 220);
   (0x743, 0x743, 230); (0x744, 0x744, 220); (0x745, 0x745, 230); (0x746, 0x746, 220);
   (0x747, 0x747, 230); (0x748, 0x748, 220); (0x749, 0x74A, 230); (0x7EB, 0x7F1, 230);
   (0x7F2, 0x7F2, 220); (0x7F3, 0x7F3, 230); (0x7FD, 0x7FD, 220); (0x816, 0x819, 230);
   (0x81B, 0x823, 230); (0x825, 0x827, 230); (0x829, 0x82D, 230); (0x859, 0x85B, 220);
   (0x898, 0x898, 230); (0x899, 0x89B, 220); (0x89C, 0x89F, 230); (0x8CA, 0x8CE, 230);
   (0x8CF, 0x8D3, 220); (0x8D4, 0x8E1, 230); (0x8E3, 0x8E3, 220); (0x8E4, 0x8E5, 230);
   (0x8E6, 0x8E6, 220); (0x8E7, 0x8E8, 230); (0x8E9, 0x8E9, 220); (0x8EA, 0x8EC, 230);
   (0x8ED, 0x8EF, 220); (0x8F0, 0x8F0, 27); (0x8F1, 0x8F1, 28); (0x8F2, 0x8F2, 29);
   (0x8F3, 0x8F5, 230); (0x8F6, 0x8F6, 220); (0x8F7, 0x8F8, 230); (0x8F9, 0x8FA, 220);
   (0x8FB, 0x8FF, 230); (0x93C, 0x93C, 7); (0x94D, 0x94D, 9); (0x951, 0x951, 230);
   (0x952, 0x952, 220); (0x953, 0x954, 230); (0x9BC, 0x9BC, 7); (0x9CD, 0x9CD, 9);
   (0x9FE, 0x9FE, 230); (0xA3C, 0xA3C, 7); (0xA4D, 0xA4D, 9); (0xABC, 0xABC, 7);
   (0xACD, 0xACD, 9); (0xB3C, 0xB3C, 7); (0xB4D, 0xB4D, 9); (0xBCD, 0xBCD, 9);
   (0xC3C, 0xC3C, 7); (0xC4D, 0xC4D, 9); (0xC55, 0xC55, 84); (0xC56, 0xC56, 91);
   (0xCBC, 0xCBC, 7); (0xCCD, 0xCCD, 9); (0xD3B, 0xD3C, 9); (0xD4D, 0xD4D, 9);
   (0xDCA, 0xDCA, 9); (0xE38, 0xE39, 103); (0xE3A, 0xE3A, 9); (0xE48, 0xE4B, 107);
   (0xEB8, 0xEB9, 118); (0xEBA, 0xEBA, 9); (0xEC8, 0xECB, 122); (0xF18, 0xF19, 220);
   (0xF35, 0xF35, 220); (0xF37, 0xF37, 220); (0xF39, 0xF39, 216); (0xF71, 0xF71, 129);
   (0xF72, 0xF72, 130); (0xF74, 0xF74, 132); (0xF7A, 0xF7D, 130); (0xF80, 0xF80, 130);
   (0xF82, 0xF83, 230); (0xF84, 0xF84, 9); (0xF86, 0xF87, 230); (0xFC6, 0xFC6, 220);
   (0x1037, 0x1037, 7); (0x1039, 0x103A, 9); (0x108D, 0x108D, 220); (0x135D, 0x135F, 230);
   (0x1714, 0x1715, 9); (0x1734, 0x1734, 9); (0x17D2, 0x17D2, 9); (0x17DD, 0x17DD, 230);
   (0x18A9, 0x18A9, 228); (0x1939, 0x1939, 222); (0x193A, 0x193A, 230); (0x193B, 0x193B, 220);
   (0x1A17, 0x1A17, 230); (0x1A18, 0x1A18, 220); (0x1A60, 0x1A60, 9); (0x1A75, 0x1A7C, 230);
   (0x1A7F, 0x1A7F, 220); (0x1AB0, 0x1AB4, 230); (0x1AB5, 0x1ABA, 220); (0x1ABB, 0x1ABC, 230);
   (0x1ABD, 0x1ABD, 220); (0x1ABF, 0x1AC0, 220); (0x1AC1, 0x1AC2, 230); (0x1AC3, 0x1AC4, 220);
   (0x1AC5, 0x1AC9, 230); (0x1ACA, 0x1ACA, 220); (0x1ACB, 0x1ACE, 230); (0x1B34, 0x1B34, 7);
   (0x1B44, 0x1B44, 9); (0x1B6B, 0x1B6B, 230); (0x1B6C, 0x1B6C, 220); (0x1B6D, 0x1B73, 230);
   (0x1BAA, 0x1BAB, 9); (0x1BE6, 0x1BE6, 7); (0x1BF2, 0x1BF3, 9); (0x1C37, 0x1C37, 7);
   (0x1CD0, 0x1CD2, 230); (0x1CD4, 0x1CD4, 1); (0x1CD5, 0x1CD9, 220); (0x1CDA, 0x1CDB, 230);
   (0x1CDC, 0x1CDF, 220); (0x1CE0, 0x1CE0, 230); (0x1CE2, 0x1CE8, 1); (0x1CED, 0x1CED, 220);
   (0x1CF4, 0x1CF4, 230); (0x1CF8, 0x1CF9, 230); (0x1DC0, 0x1DC1, 230); (0x1DC2, 0x1DC2, 220);
   (0x1DC3, 0x1DC9, 230); (0x1DCA, 0x1DCA, 220); (0x1DCB, 0x1DCC, 230); (0x1DCD, 0x1DCD, 234);
   (0x1DCE, 0x1DCE, 214); (0x1DCF, 0x1DCF, 220); (0x1DD0, 0x1DD0, 202); (0x1DD1, 0x1DF5, 230);
   (0x1DF6, 0x1DF6, 232); (0x1DF7, 0x1DF8, 228); (0x1DF9, 0x1DF9, 220); (0x1DFA, 0x1DFA, 218);
   (0x1DFB, 0x1DFB, 230); (0x1DFC, 0x1DFC, 233); (0x1DFD, 0x1DFD, 220); (0x1DFE, 0x1DFE, 230);
   (0x1DFF, 0x1DFF, 220); (0x20D0, 0x20D1, 230); (0x20D2, 0x20D3, 1); (0x20D4, 0x20D7, 230);
   (0x20D8, 0x20DA, 1); (0x20DB, 0x20DC, 230); (0x20E1, 0x20E1, 230); (0x20E5, 0x20E6, 1);
   (0x20E7, 0x20E7, 230); (0x20E8, 0x20E8, 220); (0x20E9, 0x20E9, 230); (0x20EA, 0x20EB, 1);
   (0x20EC, 0x20EF, 220); (0x20F0, 0x20F0, 230); (0x2CEF, 0x2CF1, 230); (0x2D7F, 0x2D7F, 9);
   (0x2DE0, 0x2DFF, 230); (0x302A, 0x302A, 218); (0x302B, 0x302B, 228); (0x302C, 0x302C, 232);
   (0x302D, 0x302D, 222); (0x302E, 0x302F, 224); (0x3099, 0x309A, 8); (0xA66F, 0xA66F, 230);
   (0xA674, 0xA67D, 230); (0xA69E, 0xA69F, 230); (0xA6F0, 0xA6F1, 230); (0xA806, 0xA806, 9);
   (0xA82C, 0xA82C, 9); (0xA8C4, 0xA8C4, 9); (0xA8E0, 0xA8F1, 230); (0xA92B, 0xA92D, 220);
   (0xA953, 0xA953, 9); (0xA9B3, 0xA9B3, 7); (0xA9C0, 0xA9C0, 9); (0xAAB0, 0xAAB0, 230);
   (0xAAB2, 0xAAB3, 230); (0xAAB4, 0xAAB4, 220); (0xAAB7, 0xAAB8, 230); (0xAABE, 0xAABF, 230);
   (0xAAC1, 0xAAC1, 230); (0xAAF6, 0xAAF6, 9); (0xABED, 0xABED, 9); (0xFB1E, 0xFB1E, 26);
   (0xFE20, 0xFE26, 230); (0xFE27, 0xFE2D, 220); (0xFE2E, 0xFE2F, 230);
   (0x101FD, 0x101FD, 220); (0x102E0, 0x102E0, 220); (0x10376, 0x1037A, 230);
   (0x10A0D, 0x10A0D, 220); (0x10A0F, 0x10A0F, 230); (0x10A38, 0x10A38, 230);
   (0x10A39, 0x10A39, 1); (0x10A3A, 0x10A3A, 220); (0x10A3F, 0x10A3F, 9);
   (0x10AE5, 0x10AE5, 230); (0x10AE6, 0x10AE6, 220); (0x10D24, 0x10D27, 230);
   (0x10EAB, 0x10EAC, 230); (0x10F46, 0x10F47, 220); (0x10F48, 0x10F4A, 230);
   (0x10F4B, 0x10F4B, 220); (0x10F4C, 0x10F4C, 230); (0x10F4D, 0x10F50, 220);
   (0x10F82, 0x10F82, 230); (0x10F83, 0x10F83, 220); (0x10F84, 0x10F84, 230);
   (0x10F85, 0x10F85, 220); (0x11046, 0x11046, 9); (0x11070, 0x11070, 9);
   (0x1107F, 0x1107F, 9); (0x110B9, 0x110B9, 9); (0x110BA, 0x110BA, 7);
   (0x11100, 0x11102, 230); (0x11133, 0x11134, 9); (0x11173, 0x11173, 7);
   (0x111C0, 0x111C0, 9); (0x111CA, 0x111CA, 7); (0x11235, 0x11235, 9); (0x11236, 0x11236, 7);
   (0x112E9, 0x112E9, 7); (0x112EA, 0x112EA, 9); (0x1133B, 0x1133C, 7); (0x1134D, 0x1134D, 9);
   (0x11366, 0x1136C, 230); (0x11370, 0x11374, 230); (0x11442, 0x11442, 9);
   (0x11446, 0x11446, 7); (0x1145E, 0x1145E, 230); (0x114C2, 0x114C2, 9);
   (0x114C3, 0x114C3, 7); (0x115BF, 0x115BF, 9); (0x115C0, 0x115C0, 7); (0x1163F, 0x1163F, 9);
   (0x116B6, 0x116B6, 9); (0x116B7, 0x116B7, 7); (0x1172B, 0x1172B, 9); (0x11839, 0x11839, 9);
   (0x1183A, 0x1183A, 7); (0x1193D, 0x1193E, 9); (0x11943, 0x11943, 7); (0x119E0, 0x119E0, 9);
   (0x11A34, 0x11A34, 9); (0x11A47, 0x11A47, 9); (0x11A99, 0x11A99, 9); (0x11C3F, 0x11C3F, 9);
   (0x11D42, 0x11D42, 7); (0x11D44, 0x11D45, 9); (0x11D97, 0x11D97, 9); (0x16AF0, 0x16AF4, 1);
   (0x16B30, 0x16B36, 230); (0x16FF0, 0x16FF1, 6); (0x1BC9E, 0x1BC9E, 1);
   (0x1D165, 0x1D166, 216); (0x1D167, 0x1D169, 1); (0x1D16D, 0x1D16D, 226);
   (0x1D16E, 0x1D172, 216); (0x1D17B, 0x1D182, 220); (0x1D185, 0x1D189, 230);
   (0x1D18A, 0x1D18B, 220); (0x1D1AA, 0x1D1AD, 230); (0x1D242, 0x1D244, 230);
   (0x1E000, 0x1E006, 230); (0x1E008, 0x1E018, 230); (0x1E01B, 0x1E021, 230);
   (0x1E023, 0x1E024, 230); (0x1E026, 0x1E02A, 230); (0x1E130, 0x1E136, 230);
   (0x1E2AE, 0x1E2AE, 230); (0x1E2EC, 0x1E2EF, 230); (0x1E8D0, 0x1E8D6, 220);
   (0x1E944, 0x1E949, 230); (0x1E94A, 0x1E94A, 7)
  ].

(** Simple_Lowercase_Mapping, as runs [(first, last, stride, image of first)]:
    every [stride]-th code point from [first] to [last] maps to the code
    point at the same distance from the image of [first]. *)
Definition lowercase_table : list (N * N * N * N) :=
  [
   (0x41, 0x5A, 1, 0x61); (0xC0, 0xD6, 1, 0xE0); (0xD8, 0xDE, 1, 0xF8);
   (0x100, 0x12E, 2, 0x101); (0x132, 0x136, 2, 0x133); (0x139, 0x147, 2, 0x13A);
   (0x14A, 0x176, 2, 0x14B); (0x178, 0x178, 1, 0xFF); (0x179, 0x17D, 2, 0x17A);
   (0x181, 0x181, 1, 0x253); (0x182, 0x184, 2, 0x183); (0x186, 0x186, 1, 0x254);
   (0x187, 0x187, 1, 0x188); (0x189, 0x18A, 1, 0x256); (0x18B, 0x18B, 1, 0x18C);
   (0x18E, 0x18E, 1, 0x1DD); (0x18F, 0x18F, 1, 0x259); (0x190, 0x190, 1, 0x25B);
   (0x191, 0x191, 1, 0x192); (0x193, 0x193, 1, 0x260); (0x194, 0x194, 1, 0x263);
   (0x196, 0x196, 1, 0x269); (0x197, 0x197, 1, 0x268); (0x198, 0x198, 1, 0x199);
   (0x19C, 0x19C, 1, 0x26F); (0x19D, 0x19D, 1, 0x272); (0x19F, 0x19F, 1, 0x275);
   (0x1A0, 0x1A4, 2, 0x1A1); (0x1A6, 0x1A6, 1, 0x280); (0x1A7, 0x1A7, 1, 0x1A8);
   (0x1A9, 0x1A9, 1, 0x283); (0x1AC, 0x1AC, 1, 0x1AD); (0x1AE, 0x1AE, 1, 0x288);
   (0x1AF, 0x1AF, 1, 0x1B0); (0x1B1, 0x1B2, 1, 0x28A); (0x1B3, 0x1B5, 2, 0x1B4);
   (0x1B7, 0x1B7, 1, 0x292); (0x1B8, 0x1B8, 1, 0x1B9); (0x1BC, 0x1BC, 1, 0x1BD);
   (0x1C4, 0x1C4, 1, 0x1C6); (0x1C5, 0x1C5, 1, 0x1C6); (0x1C7, 0x1C7, 1, 0x1C9);
   (0x1C8, 0x1C8, 1, 0x1C9); (0x1CA, 0x1CA, 1, 0x1CC); (0x1CB, 0x1DB, 2, 0x1CC);
   (0x1DE, 0x1EE, 2, 0x1DF); (0x1F1, 0x1F1, 1, 0x1F3); (0x1F2, 0x1F4, 2, 0x1F3);
   (0x1F6, 0x1F6, 1, 0x195); (0x1F7, 0x1F7, 1, 0x1BF); (0x1F8, 0x21E, 2, 0x1F9);
   (0x220, 0x220, 1, 0x19E); (0x222, 0x232, 2, 0x223); (0x23A, 0x23A, 1, 0x2C65);
   (0x23B, 0x23B, 1, 0x23C); (0x23D, 0x23D, 1, 0x19A); (0x23E, 0x23E, 1, 0x2C66);
   (0x241, 0x241, 1, 0x242); (0x243, 0x243, 1, 0x180); (0x244, 0x244, 1, 0x289);
   (0x245, 0x245, 1, 0x28C); (0x246, 0x24E, 2, 0x247); (0x370, 0x372, 2, 0x371);
   (0x376, 0x376, 1, 0x377); (0x37F, 0x37F, 1, 0x3F3); (0x386, 0x386, 1, 0x3AC);
   (0x388, 0x38A, 1, 0x3AD); (0x38C, 0x38C, 1, 0x3CC); (0x38E, 0x38F, 1, 0x3CD);
   (0x391, 0x3A1, 1, 0x3B1); (0x3A3, 0x3AB, 1, 0x3C3); (0x3CF, 0x3CF, 1, 0x3D7);
   (0x3D8, 0x3EE, 2, 0x3D9); (0x3F4, 0x3F4, 1, 0x3B8); (0x3F7, 0x3F7, 1, 0x3F8);
   (0x3F9, 0x3F9, 1, 0x3F2); (0x3FA, 0x3FA, 1, 0x3FB); (0x3FD, 0x3FF, 1, 0x37B);
   (0x400, 0x40F, 1, 0x450); (0x410, 0x42F, 1, 0x430); (0x460, 0x480, 2, 0x461);
   (0x48A, 0x4BE, 2, 0x48B); (0x4C0, 0x4C0, 1, 0x4CF); (0x4C1, 0x4CD, 2, 0x4C2);
   (0x4D0, 0x52E, 2, 0x4D1); (0x531, 0x556, 1, 0x561); (0x10A0, 0x10C5, 1, 0x2D00);
   (0x10C7, 0x10C7, 1, 0x2D27); (0x10CD, 0x10CD, 1, 0x2D2D); (0x13A0, 0x13EF, 1, 0xAB70);
   (0x13F0, 0x13F5, 1, 0x13F8); (0x1C90, 0x1CBA, 1, 0x10D0); (0x1CBD, 0x1CBF, 1, 0x10FD);
   (0x1E00, 0x1E94, 2, 0x1E01); (0x1E9E, 0x1E9E, 1, 0xDF); (0x1EA0, 0x1EFE, 2, 0x1EA1);
   (0x1F08, 0x1F0F, 1, 0x1F00); (0x1F18, 0x1F1D, 1, 0x1F10); (0x1F28, 0x1F2F, 1, 0x1F20);
   (0x1F38, 0x1F3F, 1, 0x1F30); (0x1F48, 0x1F4D, 1, 0x1F40); (0x1F59, 0x1F5F, 2, 0x1F51);
   (0x1F68, 0x1F6F, 1, 0x1F60); (0x1F88, 0x1F8F, 1, 0x1F80); (0x1F98, 0x1F9F, 1, 0x1F90);
   (0x1FA8, 0x1FAF, 1, 0x1FA0); (0x1FB8, 0x1FB9, 1, 0x1FB0); (0x1FBA, 0x1FBB, 1, 0x1F70);
   (0x1FBC, 0x1FBC, 1, 0x1FB3); (0x1FC8, 0x1FCB, 1, 0x1F72); (0x1FCC, 0x1FCC, 1, 0x1FC3);
   (0x1FD8, 0x1FD9, 1, 0x1FD0); (0x1FDA, 0x1FDB, 1, 0x1F76); (0x1FE8, 0x1FE9, 1, 0x1FE0);
   (0x1FEA, 0x1FEB, 1, 0x1F7A); (0x1FEC, 0x1FEC, 1, 0x1FE5); (0x1FF8, 0x1FF9, 1, 0x1F78);
   (0x1FFA, 0x1FFB, 1, 0x1F7C); (0x1FFC, 0x1FFC, 1, 0x1FF3); (0x2126, 0x2126, 1, 0x3C9);
   (0x212A, 0x212A, 1, 0x6B); (0x212B, 0x212B, 1, 0xE5); (0x2132, 0x2132, 1, 0x214E);
   (0x2160, 0x216F, 1, 0x2170); (0x2183, 0x2183, 1, 0x2184); (0x24B6, 0x24CF, 1, 0x24D0);
   (0x2C00, 0x2C2F, 1, 0x2C30); (0x2C60, 0x2C60, 1, 0x2C61); (0x2C62, 0x2C62, 1, 0x26B);
   (0x2C63, 0x2C63, 1, 0x1D7D); (0x2C64, 0x2C64, 1, 0x27D); (0x2C67, 0x2C6B, 2, 0x2C68);
   (0x2C6D, 0x2C6D, 1, 0x251); (0x2C6E, 0x2C6E, 1, 0x271); (0x2C6F, 0x2C6F, 1, 0x250);
   (0x2C70, 0x2C70, 1, 0x252); (0x2C72, 0x2C72, 1, 0x2C73); (0x2C75, 0x2C75, 1, 0x2C76);
   (0x2C7E, 0x2C7F, 1, 0x23F); (0x2C80, 0x2CE2, 2, 0x2C81); (0x2CEB, 0x2CED, 2, 0x2CEC);
   (0x2CF2, 0x2CF2, 1, 0x2CF3); (0xA640, 0xA66C, 2, 0xA641); (0xA680, 0xA69A, 2, 0xA681);
   (0xA722, 0xA72E, 2, 0xA723); (0xA732, 0xA76E, 2, 0xA733); (0xA779, 0xA77B, 2, 0xA77A);
   (0xA77D, 0xA77D, 1, 0x1D79); (0xA77E, 0xA786, 2, 0xA77F); (0xA78B, 0xA78B, 1, 0xA78C);
   (0xA78D, 0xA78D, 1, 0x265); (0xA790, 0xA792, 2, 0xA791); (0xA796, 0xA7A8, 2, 0xA797);
   (0xA7AA, 0xA7AA, 1, 0x266); (0xA7AB, 0xA7AB, 1, 0x25C); (0xA7AC, 0xA7AC, 1, 0x261);
   (0xA7AD, 0xA7AD, 1, 0x26C); (0xA7AE, 0xA7AE, 1, 0x26A); (0xA7B0, 0xA7B0, 1, 0x29E);
   (0xA7B1, 0xA7B1, 1, 0x287); (0xA7B2, 0xA7B2, 1, 0x29D); (0xA7B3, 0xA7B3, 1, 0xAB53);
   (0xA7B4, 0xA7C2, 2, 0xA7B5); (0xA7C4, 0xA7C4, 1, 0xA794); (0xA7C5, 0xA7C5, 1, 0x282);
   (0xA7C6, 0xA7C6, 1, 0x1D8E); (0xA7C7, 0xA7C9, 2, 0xA7C8); (0xA7D0, 0xA7D0, 1, 0xA7D1);
   (0xA7D6, 0xA7D8, 2, 0xA7D7); (0xA7F5, 0xA7F5, 1, 0xA7F6); (0xFF21, 0xFF3A, 1, 0xFF41);
   (0x10400, 0x10427, 1, 0x10428); (0x104B0, 0x104D3, 1, 0x104D8);
   (0x10570, 0x1057A, 1, 0x10597); (0x1057C, 0x1058A, 1, 0x105A3);
   (0x1058C, 0x10592, 1, 0x105B3); (0x10594, 0x10595, 1, 0x105BB);
   (0x10C80, 0x10CB2, 1, 0x10CC0); (0x118A0, 0x118BF, 1, 0x118C0);
   (0x16E40, 0x16E5F, 1, 0x16E60); (0x1E900, 0x1E921, 1, 0x1E922)
  ].

(** The ranges of the property Cased (DerivedCoreProperties.txt). *)
Definition cased_table : list (N * N) :=
  [
   (0x41, 0x5A); (0x61, 0x7A); (0xAA, 0xAA); (0xB5, 0xB5); (0xBA, 0xBA); (0xC0, 0xD6);
   (0xD8, 0xF6); (0xF8, 0x1BA); (0x1BC, 0x1BF); (0x1C4, 0x293); (0x295, 0x2B8); (0x2C0, 0x2C1);
   (0x2E0, 0x2E4); (0x345, 0x345); (0x370, 0x373); (0x376, 0x377); (0x37A, 0x37D);
   (0x37F, 0x37F); (0x386, 0x386); (0x388, 0x38A); (0x38C, 0x38C); (0x38E, 0x3A1);
   (0x3A3, 0x3F5); (0x3F7, 0x481); (0x48A, 0x52F); (0x531, 0x556); (0x560, 0x588);
   (0x10A0, 0x10C5); (0x10C7, 0x10C7); (0x10CD, 0x10CD); (0x10D0, 0x10FA); (0x10FD, 0x10FF);
   (0x13A0, 0x13F5); (0x13F8, 0x13FD); (0x1C80, 0x1C88); (0x1C90, 0x1CBA); (0x1CBD, 0x1CBF);
   (0x1D00, 0x1DBF); (0x1E00, 0x1F15); (0x1F18, 0x1F1D); (0x1F20, 0x1F45); (0x1F48, 0x1F4D);
   (0x1F50, 0x1F57); (0x1F59, 0x1F59); (0x1F5B, 0x1F5B); (0x1F5D, 0x1F5D); (0x1F5F, 0x1F7D);
   (0x1F80, 0x1FB4); (0x1FB6, 0x1FBC); (0x1FBE, 0x1FBE); (0x1FC2, 0x1FC4); (0x1FC6, 0x1FCC);
   (0x1FD0, 0x1FD3); (0x1FD6, 0x1FDB); (0x1FE0, 0x1FEC); (0x1FF2, 0x1FF4); (0x1FF6, 0x1FFC);
   (0x2071, 0x2071); (0x207F, 0x207F); (0x2090, 0x209C); (0x2102, 0x2102); (0x2107, 0x2107);
   (0x210A, 0x2113); (0x2115, 0x2115); (0x2119, 0x211D); (0x2124, 0x2124); (0x2126, 0x2126);
   (0x2128, 0x2128); (0x212A, 0x212D); (0x212F, 0x2134); (0x2139, 0x2139); (0x213C, 0x213F);
   (0x2145, 0x2149); (0x214E, 0x214E); (0x2160, 0x217F); (0x2183, 0x2184); (0x24B6, 0x24E9);
   (0x2C00, 0x2CE4); (0x2CEB, 0x2CEE); (0x2CF2, 0x2CF3); (0x2D00, 0x2D25); (0x2D27, 0x2D27);
   (0x2D2D, 0x2D2D); (0xA640, 0xA66D); (0xA680, 0xA69D); (0xA722, 0xA787); (0xA78B, 0xA78E);
   (0xA790, 0xA7CA); (0xA7D0, 0xA7D1); (0xA7D3, 0xA7D3); (0xA7D5, 0xA7D9); (0xA7F5, 0xA7F6);
   (0xA7F8, 0xA7FA); (0xAB30, 0xAB5A); (0xAB5C, 0xAB68); (0xAB70, 0xABBF); (0xFB00, 0xFB06);
   (0xFB13, 0xFB17); (0xFF21, 0xFF3A); (0xFF41, 0xFF5A); (0x10400, 0x1044F);
   (0x104B0, 0x104D3); (0x104D8, 0x104FB); (0x10570, 0x1057A); (0x1057C, 0x1058A);
   (0x1058C, 0x10592); (0x10594, 0x10595); (0x10597, 0x105A1); (0x105A3, 0x105B1);
   (0x105B3, 0x105B9); (0x105BB, 0x105BC); (0x10780, 0x10780); (0x10783, 0x10785);
   (0x10787, 0x107B0); (0x107B2, 0x107BA); (0x10C80, 0x10CB2); (0x10CC0, 0x10CF2);
   (0x118A0, 0x118DF); (0x16E40, 0x16E7F); (0x1D400, 0x1D454); (0x1D456, 0x1D49C);
   (0x1D49E, 0x1D49F); (0x1D4A2, 0x1D4A2); (0x1D4A5, 0x1D4A6); (0x1D4A9, 0x1D4AC);
   (0x1D4AE, 0x1D4B9); (0x1D4BB, 0x1D4BB); (0x1D4BD, 0x1D4C3); (0x1D4C5, 0x1D505);
   (0x1D507, 0x1D50A); (0x1D50D, 0x1D514); (0x1D516, 0x1D51C); (0x1D51E, 0x1D539);
   (0x1D53B, 0x1D53E); (0x1D540, 0x1D544); (0x1D546, 0x1D546); (0x1D54A, 0x1D550);
   (0x1D552, 0x1D6A5); (0x1D6A8, 0x1D6C0); (0x1D6C2, 0x1D6DA); (0x1D6DC, 0x1D6FA);
   (0x1D6FC, 0x1D714); (0x1D716, 0x1D734); (0x1D736, 0x1D74E); (0x1D750, 0x1D76E);
   (0x1D770, 0x1D788); (0x1D78A, 0x1D7A8); (0x1D7AA, 0x1D7C2); (0x1D7C4, 0x1D7CB);
   (0x1DF00, 0x1DF09); (0x1DF0B, 0x1DF1E); (0x1E900, 0x1E943); (0x1F130, 0x1F149);
   (0x1F150, 0x1F169); (0x1F170, 0x1F189)
  ].

(** The ranges of the property Case_Ignorable (DerivedCoreProperties.txt). *)
Definition case_ignorable_table : list (N * N) :=
  [
   (0x27, 0x27); (0x2E, 0x2E); (0x3A, 0x3A); (0x5E, 0x5E); (0x60, 0x60); (0xA8, 0xA8);
   (0xAD, 0xAD); (0xAF, 0xAF); (0xB4, 0xB4); (0xB7, 0xB8); (0x2B0, 0x36F); (0x374, 0x375);
   (0x37A, 0x37A); (0x384, 0x385); (0x387, 0x387); (0x483, 0x489); (0x559, 0x559);
   (0x55F, 0x55F); (0x591, 0x5BD); (0x5BF, 0x5BF); (0x5C1, 0x5C2); (0x5C4, 0x5C5);
   (0x5C7, 0x5C7); (0x5F4, 0x5F4); (0x600, 0x605); (0x610, 0x61A); (0x61C, 0x61C);
   (0x640, 0x640); (0x64B, 0x65F); (0x670, 0x670); (0x6D6, 0x6DD); (0x6DF, 0x6E8);
   (0x6EA, 0x6ED); (0x70F, 0x70F); (0x711, 0x711); (0x730, 0x74A); (0x7A6, 0x7B0);
   (0x7EB, 0x7F5); (0x7FA, 0x7FA); (0x7FD, 0x7FD); (0x816, 0x82D); (0x859, 0x85B);
   (0x888, 0x888); (0x890, 0x891); (0x898, 0x89F); (0x8C9, 0x902); (0x93A, 0x93A);
   (0x93C, 0x93C); (0x941, 0x948); (0x94D, 0x94D); (0x951, 0x957); (0x962, 0x963);
   (0x971, 0x971); (0x981, 0x981); (0x9BC, 0x9BC); (0x9C1, 0x9C4); (0x9CD, 0x9CD);
   (0x9E2, 0x9E3); (0x9FE, 0x9FE); (0xA01, 0xA02); (0xA3C, 0xA3C); (0xA41, 0xA42);
   (0xA47, 0xA48); (0xA4B, 0xA4D); (0xA51, 0xA51); (0xA70, 0xA71); (0xA75, 0xA75);
   (0xA81, 0xA82); (0xABC, 0xABC); (0xAC1, 0xAC5); (0xAC7, 0xAC8); (0xACD, 0xACD);
   (0xAE2, 0xAE3); (0xAFA, 0xAFF); (0xB01, 0xB01); (0xB3C, 0xB3C); (0xB3F, 0xB3F);
   (0xB41, 0xB44); (0xB4D, 0xB4D); (0xB55, 0xB56); (0xB62, 0xB63); (0xB82, 0xB82);
   (0xBC0, 0xBC0); (0xBCD, 0xBCD); (0xC00, 0xC00); (0xC04, 0xC04); (0xC3C, 0xC3C);
   (0xC3E, 0xC40); (0xC46, 0xC48); (0xC4A, 0xC4D); (0xC55, 0xC56); (0xC62, 0xC63);
   (0xC81, 0xC81); (0xCBC, 0xCBC); (0xCBF, 0xCBF); (0xCC6, 0xCC6); (0xCCC, 0xCCD);
   (0xCE2, 0xCE3); (0xD00, 0xD01); (0xD3B, 0xD3C); (0xD41, 0xD44); (0xD4D, 0xD4D);
   (0xD62, 0xD63); (0xD81, 0xD81); (0xDCA, 0xDCA); (0xDD2, 0xDD4); (0xDD6, 0xDD6);
   (0xE31, 0xE31); (0xE34, 0xE3A); (0xE46, 0xE4E); (0xEB1, 0xEB1); (0xEB4, 0xEBC);
   (0xEC6, 0xEC6); (0xEC8, 0xECD); (0xF18, 0xF19); (0xF35, 0xF35); (0xF37, 0xF37);
   (0xF39, 0xF39); (0xF71, 0xF7E); (0xF80, 0xF84); (0xF86, 0xF87); (0xF8D, 0xF97);
   (0xF99, 0xFBC); (0xFC6, 0xFC6); (0x102D, 0x1030); (0x1032, 0x1037); (0x1039, 0x103A);
   (0x103D, 0x103E); (0x1058, 0x1059); (0x105E, 0x1060); (0x1071, 0x1074); (0x1082, 0x1082);
   (0x1085, 0x1086); (0x108D, 0x108D); (0x109D, 0x109D); (0x10FC, 0x10FC); (0x135D, 0x135F);
   (0x1712, 0x1714); (0x1732, 0x1733); (0x1752, 0x1753); (0x1772, 0x1773); (0x17B4, 0x17B5);
   (0x17B7, 0x17BD); (0x17C6, 0x17C6); (0x17C9, 0x17D3); (0x17D7, 0x17D7); (0x17DD, 0x17DD);
   (0x180B, 0x180F); (0x1843, 0x1843); (0x1885, 0x1886); (0x18A9, 0x18A9); (0x1920, 0x1922);
   (0x1927, 0x1928); (0x1932, 0x1932); (0x1939, 0x193B); (0x1A17, 0x1A18); (0x1A1B, 0x1A1B);
   (0x1A56, 0x1A56); (0x1A58, 0x1A5E); (0x1A60, 0x1A60); (0x1A62, 0x1A62); (0x1A65, 0x1A6C);
   (0x1A73, 0x1A7C); (0x1A7F, 0x1A7F); (0x1AA7, 0x1AA7); (0x1AB0, 0x1ACE); (0x1B00, 0x1B03);
   (0x1B34, 0x1B34); (0x1B36, 0x1B3A); (0x1B3C, 0x1B3C); (0x1B42, 0x1B42); (0x1B6B, 0x1B73);
   (0x1B80, 0x1B81); (0x1BA2, 0x1BA5); (0x1BA8, 0x1BA9); (0x1BAB, 0x1BAD); (0x1BE6, 0x1BE6);
   (0x1BE8, 0x1BE9); (0x1BED, 0x1BED); (0x1BEF, 0x1BF1); (0x1C2C, 0x1C33); (0x1C36, 0x1C37);
   (0x1C78, 0x1C7D); (0x1CD0, 0x1CD2); (0x1CD4, 0x1CE0); (0x1CE2, 0x1CE8); (0x1CED, 0x1CED);
   (0x1CF4, 0x1CF4); (0x1CF8, 0x1CF9); (0x1D2C, 0x1D6A); (0x1D78, 0x1D78); (0x1D9B, 0x1DFF);
   (0x1FBD, 0x1FBD); (0x1FBF, 0x1FC1); (0x1FCD, 0x1FCF); (0x1FDD, 0x1FDF); (0x1FED, 0x1FEF);
   (0x1FFD, 0x1FFE); (0x200B, 0x200F); (0x2018, 0x2019); (0x2024, 0x2024); (0x2027, 0x2027);
   (0x202A, 0x202E); (0x2060, 0x2064); (0x2066, 0x206F); (0x2071, 0x2071); (0x207F, 0x207F);
   (0x2090, 0x209C); (0x20D0, 0x20F0); (0x2C7C, 0x2C7D); (0x2CEF, 0x2CF1); (0x2D6F, 0x2D6F);
   (0x2D7F, 0x2D7F); (0x2DE0, 0x2DFF); (0x2E2F, 0x2E2F); (0x3005, 0x3005); (0x302A, 0x302D);
   (0x3031, 0x3035); (0x303B, 0x303B); (0x3099, 0x309E); (0x30FC, 0x30FE); (0xA015, 0xA015);
   (0xA4F8, 0xA4FD); (0xA60C, 0xA60C); (0xA66F, 0xA672); (0xA674, 0xA67D); (0xA67F, 0xA67F);
   (0xA69C, 0xA69F); (0xA6F0, 0xA6F1); (0xA700, 0xA721); (0xA770, 0xA770); (0xA788, 0xA78A);
   (0xA7F2, 0xA7F4); (0xA7F8, 0xA7F9); (0xA802, 0xA802); (0xA806, 0xA806); (0xA80B, 0xA80B);
   (0xA825, 0xA826); (0xA82C, 0xA82C); (0xA8C4, 0xA8C5); (0xA8E0, 0xA8F1); (0xA8FF, 0xA8FF);
   (0xA926, 0xA92D); (0xA947, 0xA951); (0xA980, 0xA982); (0xA9B3, 0xA9B3); (0xA9B6, 0xA9B9);
   (0xA9BC, 0xA9BD); (0xA9CF, 0xA9CF); (0xA9E5, 0xA9E6); (0xAA29, 0xAA2E); (0xAA31, 0xAA32);
   (0xAA35, 0xAA36); (0xAA43, 0xAA43); (0xAA4C, 0xAA4C); (0xAA70, 0xAA70); (0xAA7C, 0xAA7C);
   (0xAAB0, 0xAAB0); (0xAAB2, 0xAAB4); (0xAAB7, 0xAAB8); (0xAABE, 0xAABF); (0xAAC1, 0xAAC1);
   (0xAADD, 0xAADD); (0xAAEC, 0xAAED); (0xAAF3, 0xAAF4); (0xAAF6, 0xAAF6); (0xAB5B, 0xAB5F);
   (0xAB69, 0xAB6B); (0xABE5, 0xABE5); (0xABE8, 0xABE8); (0xABED, 0xABED); (0xFB1E, 0xFB1E);
   (0xFBB2, 0xFBC2); (0xFE00, 0xFE0F); (0xFE13, 0xFE13); (0xFE20, 0xFE2F); (0xFE52, 0xFE52);
   (0xFE55, 0xFE55); (0xFEFF, 0xFEFF); (0xFF07, 0xFF07); (0xFF0E, 0xFF0E); (0xFF1A, 0xFF1A);
   (0xFF3E, 0xFF3E); (0xFF40, 0xFF40); (0xFF70, 0xFF70); (0xFF9E, 0xFF9F); (0xFFE3, 0xFFE3);
   (0xFFF9, 0xFFFB); (0x101FD, 0x101FD); (0x102E0, 0x102E0); (0x10376, 0x1037A);
   (0x10780, 0x10785); (0x10787, 0x107B0); (0x107B2, 0x107BA); (0x10A01, 0x10A03);
   (0x10A05, 0x10A06); (0x10A0C, 0x10A0F); (0x10A38, 0x10A3A); (0x10A3F, 0x10A3F);
   (0x10AE5, 0x10AE6); (0x10D24, 0x10D27); (0x10EAB, 0x10EAC); (0x10F46, 0x10F50);
   (0x10F82, 0x10F85); (0x11001, 0x11001); (0x11038, 0x11046); (0x11070, 0x11070);
   (0x11073, 0x11074); (0x1107F, 0x11081); (0x110B3, 0x110B6); (0x110B9, 0x110BA);
   (0x110BD, 0x110BD); (0x110C2, 0x110C2); (0x110CD, 0x110CD); (0x11100, 0x11102);
   (0x11127, 0x1112B); (0x1112D, 0x11134); (0x11173, 0x11173); (0x11180, 0x11181);
   (0x111B6, 0x111BE); (0x111C9, 0x111CC); (0x111CF, 0x111CF); (0x1122F, 0x11231);
   (0x11234, 0x11234); (0x11236, 0x11237); (0x1123E, 0x1123E); (0x112DF, 0x112DF);
   (0x112E3, 0x112EA); (0x11300, 0x11301); (0x1133B, 0x1133C); (0x11340, 0x11340);
   (0x11366, 0x1136C); (0x11370, 0x11374); (0x11438, 0x1143F); (0x11442, 0x11444);
   (0x11446, 0x11446); (0x1145E, 0x1145E); (0x114B3, 0x114B8); (0x114BA, 0x114BA);
   (0x114BF, 0x114C0); (0x114C2, 0x114C3); (0x115B2, 0x115B5); (0x115BC, 0x115BD);
   (0x115BF, 0x115C0); (0x115DC, 0x115DD); (0x11633, 0x1163A); (0x1163D, 0x1163D);
   (0x1163F, 0x11640); (0x116AB, 0x116AB); (0x116AD, 0x116AD); (0x116B0, 0x116B5);
   (0x116B7, 0x116B7); (0x1171D, 0x1171F); (0x11722, 0x11725); (0x11727, 0x1172B);
   (0x1182F, 0x11837); (0x11839, 0x1183A); (0x1193B, 0x1193C); (0x1193E, 0x1193E);
   (0x11943, 0x11943); (0x119D4, 0x119D7); (0x119DA, 0x119DB); (0x119E0, 0x119E0);
   (0x11A01, 0x11A0A); (0x11A33, 0x11A38); (0x11A3B, 0x11A3E); (0x11A47, 0x11A47);
   (0x11A51, 0x11A56); (0x11A59, 0x11A5B); (0x11A8A, 0x11A96); (0x11A98, 0x11A99);
   (0x11C30, 0x11C36); (0x11C38, 0x11C3D); (0x11C3F, 0x11C3F); (0x11C92, 0x11CA7);
   (0x11CAA, 0x11CB0); (0x11CB2, 0x11CB3); (0x11CB5, 0x11CB6); (0x11D31, 0x11D36);
   (0x11D3A, 0x11D3A); (0x11D3C, 0x11D3D); (0x11D3F, 0x11D45); (0x11D47, 0x11D47);
   (0x11D90, 0x11D91); (0x11D95, 0x11D95); (0x11D97, 0x11D97); (0x11EF3, 0x11EF4);
   (0x13430, 0x13438); (0x16AF0, 0x16AF4); (0x16B30, 0x16B36); (0x16B40, 0x16B43);
   (0x16F4F, 0x16F4F); (0x16F8F, 0x16F9F); (0x16FE0, 0x16FE1); (0x16FE3, 0x16FE4);
   (0x1AFF0, 0x1AFF3); (0x1AFF5, 0x1AFFB); (0x1AFFD, 0x1AFFE); (0x1BC9D, 0x1BC9E);
   (0x1BCA0, 0x1BCA3); (0x1CF00, 0x1CF2D); (0x1CF30, 0x1CF46); (0x1D167, 0x1D169);
   (0x1D173, 0x1D182); (0x1D185, 0x1D18B); (0x1D1AA, 0x1D1AD); (0x1D242, 0x1D244);
   (0x1DA00, 0x1DA36); (0x1DA3B, 0x1DA6C); (0x1DA75, 0x1DA75); (0x1DA84, 0x1DA84);
   (0x1DA9B, 0x1DA9F); (0x1DAA1, 0x1DAAF); (0x1E000, 0x1E006); (0x1E008, 0x1E018);
   (0x1E01B, 0x1E021); (0x1E023, 0x1E024); (0x1E026, 0x1E02A); (0x1E130, 0x1E13D);
   (0x1E2AE, 0x1E2AE); (0x1E2EC, 0x1E2EF); (0x1E8D0, 0x1E8D6); (0x1E944, 0x1E94B);
   (0x1F3FB, 0x1F3FF); (0xE0001, 0xE0001); (0xE0020, 0xE007F); (0xE0100, 0xE01EF)
  ].

Fixpoint assoc {A} (c : N) (l : list (N * A)) : option A :=
  match l with
  | [] => None
  | (k, v) :: t => if k =? c then Some v else assoc c t
  end.

Definition inRange (c : N) (r : N * N) : bool := (fst r <=? c) && (c <=? snd r).

(** Hangul syllables decompose arithmetically (Unicode, section 3.12). *)
Definition isHangulSyllable (c : N) : bool := (0xAC00 <=? c) && (c <=? 0xD7A3).

Definition hangul_decompose (c : N) : list N :=
  let s := c - 0xAC00 in
  let l := 0x1100 + s / 588 in
  let v := 0x1161 + (s mod 588) / 28 in
  let t := s mod 28 in
  if t =? 0 then [l; v] else [l; v; 0x11A7 + t].

(** Full canonical decomposition of one code point. *)
Definition decompose (c : N) : list N :=
  if isHangulSyllable c then hangul_decompose c
  else match assoc c decomposition_table with
       | Some d => d
       | None => [c]
       end.

(** Canonical_Combining_Class; 0 for every code point not listed. *)
Fixpoint ccc_in (c : N) (l : list (N * N * N)) : N :=
  match l with
  | [] => 0
  | (lo, hi, k) :: t => if (lo <=? c) && (c <=? hi) then k else ccc_in c t
  end.

Definition ccc (c : N) : N := ccc_in c combining_class_table.

(** Canonical ordering: every run of code points of non-zero combining
    class is sorted by class, stably.  [insertMark c l] puts [c] in front
    of the ordered [l] and lets it sink behind the marks of strictly
    smaller non-zero class. *)
Fixpoint insertMark (c : N) (l : list N) : list N :=
  match l with
  | [] => [c]
  | d :: t => if (0 <? ccc d) && (ccc d <? ccc c) then d :: insertMark c t else c :: l
  end.

Fixpoint canonicalOrder (l : list N) : list N :=
  match l with
  | [] => []
  | c :: t => insertMark c (canonicalOrder t)
  end.

(** Normalization Form D on code points. *)
Definition NFD (l : list N) : list N := canonicalOrder (flat_map decompose l).

(** Lowercase_Mapping of one code point; U+0130 is the one unconditional
    entry of SpecialCasing with a longer image. *)
Fixpoint lower_in (c : N) (l : list (N * N * N * N)) : option N :=
  match l with
  | [] => None
  | (lo, hi, stride, img) :: t =>
      if (lo <=? c) && (c <=? hi) && ((c - lo) mod stride =? 0)
      then Some (img + (c - lo))
      else lower_in c t
  end.

Definition lowerCodePoint (c : N) : list N :=
  if c =? 0x130 then [0x69; 0x307]
  else match lower_in c lowercase_table with
       | Some d => [d]
       | None => [c]
       end.

Definition isCased (c : N) : bool := existsb (inRange c) cased_table.
Definition isCaseIgnorable (c : N) : bool := existsb (inRange c) case_ignorable_table.

(** The next code point of [l] that is not case-ignorable is cased. *)
Fixpoint casedLetterAhead (l : list N) : bool :=
  match l with
  | [] => false
  | c :: t => if isCaseIgnorable c then casedLetterAhead t else isCased c
  end.

(** The Final_Sigma condition of SpecialCasing: [before] is the text in
    front of the sigma, nearest code point first. *)
Definition finalSigma (before after : list N) : bool :=
  casedLetterAhead before && negb (casedLetterAhead after).

Fixpoint lower_go (before l : list N) : list N :=
  match l with
  | [] => []
  | c :: t =>
      (if c =? 0x3A3
       then [if finalSigma before t then 0x3C2 else 0x3C3]
       else lowerCodePoint c) ++ lower_go (c :: before) t
  end.

(** The toLowercase algorithm of the Unicode default case conversion. *)
Definition toLowercase (l : list N) : list N := lower_go [] l.

(** A code point is an uppercase letter when lowercasing changes it. *)
Definition isUpper (c : N) : bool :=
  negb (bool_decide (lowerCodePoint c = [c])).

End Unicode.

(** ** JavaScript strings *)

Module JSString.
Import Unicode.
Local Open Scope N_scope.

Definition isHighSurrogate (u : N) : bool := (0xD800 <=? u) && (u <=? 0xDBFF).
Definition isLowSurrogate (u : N) : bool := (0xDC00 <=? u) && (u <=? 0xDFFF).

(** ECMAScript StringToCodePoints: a high surrogate followed by a low one
    is one code point, every other code unit stands for itself. *)
Fixpoint StringToCodePoints (s : jsstring) : list N :=
  match s with
  | [] => []
  | u :: t =>
      if isHighSurrogate u then
        match t with
        | l :: t' =>
            if isLowSurrogate l
            then (0x10000 + (u - 0xD800) * 0x400 + (l - 0xDC00)) :: StringToCodePoints t'
            else u :: StringToCodePoints t
        | [] => [u]
        end
      else u :: StringToCodePoints t
  end.

Definition UTF16EncodeCodePoint (c : N) : jsstring :=
  if c <? 0x10000 then [c]
  else [0xD800 + (c - 0x10000) / 0x400; 0xDC00 + (c - 0x10000) mod 0x400].

Definition CodePointsToString (l : list N) : jsstring := flat_map UTF16EncodeCodePoint l.

(** [String.prototype.isWellFormed]: no unpaired surrogate (and every
    element is a code unit). *)
Fixpoint isWellFormed (s : jsstring) : bool :=
  match s with
  | [] => true
  | u :: t =>
      if isHighSurrogate u then
        match t with
        | l :: t' => isLowSurrogate l && isWellFormed t'
        | [] => false
        end
      else negb (isLowSurrogate u) && (u <? 0x10000) && isWellFormed t
  end.

(** [s.normalize('NFD')] *)
Definition normalizeNFD (s : jsstring) : jsstring :=
  CodePointsToString (NFD (StringToCodePoints s)).

(** [s.toLowerCase()] *)
Definition toLowerCase (s : jsstring) : jsstring :=
  CodePointsToString (toLowercase (StringToCodePoints s)).

(** The class [\s] of regular expressions, which is also what [trim]
    removes: WhiteSpace and LineTerminator. *)
Definition isWhiteSpace (u : N) : bool :=
  existsb (N.eqb u)
    [0x9; 0xA; 0xB; 0xC; 0xD; 0x20; 0xA0; 0x1680; 0x2028; 0x2029; 0x202F; 0x205F; 0x3000; 0xFEFF]
  || ((0x2000 <=? u) && (u <=? 0x200A)).

Fixpoint dropWhile {A} (p : A -> bool) (l : list A) : list A :=
  match l with
  | [] => []
  | x :: t => if p x then dropWhile p t else l
  end.

Definition trimStart (s : jsstring) : jsstring := dropWhile isWhiteSpace s.
Definition trimEnd (s : jsstring) : jsstring := rev (dropWhile isWhiteSpace (rev s)).

(** [s.trim()] *)
Definition trim (s : jsstring) : jsstring := trimEnd (trimStart s).

(** [s.split(/\s+/)]: the pieces between the maximal runs of white space;
    a run at either end of [s] leaves an empty piece there.  [tok] is the
    piece being read, [inSep] tells that the last unit belonged to a
    separator. *)
Fixpoint split_go (inSep : bool) (tok s : jsstring) : list jsstring :=
  match s with
  | [] => [tok]
  | u :: t =>
      if isWhiteSpace u then
        if inSep then split_go true tok t else tok :: split_go true [] t
      else split_go false (tok ++ [u]) t
  end.

Definition split_whitespace (s : jsstring) : list jsstring := split_go false [] s.

(** [s.replace(/[lo-hi]/g, '')] and [s.replace(/a/g, 'b')] for single units. *)
Definition removeRange (lo hi : N) (s : jsstring) : jsstring :=
  List.filter (fun u => negb ((lo <=? u) && (u <=? hi))) s.

Definition replaceUnit (a b : N) (s : jsstring) : jsstring :=
  map (fun u => if u =? a then b else u) s.

(** Literals: the UTF-8 bytes of a Rocq string, read as a JavaScript
    string.  [acc] collects a code point, [need] counts the continuation
    bytes still missing. *)
Fixpoint bytes_of (s : string) : list N :=
  match s with
  | EmptyString => []
  | String a t => N_of_ascii a :: bytes_of t
  end.

Fixpoint utf8_go (acc need : N) (bs : list N) : list N :=
  match bs with
  | [] => []
  | b :: t =>
      if b <? 0x80 then b :: utf8_go 0 0 t
      else if b <? 0xC0 then
        let acc' := acc * 64 + (b - 0x80) in
        if need =? 1 then acc' :: utf8_go 0 0 t else utf8_go acc' (need - 1) t
      else if b <? 0xE0 then utf8_go (b - 0xC0) 1 t
      else if b <? 0xF0 then utf8_go (b - 0xE0) 2 t
      else utf8_go (b - 0xF0) 3 t
  end.

Definition js (s : string) : jsstring :=
  CodePointsToString (utf8_go 0 0 (bytes_of s)).

End JSString.

(** ** [src/types.ts] *)

Module Types.

Record WordPair := { first : jsstring; second : jsstring }.

(** A dictionary object is taken as the sequence [Object.entries] yields
    for it: its keys, pairwise distinct, each with its value array. *)
Abbreviation WordDictionary := (list (jsstring * list jsstring)).

Inductive Reason :=
  | invalid_format | word_not_found | word_used | no_connection | invalid_characters.

Record ValidationResult :=
  { isValid : bool; error : option jsstring; reason : option Reason }.

Record NextWordResult :=
  { word : option WordPair; found : bool; alternatives : option (list WordPair) }.

(** How a call ends: it returns a value or throws. *)
Inductive completion (A : Type) :=
  | Return (a : A)
  | Throw.
Arguments Return {A} a.
Arguments Throw {A}.

End Types.

(** ** [src/wordChecker.ts] *)

(** The object [validateFormat] returns. *)
Module FormatCheck.
Record t := { isValid : bool; words : option (list jsstring) }.
End FormatCheck.

Module WordChecker.
Import JSString Types.
Local Open Scope N_scope.

Record t :=
  { dictionary : WordDictionary;
    normalizedDictionary : gmap jsstring (list jsstring) }.

Definition normalizeVietnamese (text : jsstring) : jsstring :=
  replaceUnit 0x110 0x44                      (* .replace(/Đ/g, 'D') *)
    (replaceUnit 0x111 0x64                   (* .replace(/đ/g, 'd') *)
       (removeRange 0x300 0x36F               (* .replace(/[\u0300-\u036f]/g, '') *)
          (normalizeNFD text))).

Definition constructor (dictionary : WordDictionary) : t :=
  {| dictionary := dictionary;
     normalizedDictionary :=
       foldl (fun m '(key, values) =>
                let normalizedKey := normalizeVietnamese (toLowerCase key) in
                <[normalizedKey := map toLowerCase values]> m)
             ∅ dictionary |}.

Definition vietnameseLetters : jsstring :=
  Eval vm_compute in
    js "àáảãạăằắẳẵặâầấẩẫậđèéẻẽẹêềếểễệìíỉĩịòóỏõọôồốổỗộơờớởỡợùúủũụưừứửữựỳýỷỹỵ".

(** One character of the class of [vietnameseRegex]. *)
Definition vietnameseClass (u : N) : bool :=
  ((0x61 <=? u) && (u <=? 0x7A)) || ((0x41 <=? u) && (u <=? 0x5A))
  || existsb (N.eqb u) vietnameseLetters || isWhiteSpace u.

(** [vietnameseRegex.test(w)]: [^[...]+$]. *)
Definition vietnameseRegex_test (w : jsstring) : bool :=
  match w with
  | [] => false
  | _ => forallb vietnameseClass w
  end.

Definition validateFormat (input : jsstring) : FormatCheck.t :=
  let trimmed := trim input in
  match trimmed with
  | [] => {| FormatCheck.isValid := false; FormatCheck.words := None |}
  | _ =>
      let words := List.filter (fun word => (0 <? length word)%nat) (split_whitespace trimmed) in
      match words with
      | [w0; w1] =>
          if negb (vietnameseRegex_test w0) || negb (vietnameseRegex_test w1)
          then {| FormatCheck.isValid := false; FormatCheck.words := None |}
          else {| FormatCheck.isValid := true; FormatCheck.words := Some words |}
      | _ => {| FormatCheck.isValid := false; FormatCheck.words := None |}
      end
  end.

Definition isWordInDictionary (self : t) (firstWord secondWord : jsstring) : bool :=
  let normalizedFirst := normalizeVietnamese (toLowerCase firstWord) in
  let normalizedSecond := toLowerCase secondWord in
  match normalizedDictionary self !! normalizedFirst with
  | Some secondWords => bool_decide (normalizedSecond ∈ secondWords)
  | None => false
  end.

(** The key under which a used pair is remembered. *)
Definition wordKey (firstWord secondWord : jsstring) : jsstring :=
  normalizeVietnamese (toLowerCase firstWord) ++ [0x2D]
    ++ normalizeVietnamese (toLowerCase secondWord).

Definition validateWord (self : t) (input : jsstring) (usedWords : gset jsstring)
  : completion ValidationResult :=
  let formatCheck := validateFormat input in
  if negb (FormatCheck.isValid formatCheck) then
    Return {| isValid := false;
              reason := Some invalid_format;
              error := Some (js "Từ phải gồm đúng 2 chữ cách nhau bởi dấu cách") |}
  else
    match FormatCheck.words formatCheck with
    | Some (firstWord :: secondWord :: _) =>
        if negb (isWordInDictionary self firstWord secondWord) then
          Return {| isValid := false;
                    reason := Some word_not_found;
                    error := Some (js "Từ " ++ [0x22] ++ firstWord ++ [0x20] ++ secondWord
                                     ++ [0x22] ++ js " không có trong từ điển") |}
        else if bool_decide (wordKey firstWord secondWord ∈ usedWords) then
          Return {| isValid := false;
                    reason := Some word_used;
                    error := Some (js "Từ này đã được sử dụng trong game") |}
        else Return {| isValid := true; reason := None; error := None |}
    | _ => Throw
    end.

Definition canConnect (firstPair secondPair : WordPair) : bool :=
  let firstEnd := normalizeVietnamese (toLowerCase (second firstPair)) in
  let secondStart := normalizeVietnamese (toLowerCase (first secondPair)) in
  bool_decide (firstEnd = secondStart).

Definition getPossibleNextWords (self : t) (endingWord : jsstring) : list WordPair :=
  let normalizedEnding := normalizeVietnamese (toLowerCase endingWord) in
  foldl (fun possiblePairs '(firstWord, secondWords) =>
           if bool_decide (normalizeVietnamese (toLowerCase firstWord) = normalizedEnding)
           then foldl (fun pairs secondWord =>
                         pairs ++ [{| first := firstWord; second := secondWord |}])
                      possiblePairs secondWords
           else possiblePairs)
        [] (dictionary self).

Definition validateConnection (currentWord : option WordPair) (newWord : WordPair)
  : ValidationResult :=
  match currentWord with
  | None => {| isValid := true; reason := None; error := None |}
  | Some currentWord =>
      if negb (canConnect currentWord newWord) then
        {| isValid := false;
           reason := Some no_connection;
           error := Some (js "Từ " ++ [0x22] ++ first newWord ++ [0x20] ++ second newWord
                            ++ [0x22] ++ js " không nối được với " ++ [0x22]
                            ++ second currentWord ++ [0x22]) |}
      else {| isValid := true; reason := None; error := None |}
  end.

End WordChecker.

(** ** [src/nextWordFinder.ts] *)

Module NextWordFinder.
Import JSString Types.
Local Open Scope N_scope.

Record t :=
  { dictionary : WordDictionary;
    wordChecker : WordChecker.t }.

Definition constructor (dictionary : WordDictionary) : t :=
  {| dictionary := dictionary;
     wordChecker := WordChecker.constructor dictionary |}.

Definition normalizeVietnamese (text : jsstring) : jsstring :=
  replaceUnit 0x110 0x44
    (replaceUnit 0x111 0x64
       (removeRange 0x300 0x36F
          (normalizeNFD text))).

(** [Math.random()] returns a double in [0, 1), that is [m / 2^1074] for a
    numerator [m] below [2^1074].  A random source is given by the
    numerators of its successive results; [randomIndex m n] is
    [Math.floor(Math.random() * n)] for the result of numerator [m], the
    product taken exactly. *)
Definition randomIndex (m : N) (n : nat) : nat :=
  N.to_nat ((m mod 2 ^ 1074) * N.of_nat n / 2 ^ 1074).

(** [this.dictionary[key]] *)
Fixpoint property (key : jsstring) (d : WordDictionary) : option (list jsstring) :=
  match d with
  | [] => None
  | (k, values) :: rest => if bool_decide (k = key) then Some values else property key rest
  end.

Definition notFound : NextWordResult :=
  {| word := None; found := false; alternatives := None |}.

Definition findFirstWord (self : t) (random : nat -> N) : NextWordResult :=
  let allWords := map fst (dictionary self) in
  if (length allWords =? 0)%nat then notFound
  else
    let randomFirstWord := nth (randomIndex (random 0%nat) (length allWords)) allWords [] in
    match property randomFirstWord (dictionary self) with
    | None => notFound
    | Some secondWords =>
        if (length secondWords =? 0)%nat then notFound
        else
          let randomSecondWord :=
            nth (randomIndex (random 1%nat) (length secondWords)) secondWords [] in
          {| word := Some {| first := randomFirstWord; second := randomSecondWord |};
             found := true;
             alternatives := None |}
    end.

(** The test of the [filter] callback: [word] matches no entry of [history]. *)
Definition notInHistory (history : list WordPair) (word : WordPair) : bool :=
  negb (existsb (fun historyWord =>
                   bool_decide (normalizeVietnamese (toLowerCase (first historyWord))
                                = normalizeVietnamese (toLowerCase (first word)))
                   && bool_decide (normalizeVietnamese (toLowerCase (second historyWord))
                                   = normalizeVietnamese (toLowerCase (second word))))
                history).

Definition findNextWord (self : t) (random : nat -> N)
    (currentWord : option WordPair) (history : list WordPair) : NextWordResult :=
  match currentWord with
  | None => findFirstWord self random
  | Some currentWord =>
      let possibleWords :=
        WordChecker.getPossibleNextWords (wordChecker self) (second currentWord) in
      if (length possibleWords =? 0)%nat then notFound
      else
        let availableWords := List.filter (notInHistory history) possibleWords in
        if (length availableWords =? 0)%nat then
          {| word := None; found := false; alternatives := Some possibleWords |}
        else
          let selectedWord :=
            availableWords !! randomIndex (random 0%nat) (length availableWords) in
          {| word := selectedWord;
             found := true;
             alternatives := Some (take 5 availableWords) |}
  end.

(** The loop of [getAllPossibleMoves] without a current word: [iterations]
    rounds are left, [position] counts the results of [Math.random()]
    already taken. *)
Fixpoint randomMoves (self : t) (random : nat -> N) (iterations position : nat)
    (randomWords : list WordPair) : list WordPair :=
  match iterations with
  | O => randomWords
  | S iterations' =>
      let allWords := map fst (dictionary self) in
      let firstWord := nth (randomIndex (random position) (length allWords)) allWords [] in
      match property firstWord (dictionary self) with
      | Some secondWords =>
          if (0 <? length secondWords)%nat then
            let secondWord :=
              nth (randomIndex (random (S position)) (length secondWords)) secondWords [] in
            randomMoves self random iterations' (S (S position))
              (randomWords ++ [{| first := firstWord; second := secondWord |}])
          else randomMoves self random iterations' (S position) randomWords
      | None => randomMoves self random iterations' (S position) randomWords
      end
  end.

Definition getAllPossibleMoves (self : t) (random : nat -> N)
    (currentWord : option WordPair) (history : list WordPair) : list WordPair :=
  match currentWord with
  | None =>
      let allWords := map fst (dictionary self) in
      randomMoves self random (Nat.min 10 (length allWords)) 0 []
  | Some currentWord =>
      let possibleWords :=
        WordChecker.getPossibleNextWords (wordChecker self) (second currentWord) in
      List.filter (notInHistory history) possibleWords
  end.

Definition canContinue (self : t) (random : nat -> N)
    (currentWord : option WordPair) (history : list WordPair) : bool :=
  let possibleMoves := getAllPossibleMoves self random currentWord history in
  (0 <? length possibleMoves)%nat.

End NextWordFinder.

(** ** index.ts *)

Module Index.
Import JSString Types.

Section Values.

(** The values [validateDictionary] is given: what [JSON.parse] returns,
    and [undefined].  A number is known by one fact only, whether it is
    falsy (a zero or NaN). *)
Variable number : Type.
Variable isZeroOrNaN : number -> bool.

#[warnings="-automation"]
Inductive value : Type :=
  | Undefined
  | Null
  | Boolean (b : bool)
  | Number (n : number)
  | String (s : jsstring)
  | Array (elements : list value)
  | Object (properties : list (jsstring * value)).

Inductive typeName : Type :=
  | type_undefined | type_object | type_boolean | type_number | type_string.

Definition typeName_eqb (a b : typeName) : bool :=
  match a, b with
  | type_undefined, type_undefined | type_object, type_object
  | type_boolean, type_boolean | type_number, type_number
  | type_string, type_string => true
  | _, _ => false
  end.

(** [typeof v] *)
Definition typeof (v : value) : typeName :=
  match v with
  | Undefined => type_undefined
  | Null | Array _ | Object _ => type_object
  | Boolean _ => type_boolean
  | Number _ => type_number
  | String _ => type_string
  end.

(** [!v] *)
Definition not (v : value) : bool :=
  match v with
  | Undefined | Null => true
  | Boolean b => negb b
  | Number n => isZeroOrNaN n
  | String s => (length s =? 0)%nat
  | Array _ | Object _ => false
  end.

(** [Array.isArray(v)] *)
Definition isArray (v : value) : bool :=
  match v with
  | Array _ => true
  | _ => false
  end.

(** The key of the element at an index: its decimal digits. *)
Definition indexKey (i : nat) : jsstring :=
  bytes_of (NilZero.string_of_uint (Nat.to_uint i)).

Fixpoint indexed (i : nat) (elements : list value) : list (jsstring * value) :=
  match elements with
  | [] => []
  | x :: rest => (indexKey i, x) :: indexed (S i) rest
  end.

(** [Object.entries(v)]: the properties of an object, the elements of an
    array and the code units of a string under their indices, nothing for
    the other primitives. *)
Definition entries (v : value) : list (jsstring * value) :=
  match v with
  | Object properties => properties
  | Array elements => indexed 0 elements
  | String s => indexed 0 (map (fun u => String [u]) s)
  | _ => []
  end.

(** The inner loop, [for (const item of value)]: [false] stands for the
    [return false] that leaves the function. *)
Fixpoint itemsAreStrings (items : list value) : bool :=
  match items with
  | [] => true
  | item :: rest =>
      if negb (typeName_eqb (typeof item) type_string) then false
      else itemsAreStrings rest
  end.

(** The outer loop, [for (const [key, value] of Object.entries(dictionary))]. *)
Fixpoint entriesAreLists (l : list (jsstring * value)) : bool :=
  match l with
  | [] => true
  | (key, value) :: rest =>
      if negb (typeName_eqb (typeof (String key)) type_string) || negb (isArray value)
      then false
      else
        match value with
        | Array items => if itemsAreStrings items then entriesAreLists rest else false
        | _ => false
        end
  end.

Definition validateDictionary (dictionary : value) : bool :=
  if not dictionary || negb (typeName_eqb (typeof dictionary) type_object) then false
  else entriesAreLists (entries dictionary).

End Values.

Arguments Undefined {number}.
Arguments Null {number}.
Arguments Boolean {number} b.
Arguments String {number} s.
Arguments Array {number} elements.
Arguments Object {number} properties.
Arguments typeof {number} v.
Arguments not {number} isZeroOrNaN v.
Arguments isArray {number} v.
Arguments indexed {number} i elements.
Arguments entries {number} v.
Arguments itemsAreStrings {number} items.
Arguments entriesAreLists {number} l.
Arguments validateDictionary {number} isZeroOrNaN dictionary.

End Index.

(** * Notions of the specification *)

Import Unicode JSString Types.
Local Open Scope N_scope.

(** The dictionary of the test suite. *)
Definition sampleDictionary : WordDictionary :=
  [ (js "thế", [js "chân"; js "giới"]);
    (js "chân", [js "thật"; js "trời"]);
    (js "trời", [js "xanh"; js "đất"]);
    (js "xanh", [js "lá"; js "biếc"]);
    (js "lá", [js "cây"; js "xanh"]) ].

(** The comparison form of a syllable. *)
Definition fold (s : jsstring) : jsstring :=
  WordChecker.normalizeVietnamese (toLowerCase s).

(** Two pairs are the same move when both syllables agree in comparison form. *)
Definition samePair (a b : WordPair) : Prop :=
  fold (first a) = fold (first b) /\ fold (second a) = fold (second b).

(** The entries of a dictionary the key of which folds to the same form as [ending]. *)
Definition matchingEntries (d : WordDictionary) (ending : jsstring) : WordDictionary :=
  List.filter (fun e => bool_decide (fold (fst e) = fold ending)) d.

(** The pairs one entry stands for. *)
Definition pairsOf (e : jsstring * list jsstring) : list WordPair :=
  map (fun v => {| first := fst e; second := v |}) (snd e).

Definition valid : ValidationResult :=
  {| isValid := true; error := None; reason := None |}.


Definition nonEmpty (word : jsstring) : bool := (0 <? length word)%nat.

(** The tokens of an input: the non-empty pieces of the trimmed input
    between runs of white space. *)
Definition tokens (input : jsstring) : list jsstring :=
  List.filter nonEmpty (split_whitespace (trim input)).

Definition formatInvalid : FormatCheck.t :=
  {| FormatCheck.isValid := false; FormatCheck.words := None |}.

Definition formatValid (firstWord secondWord : jsstring) : FormatCheck.t :=
  {| FormatCheck.isValid := true; FormatCheck.words := Some [firstWord; secondWord] |}.

(** The results of [validateWord]. *)
Definition invalidFormat : ValidationResult :=
  {| isValid := false;
     error := Some (js "Từ phải gồm đúng 2 chữ cách nhau bởi dấu cách");
     reason := Some invalid_format |}.

Definition wordNotFound (firstWord secondWord : jsstring) : ValidationResult :=
  {| isValid := false;
     error := Some (js "Từ " ++ [0x22] ++ firstWord ++ [0x20] ++ secondWord ++ [0x22]
                      ++ js " không có trong từ điển");
     reason := Some word_not_found |}.

Definition wordUsed : ValidationResult :=
  {| isValid := false;
     error := Some (js "Từ này đã được sử dụng trong game");
     reason := Some word_used |}.

(** What splitting on runs of white space means: [Tokenized s ts] reads
    [s] from the left as white space and maximal runs [ts] of other
    units. *)
Inductive Tokenized : jsstring -> list jsstring -> Prop :=
  | Tokenized_nil : Tokenized [] []
  | Tokenized_space u s ts :
      isWhiteSpace u = true -> Tokenized s ts -> Tokenized (u :: s) ts
  | Tokenized_last w :
      w <> [] -> forallb (fun u => negb (isWhiteSpace u)) w = true -> Tokenized w [w]
  | Tokenized_word w u s ts :
      w <> [] -> forallb (fun u => negb (isWhiteSpace u)) w = true ->
      isWhiteSpace u = true -> Tokenized s ts -> Tokenized (w ++ u :: s) (w :: ts).

Definition isAsciiLetter (u : N) : bool :=
  ((0x61 <=? u) && (u <=? 0x7A)) || ((0x41 <=? u) && (u <=? 0x5A)).

(** The letters [vietnameseRegex] admits in a token. *)
Definition allowedLetter (u : N) : bool :=
  isAsciiLetter u || existsb (N.eqb u) WordChecker.vietnameseLetters.

(** Two keys that differ in their tone mark only. *)
Definition collidingDictionary : WordDictionary :=
  [ (js "bán", [js "hàng"]); (js "bạn", [js "bè"]) ].

(** ** Notions about normalization *)

(** Normalization seen on code points. *)
Definition normalizeCodePoints (l : list N) : list N :=
  replaceUnit 0x110 0x44 (replaceUnit 0x111 0x64 (removeRange 0x300 0x36F (NFD l))).

(** Unicode scalar values: the code points that are not surrogates. *)
Definition isScalar (c : N) : bool :=
  (c <? 0xD800) || ((0xDFFF <? c) && (c <? 0x110000)).

(** [okBefore a l]: [a] may stand in front of [l] in canonical order. *)
Definition okBefore (a : N) (l : list N) : bool :=
  match l with
  | [] => true
  | b :: _ => (ccc b =? 0) || (ccc a <=? ccc b)
  end.

(** Canonically ordered: no mark follows a mark of greater class. *)
Fixpoint ordered (l : list N) : bool :=
  match l with
  | [] => true
  | a :: t => okBefore a t && ordered t
  end.

(** The code points from [lo] on, [n] of them. *)
Definition codePoints (lo : N) (n : nat) : list N := map N.of_nat (seq (N.to_nat lo) n).

(** A code point the decomposition leaves alone. *)
Definition isStable (d : N) : bool := bool_decide (decompose d = [d]).

(** The number of uppercase letters of a string. *)
Definition countUpper (s : jsstring) : nat :=
  length (List.filter isUpper (StringToCodePoints s)).

(** U+034F COMBINING GRAPHEME JOINER, the one code point of the block of
    combining diacritical marks that has combining class 0. *)
Definition CGJ : N := 0x34F.

(** The uppercase letters a code point leaves in the normalized text. *)
Definition uppersOf (l : list N) : list N :=
  List.filter isUpper (replaceUnit 0x110 0x44 (replaceUnit 0x111 0x64 (removeRange 0x300 0x36F l))).

(** ** Notions about moves *)

(** [w] is a pair of the dictionary: its first syllable is a key and its
    second syllable one of the values of that key, as they are written. *)
Definition isPairOf (d : WordDictionary) (w : WordPair) : Prop :=
  exists values, In (first w, values) d /\ In (second w) values.

(** A history bars [w] when one of its entries is the same move. *)
Definition bars (history : list WordPair) (w : WordPair) : Prop :=
  exists h, In h history /\ samePair h w.

(** ** Notions about syllables *)





(** The allowed letters, listed. *)
Definition allowedLetters : list N :=
  codePoints 0x41 26 ++ codePoints 0x61 26 ++ WordChecker.vietnameseLetters.

(** What the three [replace] calls of [normalizeVietnamese] do to code points. *)
Definition stripFold (l : list N) : list N :=
  replaceUnit 0x110 0x44 (replaceUnit 0x111 0x64 (removeRange 0x300 0x36F l)).

(** The comparison form of a letter: its lowercase letter, decomposed,
    without the marks. *)
Definition foldLetter (c : N) : list N := stripFold (flat_map decompose (lowerCodePoint c)).

(** A decomposition that begins with a starter and is in canonical order. *)
Definition starterFirst (l : list N) : bool :=
  match l with
  | [] => false
  | b :: _ => (ccc b =? 0) && ordered l
  end.

(** The facts about one letter that make its comparison form one letter
    of a to z. *)
Definition letterOk (c : N) : bool :=
  (c <? 0xD800) && negb (c =? 0x3A3)
  && match lowerCodePoint c with
     | [l] => (l <? 0xD800) && starterFirst (decompose l)
     | _ => false
     end
  && match foldLetter c with
     | [b] => (0x61 <=? b) && (b <=? 0x7A)
     | _ => false
     end.

Definition isLowerAscii (u : N) : bool := (0x61 <=? u) && (u <=? 0x7A).

(** ** Dictionaries as values *)

(** A list of words as the array of its strings, and a dictionary as the
    object of its entries. *)
Definition listValue {number} (words : list jsstring) : Index.value number :=
  Index.Array (map Index.String words).

Definition dictionaryValue {number} (d : WordDictionary) : Index.value number :=
  Index.Object (map (fun e => (fst e, listValue (snd e))) d).

(** * Properties *)

Ltac in_list := vm_compute; repeat (first [left; reflexivity | right]).

Ltac in_not := let H := fresh in intros H; repeat (destruct H as [H|H]; [discriminate H|]); exact H.

(** ** Lists *)

Lemma filter_none {A} (f : A -> bool) (l : list A) :
  (forall x, In x l -> f x = false) -> List.filter f l = [].
Proof.
  induction l as [|x l IH]; intros H; [reflexivity|].
  simpl. rewrite (H x) by now left. apply IH. intros y Hy. apply H. now right.
Qed.

Lemma filter_all {A} (f : A -> bool) (l : list A) :
  (forall x, In x l -> f x = true) -> List.filter f l = l.
Proof.
  induction l as [|x l IH]; intros H; [reflexivity|].
  simpl. rewrite (H x) by now left. f_equal. apply IH. intros y Hy. apply H. now right.
Qed.

Lemma filter_perm {A} (f : A -> bool) (l l' : list A) :
  Permutation l l' -> Permutation (List.filter f l) (List.filter f l').
Proof.
  induction 1 as [|x l l' _ IH|x y l|l l' l'' _ IH1 _ IH2]; simpl.
  - constructor.
  - destruct (f x); [now constructor | exact IH].
  - destruct (f x), (f y); try reflexivity. apply perm_swap.
  - now transitivity (List.filter f l').
Qed.

Lemma forallb_rev {A} (p : A -> bool) (l : list A) : forallb p (rev l) = forallb p l.
Proof.
  induction l as [|x l IH]; simpl; [reflexivity|].
  rewrite forallb_app, IH. simpl. rewrite andb_true_r. apply andb_comm.
Qed.

Lemma dropWhile_decompose {A} (p : A -> bool) (l : list A) :
  exists pad, l = pad ++ dropWhile p l /\ forallb p pad = true.
Proof.
  induction l as [|x l (pad & Hl & Hp)]; simpl.
  - now exists [].
  - destruct (p x) eqn:Hx.
    + exists (x :: pad). simpl. rewrite Hx. split; [now f_equal | exact Hp].
    + now exists [].
Qed.

Lemma dropWhile_app_all {A} (p : A -> bool) (pad l : list A) :
  forallb p pad = true -> dropWhile p (pad ++ l) = dropWhile p l.
Proof.
  induction pad as [|x pad IH]; simpl; [reflexivity|].
  intros H. apply andb_true_iff in H as [-> H]. auto.
Qed.


(** ** Unicode data *)

Lemma assoc_In {A} (c : N) (l : list (N * A)) (v : A) : assoc c l = Some v -> In (c, v) l.
Proof.
  induction l as [|[k w] l IH]; simpl; [discriminate|].
  destruct (k =? c) eqn:Hk.
  - apply N.eqb_eq in Hk. intros [= ->]. left. now subst.
  - auto.
Qed.

Lemma assoc_outside {A} (lo hi c : N) (l : list (N * A)) :
  forallb (fun e => (fst e <? lo) || (hi <? fst e)) l = true ->
  lo <= c <= hi -> assoc c l = None.
Proof.
  intros Hall Hc. induction l as [|[k w] l IH]; simpl; [reflexivity|].
  simpl in Hall. apply andb_true_iff in Hall as [Hk Hall].
  apply orb_true_iff in Hk. rewrite !N.ltb_lt in Hk.
  destruct (N.eqb_spec k c); [lia|]. auto.
Qed.

Lemma codePoints_In (lo : N) (n : nat) (c : N) :
  lo <= c < lo + N.of_nat n -> In c (codePoints lo n).
Proof.
  intros Hc. unfold codePoints. rewrite <- (N2Nat.id c).
  apply in_map, in_seq. lia.
Qed.

Lemma codePoints_forall (P : N -> bool) (lo : N) (n : nat) :
  forallb P (codePoints lo n) = true -> forall c, lo <= c < lo + N.of_nat n -> P c = true.
Proof.
  intros H c Hc. rewrite forallb_forall in H. apply H. now apply codePoints_In.
Qed.

(** The decomposition table, read through [decompose]. *)
Lemma decompose_cases (c : N) :
  (isHangulSyllable c = true /\ decompose c = hangul_decompose c)
  \/ (isHangulSyllable c = false /\ exists d, In (c, d) decomposition_table /\ decompose c = d)
  \/ decompose c = [c].
Proof.
  unfold decompose. destruct (isHangulSyllable c); [now left|].
  destruct (assoc c decomposition_table) as [d|] eqn:Hd.
  - right. left. split; [reflexivity|]. exists d. split; [now apply assoc_In | reflexivity].
  - now right; right.
Qed.

Lemma hangul_decompose_range (c d : N) :
  isHangulSyllable c = true -> In d (hangul_decompose c) -> 0x1100 <= d <= 0x11C2.
Proof.
  unfold isHangulSyllable, hangul_decompose. intros Hc.
  apply andb_true_iff in Hc as [H1 H2]. apply N.leb_le in H1, H2.
  assert (Hjamo : forall l v t, l < 19 -> v < 21 -> t < 28 ->
            In d (if t =? 0 then [0x1100 + l; 0x1161 + v]
                  else [0x1100 + l; 0x1161 + v; 0x11A7 + t]) ->
            0x1100 <= d <= 0x11C2).
  { intros l v t Hl Hv Ht Hd.
    destruct (t =? 0); cbn [In] in Hd; repeat (destruct Hd as [Hd|Hd]; [lia|]);
      contradiction. }
  assert (Hs : c - 0xAC00 < 11172) by lia.
  apply Hjamo.
  - apply N.Div0.div_lt_upper_bound. lia.
  - apply N.Div0.div_lt_upper_bound.
    assert ((c - 0xAC00) mod 588 < 588) by (apply N.mod_lt; lia). lia.
  - apply N.mod_lt. lia.
Qed.

Lemma jamo_stable (d : N) : 0x1100 <= d <= 0x11C2 -> decompose d = [d].
Proof.
  intros Hd. unfold decompose.
  replace (isHangulSyllable d) with false.
  - rewrite (assoc_outside 0x1100 0x11C2 d); [reflexivity| |exact Hd].
    vm_compute. reflexivity.
  - symmetry. unfold isHangulSyllable. apply andb_false_iff. left. apply N.leb_gt. lia.
Qed.

Lemma table_stable :
  forallb (fun e => forallb isStable (snd e)) decomposition_table = true.
Proof. vm_compute. reflexivity. Qed.

(** What a decomposition yields is not decomposed any further. *)
Lemma decompose_stable (c d : N) : In d (decompose c) -> decompose d = [d].
Proof.
  intros Hd. destruct (decompose_cases c) as [[Hc Hdec]|[(Hc & l & Hl & Hdec)|Hdec]];
    rewrite Hdec in Hd.
  - apply jamo_stable. now apply (hangul_decompose_range c).
  - pose proof table_stable as Hall. rewrite forallb_forall in Hall.
    specialize (Hall (c, l) Hl). cbn [snd] in Hall. rewrite forallb_forall in Hall.
    specialize (Hall d Hd). unfold isStable in Hall. now apply bool_decide_eq_true in Hall.
  - destruct Hd as [<-|[]]. exact Hdec.
Qed.

(** ** Canonical ordering *)

Lemma insertMark_perm (c : N) (l : list N) : Permutation (insertMark c l) (c :: l).
Proof.
  induction l as [|d l IH]; simpl; [reflexivity|].
  destruct (_ && _); [|reflexivity].
  rewrite IH. apply perm_swap.
Qed.

Lemma canonicalOrder_perm (l : list N) : Permutation (canonicalOrder l) l.
Proof.
  induction l as [|c l IH]; simpl; [reflexivity|].
  rewrite insertMark_perm. now apply perm_skip.
Qed.

Lemma okBefore_insertMark (a c : N) (l : list N) :
  okBefore a l = true -> (ccc c =? 0) || (ccc a <=? ccc c) = true ->
  okBefore a (insertMark c l) = true.
Proof.
  destruct l as [|d l]; simpl; [auto|].
  destruct (_ && _); auto.
Qed.

Lemma insertMark_ordered (c : N) (l : list N) :
  ordered l = true -> ordered (insertMark c l) = true.
Proof.
  induction l as [|d l IH]; intros Hl; [reflexivity|].
  cbn [ordered] in Hl. apply andb_true_iff in Hl as [Hd Hl].
  cbn [insertMark].
  destruct ((0 <? ccc d) && (ccc d <? ccc c)) eqn:Hc.
  - apply andb_true_iff in Hc as [H0 H1]. apply N.ltb_lt in H0, H1.
    cbn [ordered]. rewrite (IH Hl), andb_true_r.
    apply okBefore_insertMark; [exact Hd|].
    apply orb_true_iff. right. apply N.leb_le. lia.
  - cbn [ordered okBefore]. rewrite Hd, Hl, !andb_true_r.
    apply andb_false_iff in Hc as [Hc|Hc].
    + apply N.ltb_ge in Hc. apply orb_true_iff. left. apply N.eqb_eq. lia.
    + apply N.ltb_ge in Hc. apply orb_true_iff. right. now apply N.leb_le.
Qed.

Lemma canonicalOrder_ordered (l : list N) : ordered (canonicalOrder l) = true.
Proof.
  induction l as [|c l IH]; [reflexivity|]. simpl. now apply insertMark_ordered.
Qed.

Lemma insertMark_okBefore (c : N) (l : list N) : okBefore c l = true -> insertMark c l = c :: l.
Proof.
  destruct l as [|d l]; [reflexivity|]. simpl. intros H.
  destruct ((0 <? ccc d) && (ccc d <? ccc c)) eqn:Hc; [|reflexivity].
  apply andb_true_iff in Hc as [H0 H1]. apply N.ltb_lt in H0, H1.
  apply orb_true_iff in H as [H|H]; [apply N.eqb_eq in H | apply N.leb_le in H]; lia.
Qed.

(** Canonical ordering leaves ordered text as it is. *)
Lemma canonicalOrder_id (l : list N) : ordered l = true -> canonicalOrder l = l.
Proof.
  induction l as [|c l IH]; [reflexivity|].
  cbn [ordered]. intros H. apply andb_true_iff in H as [Hc Hl].
  simpl. rewrite (IH Hl). now apply insertMark_okBefore.
Qed.

Lemma okBefore_le (a b : N) (l : list N) :
  ccc a <= ccc b -> okBefore b l = true -> okBefore a l = true.
Proof.
  destruct l as [|d l]; [reflexivity|]. simpl. intros Hab H.
  apply orb_true_iff in H as [H|H]; apply orb_true_iff; [now left|].
  right. apply N.leb_le in H. apply N.leb_le. lia.
Qed.

Lemma ordered_filter_from (keep : N -> bool) (l : list N) :
  (forall c, In c l -> keep c = false -> ccc c <> 0) ->
  forall a, okBefore a l = true -> ordered l = true ->
            okBefore a (List.filter keep l) = true /\ ordered (List.filter keep l) = true.
Proof.
  induction l as [|b l IH]; intros Hrm a Ha Hl; [now split|].
  cbn [ordered] in Hl. apply andb_true_iff in Hl as [Hb Hl].
  destruct (IH (fun c Hc => Hrm c (or_intror Hc)) b Hb Hl) as [IHb IHl].
  cbn [List.filter]. destruct (keep b) eqn:Hk.
  - split; [exact Ha|]. cbn [ordered]. now rewrite IHb, IHl.
  - split; [|exact IHl].
    apply (okBefore_le a b); [|exact IHb].
    pose proof (Hrm b (or_introl eq_refl) Hk) as Hne.
    cbn [okBefore] in Ha. apply orb_true_iff in Ha as [Ha|Ha].
    + apply N.eqb_eq in Ha. contradiction.
    + now apply N.leb_le.
Qed.

(** Taking marks of non-zero class out of ordered text leaves it ordered. *)
Lemma ordered_filter (keep : N -> bool) (l : list N) :
  (forall c, In c l -> keep c = false -> ccc c <> 0) ->
  ordered l = true -> ordered (List.filter keep l) = true.
Proof.
  intros Hrm Hl. destruct l as [|a l]; [reflexivity|].
  cbn [ordered] in Hl. apply andb_true_iff in Hl as [Ha Hl].
  destruct (ordered_filter_from keep l (fun c Hc => Hrm c (or_intror Hc)) a Ha Hl)
    as [Ha' Hl'].
  cbn [List.filter]. destruct (keep a); [|exact Hl'].
  cbn [ordered]. now rewrite Ha', Hl'.
Qed.

(** Replacing code points by others of the same class keeps the order. *)
Lemma ordered_map (f : N -> N) (l : list N) :
  (forall c, ccc (f c) = ccc c) -> ordered l = true -> ordered (map f l) = true.
Proof.
  intros Hf. induction l as [|a l IH]; [reflexivity|].
  cbn [ordered map]. intros H. apply andb_true_iff in H as [Ha Hl].
  rewrite (IH Hl), andb_true_r.
  destruct l as [|b l]; [reflexivity|]. cbn [map okBefore] in *. now rewrite !Hf.
Qed.

(** ** UTF-16 *)

Lemma isScalar_range (c : N) :
  isScalar c = true <-> c < 0xD800 \/ 0xDFFF < c < 0x110000.
Proof.
  unfold isScalar. rewrite orb_true_iff, andb_true_iff, !N.ltb_lt. tauto.
Qed.

Lemma isHighSurrogate_range (u : N) : isHighSurrogate u = true <-> 0xD800 <= u <= 0xDBFF.
Proof. unfold isHighSurrogate. rewrite andb_true_iff, !N.leb_le. reflexivity. Qed.

Lemma isLowSurrogate_range (u : N) : isLowSurrogate u = true <-> 0xDC00 <= u <= 0xDFFF.
Proof. unfold isLowSurrogate. rewrite andb_true_iff, !N.leb_le. reflexivity. Qed.

Lemma isHighSurrogate_scalar (c : N) : isScalar c = true -> c < 0x10000 -> isHighSurrogate c = false.
Proof.
  intros Hc Hlt. apply isScalar_range in Hc. apply not_true_iff_false.
  rewrite isHighSurrogate_range. lia.
Qed.

(** The code points of a well-formed string are scalar values. *)
Lemma StringToCodePoints_scalar (s : jsstring) :
  isWellFormed s = true -> Forall (fun c => isScalar c = true) (StringToCodePoints s).
Proof.
  induction s as [s IH] using (induction_ltof1 _ (@length N)). unfold ltof in IH.
  destruct s as [|u t]; [constructor|].
  cbn [isWellFormed StringToCodePoints].
  destruct (isHighSurrogate u) eqn:Hu.
  - destruct t as [|l t']; [discriminate|].
    intros H. apply andb_true_iff in H as [Hl Ht]. rewrite Hl.
    constructor; [|apply IH; [simpl; lia | exact Ht]].
    apply isHighSurrogate_range in Hu. apply isLowSurrogate_range in Hl.
    apply isScalar_range. lia.
  - intros H. apply andb_true_iff in H as [H Ht]. apply andb_true_iff in H as [Hl Hlt].
    constructor; [|apply IH; [simpl; lia | exact Ht]].
    apply negb_true_iff, not_true_iff_false in Hl. rewrite isLowSurrogate_range in Hl.
    apply not_true_iff_false in Hu. rewrite isHighSurrogate_range in Hu.
    apply N.ltb_lt in Hlt. apply isScalar_range. lia.
Qed.

(** Encoding scalar values and reading the code points back gives them again. *)
Lemma StringToCodePoints_CodePointsToString (l : list N) :
  Forall (fun c => isScalar c = true) l ->
  StringToCodePoints (CodePointsToString l) = l.
Proof.
  induction 1 as [|c l Hc _ IH]; [reflexivity|].
  unfold CodePointsToString in *. cbn [flat_map]. unfold UTF16EncodeCodePoint at 1.
  destruct (c <? 0x10000) eqn:Hlt.
  - apply N.ltb_lt in Hlt. cbn [app StringToCodePoints].
    rewrite (isHighSurrogate_scalar c Hc Hlt). now rewrite IH.
  - apply N.ltb_ge in Hlt. apply isScalar_range in Hc.
    assert (Hsplit : exists q r, c = 0x10000 + (0x400 * q + r) /\ q < 0x400 /\ r < 0x400
                                 /\ (c - 0x10000) / 0x400 = q /\ (c - 0x10000) mod 0x400 = r).
    { exists ((c - 0x10000) / 0x400), ((c - 0x10000) mod 0x400).
      pose proof (N.div_mod (c - 0x10000) 0x400 ltac:(discriminate)) as Hdm.
      split; [lia|]. split; [apply N.Div0.div_lt_upper_bound; lia|].
      split; [apply N.mod_lt; discriminate|]. split; reflexivity. }
    destruct Hsplit as (q & r & Hcqr & Hq & Hr & -> & ->).
    cbn [app StringToCodePoints].
    replace (isHighSurrogate (0xD800 + q)) with true
      by (symmetry; apply isHighSurrogate_range; lia).
    replace (isLowSurrogate (0xDC00 + r)) with true
      by (symmetry; apply isLowSurrogate_range; lia).
    rewrite IH. f_equal. lia.
Qed.

Lemma UTF16EncodeCodePoint_units (c u : N) :
  0x10000 <= c -> In u (UTF16EncodeCodePoint c) -> 0xD800 <= u.
Proof.
  intros Hc. unfold UTF16EncodeCodePoint.
  replace (c <? 0x10000) with false by (symmetry; apply N.ltb_ge; lia).
  generalize ((c - 0x10000) / 0x400), ((c - 0x10000) mod 0x400). intros q r.
  cbn [In]. intros [<-|[<-|[]]]; lia.
Qed.

Lemma removeRange_CodePointsToString (lo hi : N) (l : list N) :
  hi < 0xD800 ->
  removeRange lo hi (CodePointsToString l) = CodePointsToString (removeRange lo hi l).
Proof.
  intros Hhi. unfold removeRange, CodePointsToString.
  induction l as [|c l IH]; [reflexivity|].
  cbn [flat_map List.filter]. rewrite List.filter_app, IH. clear IH.
  destruct (N.ltb_spec c 0x10000) as [Hc|Hc].
  - unfold UTF16EncodeCodePoint at 1. replace (c <? 0x10000) with true
      by (symmetry; now apply N.ltb_lt).
    cbn [List.filter]. destruct (negb _); cbn [flat_map]; [|reflexivity].
    unfold UTF16EncodeCodePoint at 2. now replace (c <? 0x10000) with true
      by (symmetry; now apply N.ltb_lt).
  - replace (negb ((lo <=? c) && (c <=? hi))) with true.
    + cbn [flat_map]. f_equal. apply filter_all. intros u Hu.
      apply (UTF16EncodeCodePoint_units c u Hc) in Hu.
      apply negb_true_iff, andb_false_iff. right. apply N.leb_gt. lia.
    + symmetry. apply negb_true_iff, andb_false_iff. right. apply N.leb_gt. lia.
Qed.

Lemma replaceUnit_CodePointsToString (a b : N) (l : list N) :
  a < 0xD800 -> b < 0x10000 ->
  replaceUnit a b (CodePointsToString l) = CodePointsToString (replaceUnit a b l).
Proof.
  intros Ha Hb. unfold replaceUnit, CodePointsToString.
  induction l as [|c l IH]; [reflexivity|].
  cbn [flat_map map]. rewrite map_app, IH. f_equal. clear IH.
  destruct (N.eqb_spec c a) as [->|Hne].
  - unfold UTF16EncodeCodePoint.
    replace (a <? 0x10000) with true by (symmetry; apply N.ltb_lt; lia).
    replace (b <? 0x10000) with true by (symmetry; now apply N.ltb_lt).
    cbn [map]. now rewrite N.eqb_refl.
  - destruct (N.ltb_spec c 0x10000) as [Hc|Hc].
    + unfold UTF16EncodeCodePoint. replace (c <? 0x10000) with true
        by (symmetry; now apply N.ltb_lt).
      cbn [map]. now replace (c =? a) with false by (symmetry; now apply N.eqb_neq).
    + rewrite <- (map_id (UTF16EncodeCodePoint c)) at 2.
      apply map_ext_in. intros u Hu.
      apply (UTF16EncodeCodePoint_units c u Hc) in Hu.
      replace (u =? a) with false by (symmetry; apply N.eqb_neq; lia). reflexivity.
Qed.

(** [normalizeVietnamese] works code point by code point. *)
Lemma normalizeVietnamese_code_points (s : jsstring) :
  WordChecker.normalizeVietnamese s
  = CodePointsToString (normalizeCodePoints (StringToCodePoints s)).
Proof.
  unfold WordChecker.normalizeVietnamese, normalizeCodePoints, normalizeNFD.
  rewrite removeRange_CodePointsToString by lia.
  rewrite !replaceUnit_CodePointsToString by lia. reflexivity.
Qed.

(** ** Normalizing twice *)

Lemma table_scalar :
  forallb (fun e => forallb isScalar (snd e)) decomposition_table = true.
Proof. vm_compute. reflexivity. Qed.

Lemma table_no_CGJ :
  forallb (fun e => forallb (fun d => negb (d =? CGJ)) (snd e)) decomposition_table = true.
Proof. vm_compute. reflexivity. Qed.

Lemma decompose_scalar (c : N) :
  isScalar c = true -> Forall (fun d => isScalar d = true) (decompose c).
Proof.
  intros Hc. apply List.Forall_forall. intros d Hd.
  destruct (decompose_cases c) as [[Hh Hdec]|[(Hh & l & Hl & Hdec)|Hdec]];
    rewrite Hdec in Hd.
  - apply (hangul_decompose_range c d Hh) in Hd. apply isScalar_range. lia.
  - pose proof table_scalar as Hall. rewrite forallb_forall in Hall.
    specialize (Hall (c, l) Hl). cbn [snd] in Hall. rewrite forallb_forall in Hall. auto.
  - destruct Hd as [<-|[]]. exact Hc.
Qed.

Lemma decompose_CGJ (c : N) : In CGJ (decompose c) -> c = CGJ.
Proof.
  intros Hd. destruct (decompose_cases c) as [[Hh Hdec]|[(Hh & l & Hl & Hdec)|Hdec]];
    rewrite Hdec in Hd.
  - apply (hangul_decompose_range c CGJ Hh) in Hd. unfold CGJ in Hd. lia.
  - pose proof table_no_CGJ as Hall. rewrite forallb_forall in Hall.
    specialize (Hall (c, l) Hl). cbn [snd] in Hall. rewrite forallb_forall in Hall.
    specialize (Hall CGJ Hd). discriminate Hall.
  - destruct Hd as [<-|[]]. reflexivity.
Qed.

Lemma mark_class (c : N) : 0x300 <= c <= 0x36F -> c <> CGJ -> ccc c <> 0.
Proof.
  intros Hc Hne.
  assert (H : (c =? CGJ) || negb (ccc c =? 0) = true).
  { apply (codePoints_forall (fun c => (c =? CGJ) || negb (ccc c =? 0)) 0x300 112); [|lia].
    vm_compute. reflexivity. }
  apply orb_true_iff in H as [H|H].
  - apply N.eqb_eq in H. contradiction.
  - apply negb_true_iff in H. now apply N.eqb_neq.
Qed.

Lemma flat_map_stable (l : list N) :
  Forall (fun c => decompose c = [c]) l -> flat_map decompose l = l.
Proof. induction 1 as [|c l Hc _ IH]; [reflexivity|]. simpl. now rewrite Hc, IH. Qed.

Lemma replaceUnit_absent (a b : N) (l : list N) :
  Forall (fun c => c <> a) l -> replaceUnit a b l = l.
Proof.
  unfold replaceUnit. induction 1 as [|c l Hc _ IH]; [reflexivity|].
  simpl. rewrite IH. now replace (c =? a) with false by (symmetry; now apply N.eqb_neq).
Qed.

Lemma replaceUnit_ordered (a b : N) (l : list N) :
  ccc a = ccc b -> ordered l = true -> ordered (replaceUnit a b l) = true.
Proof.
  intros Hab. apply ordered_map. intros c.
  destruct (N.eqb_spec c a) as [->|_]; [now symmetry | reflexivity].
Qed.

Lemma In_NFD (l : list N) (d : N) : In d (NFD l) -> exists c, In c l /\ In d (decompose c).
Proof.
  unfold NFD. intros Hd.
  apply (Permutation_in d (canonicalOrder_perm _)) in Hd.
  now apply in_flat_map in Hd.
Qed.

Lemma replaced_normal (c : N) :
  decompose c = [c] -> negb ((0x300 <=? c) && (c <=? 0x36F)) = true ->
  let c' := (fun u => if u =? 0x110 then 0x44 else u) (if c =? 0x111 then 0x64 else c) in
  decompose c' = [c'] /\ negb ((0x300 <=? c') && (c' <=? 0x36F)) = true
  /\ c' <> 0x111 /\ c' <> 0x110.
Proof.
  intros Hst Hkeep.
  destruct (N.eqb_spec c 0x111) as [->|H1].
  - vm_compute. repeat split; discriminate.
  - cbv beta. destruct (N.eqb_spec c 0x110) as [->|H2].
    + vm_compute. repeat split; discriminate.
    + cbv zeta. auto.
Qed.

(** What is left after normalization: stable code points, in canonical
    order, none of them a diacritical mark or a d with stroke. *)
Lemma normalizeCodePoints_normal (l : list N) :
  ~ In CGJ l ->
  let t := normalizeCodePoints l in
  ordered t = true
  /\ Forall (fun c => decompose c = [c]) t
  /\ Forall (fun c => negb ((0x300 <=? c) && (c <=? 0x36F)) = true) t
  /\ Forall (fun c => c <> 0x111) t
  /\ Forall (fun c => c <> 0x110) t.
Proof.
  intros Hcgj t. split.
  - unfold t, normalizeCodePoints.
    do 2 (apply replaceUnit_ordered; [vm_compute; reflexivity|]).
    apply ordered_filter; [|apply canonicalOrder_ordered].
    intros c Hc Hkeep. apply negb_false_iff, andb_true_iff in Hkeep as [H1 H2].
    apply N.leb_le in H1, H2. apply mark_class; [lia|].
    intros ->. apply In_NFD in Hc as (c0 & Hc0 & Hd).
    apply decompose_CGJ in Hd. now subst.
  - assert (Hall : forall c, In c t ->
                     decompose c = [c] /\ negb ((0x300 <=? c) && (c <=? 0x36F)) = true
                     /\ c <> 0x111 /\ c <> 0x110).
    { intros c Hc. unfold t, normalizeCodePoints, replaceUnit in Hc.
      rewrite map_map in Hc. apply in_map_iff in Hc as (c' & <- & Hc').
      apply filter_In in Hc' as [Hc' Hkeep].
      apply In_NFD in Hc' as (c0 & _ & Hd).
      exact (replaced_normal c' (decompose_stable c0 c' Hd) Hkeep). }
    repeat split; apply List.Forall_forall; intros c Hc; now apply Hall in Hc.
Qed.

Lemma normalizeCodePoints_idempotent (l : list N) :
  ~ In CGJ l -> normalizeCodePoints (normalizeCodePoints l) = normalizeCodePoints l.
Proof.
  intros Hcgj.
  destruct (normalizeCodePoints_normal l Hcgj) as (Hord & Hst & Hkeep & Hd & HD).
  set (t := normalizeCodePoints l) in *.
  unfold normalizeCodePoints at 1. unfold NFD.
  rewrite (flat_map_stable t Hst), (canonicalOrder_id t Hord).
  unfold removeRange. rewrite filter_all by (now apply List.Forall_forall).
  now rewrite (replaceUnit_absent 0x111 0x64 t Hd), (replaceUnit_absent 0x110 0x44 t HD).
Qed.

Lemma normalizeCodePoints_scalar (l : list N) :
  Forall (fun c => isScalar c = true) l ->
  Forall (fun c => isScalar c = true) (normalizeCodePoints l).
Proof.
  intros Hl. unfold normalizeCodePoints, replaceUnit. rewrite map_map.
  apply List.Forall_map. apply List.Forall_forall. intros c Hc.
  apply filter_In in Hc as [Hc _]. apply In_NFD in Hc as (c0 & Hc0 & Hd).
  rewrite List.Forall_forall in Hl. pose proof (decompose_scalar c0 (Hl c0 Hc0)) as Hsc.
  rewrite List.Forall_forall in Hsc. specialize (Hsc c Hd).
  destruct (c =? 0x111); [reflexivity|]. destruct (c =? 0x110); [reflexivity|]. exact Hsc.
Qed.

Lemma StringToCodePoints_In (s : jsstring) (c : N) :
  In c (StringToCodePoints s) -> In c s \/ 0x10000 <= c.
Proof.
  induction s as [s IH] using (induction_ltof1 _ (@length N)). unfold ltof in IH.
  destruct s as [|u t]; [contradiction|]. cbn [StringToCodePoints].
  destruct (isHighSurrogate u).
  - destruct t as [|l t']; [intros [<-|[]]; left; now left|].
    destruct (isLowSurrogate l).
    + intros [<-|Hc]; [right; lia|].
      destruct (IH t' ltac:(simpl; lia) Hc) as [H|H]; [left; right; now right | now right].
    + intros [<-|Hc]; [left; now left|].
      destruct (IH (l :: t') ltac:(simpl; lia) Hc) as [H|H]; [left; now right | now right].
  - intros [<-|Hc]; [left; now left|].
    destruct (IH t ltac:(simpl; lia) Hc) as [H|H]; [left; now right | now right].
Qed.

Lemma normalizeVietnamese_idempotent (s : jsstring) :
  isWellFormed s = true -> ~ In CGJ s ->
  WordChecker.normalizeVietnamese (WordChecker.normalizeVietnamese s)
  = WordChecker.normalizeVietnamese s.
Proof.
  intros Hwf Hcgj. rewrite !normalizeVietnamese_code_points.
  rewrite StringToCodePoints_CodePointsToString
    by (apply normalizeCodePoints_scalar; now apply StringToCodePoints_scalar).
  rewrite normalizeCodePoints_idempotent; [reflexivity|].
  intros H. apply StringToCodePoints_In in H as [H|H]; [contradiction | unfold CGJ in H; lia].
Qed.

(** ** Letter case *)

Lemma lower_in_outside (lo hi c : N) (l : list (N * N * N * N)) :
  forallb (fun e => (snd (fst (fst e)) <? lo) || (hi <? fst (fst (fst e)))) l = true ->
  lo <= c <= hi -> lower_in c l = None.
Proof.
  intros Hall Hc. induction l as [|[[[lo' hi'] stride] img] l IH]; [reflexivity|].
  cbn [forallb fst snd] in Hall. apply andb_true_iff in Hall as [He Hall].
  cbn [lower_in]. rewrite (IH Hall).
  replace ((lo' <=? c) && (c <=? hi')) with false; [reflexivity|].
  symmetry. apply andb_false_iff.
  apply orb_true_iff in He as [He|He]; apply N.ltb_lt in He;
    [right|left]; apply N.leb_gt; lia.
Qed.

Lemma not_upper_outside (lo hi c : N) :
  forallb (fun e => (snd (fst (fst e)) <? lo) || (hi <? fst (fst (fst e)))) lowercase_table
  = true ->
  (0x130 <? lo) || (hi <? 0x130) = true ->
  lo <= c <= hi -> isUpper c = false.
Proof.
  intros Hall H130 Hc. unfold isUpper, lowerCodePoint.
  rewrite (lower_in_outside lo hi c lowercase_table Hall Hc).
  replace (c =? 0x130) with false.
  - now rewrite bool_decide_eq_true_2.
  - symmetry. apply N.eqb_neq. apply orb_true_iff in H130 as [H|H]; apply N.ltb_lt in H; lia.
Qed.

Lemma mark_not_upper (c : N) : 0x300 <= c <= 0x36F -> isUpper c = false.
Proof. apply not_upper_outside; vm_compute; reflexivity. Qed.

Lemma jamo_not_upper (c : N) : 0x1100 <= c <= 0x11C2 -> isUpper c = false.
Proof. apply not_upper_outside; vm_compute; reflexivity. Qed.

Lemma hangul_not_upper (c : N) : isHangulSyllable c = true -> isUpper c = false.
Proof.
  intros Hc. apply andb_true_iff in Hc as [H1 H2]. apply N.leb_le in H1, H2.
  apply (not_upper_outside 0xAC00 0xD7A3); [vm_compute; reflexivity..|lia].
Qed.

Lemma table_uppers :
  forallb (fun e => (length (uppersOf (snd e)) =? (if isUpper (fst e) then 1 else 0))%nat)
    decomposition_table = true.
Proof. vm_compute. reflexivity. Qed.

(** A code point leaves one uppercase letter when it is one, and none otherwise. *)
Lemma uppersOf_decompose (c : N) :
  length (uppersOf (decompose c)) = length (List.filter isUpper [c]).
Proof.
  cbn [List.filter].
  destruct (decompose_cases c) as [[Hh Hdec]|[(Hh & l & Hl & Hdec)|Hdec]]; rewrite Hdec.
  - rewrite (hangul_not_upper c Hh).
    replace (uppersOf (hangul_decompose c)) with (@nil N); [reflexivity|].
    symmetry. apply filter_none. intros d Hd.
    unfold replaceUnit in Hd. rewrite map_map in Hd. apply in_map_iff in Hd as (d' & <- & Hd).
    apply filter_In in Hd as [Hd _]. apply (hangul_decompose_range c d' Hh) in Hd.
    replace (d' =? 0x111) with false by (symmetry; apply N.eqb_neq; lia).
    replace (d' =? 0x110) with false by (symmetry; apply N.eqb_neq; lia).
    now apply jamo_not_upper.
  - pose proof table_uppers as Hall. rewrite forallb_forall in Hall.
    specialize (Hall (c, l) Hl). cbn [fst snd] in Hall. apply Nat.eqb_eq in Hall.
    rewrite Hall. now destruct (isUpper c).
  - unfold uppersOf, removeRange. cbn [List.filter].
    destruct (negb ((0x300 <=? c) && (c <=? 0x36F))) eqn:Hkeep.
    + cbn [replaceUnit map List.filter].
      destruct (N.eqb_spec c 0x111) as [->|H1]; [vm_compute; reflexivity|].
      destruct (N.eqb_spec c 0x110) as [->|H2]; [vm_compute; reflexivity|].
      reflexivity.
    + apply negb_false_iff, andb_true_iff in Hkeep as [H1 H2]. apply N.leb_le in H1, H2.
      now rewrite mark_not_upper by lia.
Qed.

Lemma uppersOf_app (l l' : list N) : uppersOf (l ++ l') = uppersOf l ++ uppersOf l'.
Proof.
  unfold uppersOf, removeRange, replaceUnit.
  now rewrite List.filter_app, !map_app, List.filter_app.
Qed.

Lemma uppersOf_perm (l l' : list N) :
  Permutation l l' -> Permutation (uppersOf l) (uppersOf l').
Proof.
  intros H. unfold uppersOf, removeRange, replaceUnit.
  apply filter_perm. do 2 apply Permutation_map. now apply filter_perm.
Qed.

Lemma normalizeCodePoints_uppers (l : list N) :
  length (List.filter isUpper (normalizeCodePoints l)) = length (List.filter isUpper l).
Proof.
  change (List.filter isUpper (normalizeCodePoints l)) with (uppersOf (NFD l)).
  unfold NFD. rewrite (Permutation_length (uppersOf_perm _ _ (canonicalOrder_perm _))).
  induction l as [|c l IH]; [reflexivity|].
  cbn [flat_map]. rewrite uppersOf_app, length_app, IH, uppersOf_decompose.
  cbn [List.filter]. now destruct (isUpper c).
Qed.

Lemma normalizeVietnamese_countUpper (s : jsstring) :
  isWellFormed s = true ->
  countUpper (WordChecker.normalizeVietnamese s) = countUpper s.
Proof.
  intros Hwf. unfold countUpper. rewrite normalizeVietnamese_code_points.
  rewrite StringToCodePoints_CodePointsToString
    by (apply normalizeCodePoints_scalar; now apply StringToCodePoints_scalar).
  apply normalizeCodePoints_uppers.
Qed.

(** ** ASCII text *)

Lemma ccc_in_outside (lo hi c : N) (l : list (N * N * N)) :
  forallb (fun e => (snd (fst e) <? lo) || (hi <? fst (fst e))) l = true ->
  lo <= c <= hi -> ccc_in c l = 0.
Proof.
  intros Hall Hc. induction l as [|[[lo' hi'] k] l IH]; [reflexivity|].
  cbn [forallb fst snd] in Hall. apply andb_true_iff in Hall as [He Hall].
  cbn [ccc_in]. rewrite (IH Hall).
  replace ((lo' <=? c) && (c <=? hi')) with false; [reflexivity|].
  symmetry. apply andb_false_iff.
  apply orb_true_iff in He as [He|He]; apply N.ltb_lt in He;
    [right|left]; apply N.leb_gt; lia.
Qed.

Lemma ascii_class (c : N) : c <= 0x7F -> ccc c = 0.
Proof. intros Hc. apply (ccc_in_outside 0 0x7F); [vm_compute; reflexivity | lia]. Qed.

Lemma ascii_stable (c : N) : c <= 0x7F -> decompose c = [c].
Proof.
  intros Hc. unfold decompose.
  replace (isHangulSyllable c) with false
    by (symmetry; apply andb_false_iff; left; apply N.leb_gt; lia).
  rewrite (assoc_outside 0 0x7F c); [reflexivity | vm_compute; reflexivity | lia].
Qed.

Lemma ascii_ordered (l : list N) : Forall (fun c => c <= 0x7F) l -> ordered l = true.
Proof.
  induction 1 as [|c l Hc Hl IH]; [reflexivity|].
  cbn [ordered]. rewrite IH, andb_true_r.
  destruct Hl as [|d l Hd _]; [reflexivity|].
  cbn [okBefore]. now rewrite (ascii_class d Hd).
Qed.

Lemma ascii_code_points (s : jsstring) :
  Forall (fun u => u <= 0x7F) s ->
  StringToCodePoints s = s /\ CodePointsToString s = s.
Proof.
  induction 1 as [|u s Hu _ [IH1 IH2]]; [now split|].
  cbn [StringToCodePoints]. unfold CodePointsToString in *. cbn [flat_map].
  replace (isHighSurrogate u) with false
    by (symmetry; apply andb_false_iff; left; apply N.leb_gt; lia).
  unfold UTF16EncodeCodePoint at 1.
  replace (u <? 0x10000) with true by (symmetry; apply N.ltb_lt; lia).
  rewrite IH1, IH2. now split.
Qed.

Lemma normalizeVietnamese_ascii (s : jsstring) :
  Forall (fun u => u <= 0x7F) s -> WordChecker.normalizeVietnamese s = s.
Proof.
  intros Hs. rewrite normalizeVietnamese_code_points.
  destruct (ascii_code_points s Hs) as [-> Henc].
  unfold normalizeCodePoints, NFD.
  rewrite flat_map_stable by (eapply List.Forall_impl; [|exact Hs]; apply ascii_stable).
  rewrite canonicalOrder_id by now apply ascii_ordered.
  unfold removeRange. rewrite filter_all.
  - rewrite (replaceUnit_absent 0x111 0x64 s), (replaceUnit_absent 0x110 0x44 s);
      [exact Henc|..]; (eapply List.Forall_impl; [|exact Hs]); cbv beta; intros c Hc; lia.
  - intros c Hc. rewrite List.Forall_forall in Hs. specialize (Hs c Hc).
    apply negb_true_iff, andb_false_iff. left. apply N.leb_gt. lia.
Qed.

(** ** Normalization *)

(** C3 does not hold as it is written: the combining grapheme joiner
    U+034F keeps the marks U+0591 (class 220) and U+05B0 (class 10) apart;
    once normalization has removed it, a second normalization puts the
    two marks in canonical order. *)
Lemma C3_not_idempotent :
  let s := [0x591; 0x34F; 0x5B0] in
  isWellFormed s = true
  /\ WordChecker.normalizeVietnamese s = [0x591; 0x5B0]
  /\ WordChecker.normalizeVietnamese (WordChecker.normalizeVietnamese s) = [0x5B0; 0x591]
  /\ WordChecker.normalizeVietnamese (WordChecker.normalizeVietnamese s)
     <> WordChecker.normalizeVietnamese s.
Proof.
  intros s. split; [reflexivity|].
  split; [vm_compute; reflexivity|]. split; [vm_compute; reflexivity|].
  vm_compute. discriminate.
Qed.

(** Unpaired surrogates are left out as well: when the mark between the
    two halves of U+1D15E is removed, the halves form that code point, and
    a second normalization decomposes it. *)
Lemma normalizeVietnamese_unpaired_surrogates :
  let s := [0xD834; 0x301; 0xDD5E] in
  isWellFormed s = false
  /\ WordChecker.normalizeVietnamese s = [0xD834; 0xDD5E]
  /\ WordChecker.normalizeVietnamese (WordChecker.normalizeVietnamese s)
     = [0xD834; 0xDD57; 0xD834; 0xDD65].
Proof. intros s. split; [reflexivity|]. split; vm_compute; reflexivity. Qed.

(** C3, amended: on every well-formed string without U+034F, normalizing
    twice is normalizing once; normalization does not alter letter case:
    a well-formed string has as many uppercase letters after it as
    before, and text in ASCII letters comes out as it went in; "đất"
    becomes "dat" and "Đất" becomes "Dat", capital kept. *)
Theorem C3_normalize :
  (forall s, isWellFormed s = true -> ~ In CGJ s ->
     WordChecker.normalizeVietnamese (WordChecker.normalizeVietnamese s)
     = WordChecker.normalizeVietnamese s)
  /\ (forall s, isWellFormed s = true ->
        countUpper (WordChecker.normalizeVietnamese s) = countUpper s)
  /\ (forall s, Forall (fun u => u <= 0x7F) s -> WordChecker.normalizeVietnamese s = s)
  /\ WordChecker.normalizeVietnamese (js "đất") = js "dat"
  /\ WordChecker.normalizeVietnamese (js "Đất") = js "Dat".
Proof.
  split; [exact normalizeVietnamese_idempotent|].
  split; [exact normalizeVietnamese_countUpper|].
  split; [exact normalizeVietnamese_ascii|].
  split; vm_compute; reflexivity.
Qed.

Lemma C3_normalize_witness :
  let s := js "Trời Đất" in
  WordChecker.normalizeVietnamese s = js "Troi Dat"
  /\ WordChecker.normalizeVietnamese (WordChecker.normalizeVietnamese s)
     = WordChecker.normalizeVietnamese s
  /\ countUpper (WordChecker.normalizeVietnamese s) = 2%nat
  /\ WordChecker.normalizeVietnamese (js "Troi Dat") = js "Troi Dat".
Proof.
  intros s. destruct C3_normalize as (Hidem & Hcase & Hascii & _).
  split; [vm_compute; reflexivity|]. split; [|split].
  - apply Hidem; [reflexivity|]. vm_compute.
    intros H. repeat (destruct H as [H|H]; [discriminate H|]). exact H.
  - rewrite Hcase by reflexivity. vm_compute. reflexivity.
  - apply Hascii. vm_compute. repeat constructor; discriminate.
Defined.

(** ** Trimming and splitting *)

Lemma split_go_sep_irrelevant (s : jsstring) :
  List.filter nonEmpty (split_go true [] s) = List.filter nonEmpty (split_go false [] s).
Proof. destruct s as [|u t]; simpl; [reflexivity|]. now destruct (isWhiteSpace u). Qed.

Lemma split_go_word (inSep : bool) (tok w s : jsstring) :
  w <> [] -> forallb (fun u => negb (isWhiteSpace u)) w = true ->
  split_go inSep tok (w ++ s) = split_go false (tok ++ w) s.
Proof.
  revert inSep tok. induction w as [|u w IH]; intros inSep tok Hne Hw; [contradiction|].
  simpl in Hw. apply andb_true_iff in Hw as [Hu Hw]. apply negb_true_iff in Hu.
  simpl. rewrite Hu. destruct w as [|u' w'].
  - reflexivity.
  - rewrite IH by (discriminate || assumption). now rewrite <- app_assoc.
Qed.

Lemma split_go_trailing_space (inSep : bool) (tok s : jsstring) (u : N) :
  isWhiteSpace u = true ->
  List.filter nonEmpty (split_go inSep tok (s ++ [u])) = List.filter nonEmpty (split_go inSep tok s).
Proof.
  intros Hu. revert inSep tok. induction s as [|v s IH]; intros inSep tok; simpl.
  - rewrite Hu. destruct inSep; simpl; [reflexivity|]. now destruct (nonEmpty tok).
  - destruct (isWhiteSpace v); [destruct inSep|]; simpl; now rewrite ?IH.
Qed.

Lemma tokens_leading (pad s : jsstring) :
  forallb isWhiteSpace pad = true ->
  List.filter nonEmpty (split_whitespace (pad ++ s)) = List.filter nonEmpty (split_whitespace s).
Proof.
  unfold split_whitespace. induction pad as [|u pad IH]; simpl; [reflexivity|].
  intros H. apply andb_true_iff in H as [-> H]. simpl.
  rewrite split_go_sep_irrelevant. auto.
Qed.

Lemma tokens_trailing (s pad : jsstring) :
  forallb isWhiteSpace pad = true ->
  List.filter nonEmpty (split_whitespace (s ++ pad)) = List.filter nonEmpty (split_whitespace s).
Proof.
  unfold split_whitespace. revert s. induction pad as [|u pad IH]; intros s H; simpl.
  - now rewrite app_nil_r.
  - simpl in H. apply andb_true_iff in H as [Hu H].
    change (u :: pad) with ([u] ++ pad). rewrite app_assoc, IH by exact H.
    now apply split_go_trailing_space.
Qed.

Lemma trim_decompose (s : jsstring) :
  exists pad pad', s = pad ++ trim s ++ pad'
                   /\ forallb isWhiteSpace pad = true /\ forallb isWhiteSpace pad' = true.
Proof.
  unfold trim, trimEnd, trimStart.
  destruct (dropWhile_decompose isWhiteSpace s) as (pad & Hs & Hpad).
  destruct (dropWhile_decompose isWhiteSpace (rev (dropWhile isWhiteSpace s))) as (pad' & Hr & Hpad').
  exists pad, (rev pad'). split; [|split].
  - rewrite <- rev_app_distr, <- Hr, rev_involutive. exact Hs.
  - exact Hpad.
  - now rewrite forallb_rev.
Qed.

(** Trimming does not change the tokens. *)
Lemma tokens_untrimmed (s : jsstring) :
  tokens s = List.filter nonEmpty (split_whitespace s).
Proof.
  unfold tokens. destruct (trim_decompose s) as (pad & pad' & Hs & Hpad & Hpad').
  rewrite Hs at 2. rewrite tokens_leading, tokens_trailing by assumption. reflexivity.
Qed.

Lemma tokens_nil : tokens [] = [].
Proof. reflexivity. Qed.

Lemma tokens_space (u : N) (s : jsstring) : isWhiteSpace u = true -> tokens (u :: s) = tokens s.
Proof.
  intros Hu. rewrite !tokens_untrimmed. apply (tokens_leading [u]). simpl. now rewrite Hu.
Qed.

Lemma tokens_last (w : jsstring) :
  w <> [] -> forallb (fun u => negb (isWhiteSpace u)) w = true -> tokens w = [w].
Proof.
  intros Hne Hw. rewrite tokens_untrimmed. unfold split_whitespace.
  rewrite <- (app_nil_r w) at 1. rewrite split_go_word by assumption. simpl.
  destruct w; [contradiction|reflexivity].
Qed.

Lemma tokens_word (w : jsstring) (u : N) (s : jsstring) :
  w <> [] -> forallb (fun u => negb (isWhiteSpace u)) w = true -> isWhiteSpace u = true ->
  tokens (w ++ u :: s) = w :: tokens s.
Proof.
  intros Hne Hw Hu. rewrite !tokens_untrimmed. unfold split_whitespace.
  rewrite split_go_word by assumption. simpl. rewrite Hu. simpl.
  rewrite split_go_sep_irrelevant. destruct w; [contradiction|reflexivity].
Qed.

Lemma Tokenized_tokens (s : jsstring) (ts : list jsstring) : Tokenized s ts -> tokens s = ts.
Proof.
  induction 1 as [|u s ts Hu _ IH|w Hne Hw|w u s ts Hne Hw Hu _ IH].
  - apply tokens_nil.
  - rewrite tokens_space; assumption.
  - now apply tokens_last.
  - rewrite tokens_word by assumption. now f_equal.
Qed.

(** Every string reads as white space and words. *)
Lemma word_prefix (s : jsstring) :
  exists w rest, s = w ++ rest
                 /\ forallb (fun u => negb (isWhiteSpace u)) w = true
                 /\ match rest with [] => True | u :: _ => isWhiteSpace u = true end.
Proof.
  induction s as [|u s (w & rest & Hs & Hw & Hrest)].
  - now exists [], [].
  - destruct (isWhiteSpace u) eqn:Hu.
    + exists [], (u :: s). auto.
    + exists (u :: w), rest. simpl. rewrite Hu, Hw, Hs. auto.
Qed.

Lemma Tokenized_total (s : jsstring) : exists ts, Tokenized s ts.
Proof.
  induction s as [s IH] using (induction_ltof1 _ (@length N)). unfold ltof in IH.
  destruct s as [|u s]; [exists []; constructor|].
  destruct (isWhiteSpace u) eqn:Hu.
  - destruct (IH s) as [ts Hts]; [simpl; lia|].
    exists ts. now constructor.
  - destruct (word_prefix s) as (w & rest & -> & Hw & Hrest).
    assert (Hw' : forallb (fun u => negb (isWhiteSpace u)) (u :: w) = true)
      by (simpl; now rewrite Hu, Hw).
    destruct rest as [|v rest].
    + exists [u :: w]. rewrite app_nil_r. now constructor.
    + destruct (IH rest) as [ts Hts]; [simpl; rewrite length_app; simpl; lia|].
      exists ((u :: w) :: ts). change (u :: w ++ v :: rest) with ((u :: w) ++ v :: rest).
      now constructor.
Qed.

Lemma Tokenized_tokens_self (s : jsstring) : Tokenized s (tokens s).
Proof.
  destruct (Tokenized_total s) as [ts Hts].
  now rewrite (Tokenized_tokens s ts Hts).
Qed.

Lemma Tokenized_words (s : jsstring) (ts : list jsstring) :
  Tokenized s ts ->
  Forall (fun w => w <> [] /\ forallb (fun u => negb (isWhiteSpace u)) w = true) ts.
Proof. induction 1; auto. Qed.

Lemma tokens_words (s : jsstring) :
  Forall (fun w => w <> [] /\ forallb (fun u => negb (isWhiteSpace u)) w = true) (tokens s).
Proof. apply (Tokenized_words s), Tokenized_tokens_self. Qed.

Lemma tokens_padding (pad s pad' : jsstring) :
  forallb isWhiteSpace pad = true -> forallb isWhiteSpace pad' = true ->
  tokens (pad ++ s ++ pad') = tokens s.
Proof.
  intros Hpad Hpad'. rewrite !tokens_untrimmed.
  rewrite tokens_leading, tokens_trailing by assumption. reflexivity.
Qed.

(** ** The format of an input *)

Lemma validateFormat_tokens (input : jsstring) :
  WordChecker.validateFormat input
  = match tokens input with
    | [w0; w1] =>
        if WordChecker.vietnameseRegex_test w0 && WordChecker.vietnameseRegex_test w1
        then formatValid w0 w1 else formatInvalid
    | _ => formatInvalid
    end.
Proof.
  unfold WordChecker.validateFormat, tokens.
  destruct (trim input) as [|u t] eqn:Ht.
  - reflexivity.
  - destruct (List.filter _ _) as [|w0 [|w1 [|w2 ws]]]; try reflexivity.
    destruct (WordChecker.vietnameseRegex_test w0), (WordChecker.vietnameseRegex_test w1);
      reflexivity.
Qed.

Lemma validateFormat_cases (input : jsstring) :
  WordChecker.validateFormat input = formatInvalid
  \/ exists w0 w1, WordChecker.validateFormat input = formatValid w0 w1.
Proof.
  rewrite validateFormat_tokens.
  destruct (tokens input) as [|w0 [|w1 [|w2 ws]]]; auto.
  destruct (_ && _); eauto.
Qed.

(** ** The character class *)

Lemma isWhiteSpace_cases (u : N) :
  isWhiteSpace u = true ->
  In u [0x9; 0xA; 0xB; 0xC; 0xD; 0x20; 0xA0; 0x1680; 0x2028; 0x2029; 0x202F; 0x205F; 0x3000; 0xFEFF]
  \/ 0x2000 <= u <= 0x200A.
Proof.
  unfold isWhiteSpace. intros H. apply orb_true_iff in H as [H|H].
  - left. apply existsb_exists in H as (x & Hx & He). apply N.eqb_eq in He. now subst.
  - right. apply andb_true_iff in H as [H1 H2]. apply N.leb_le in H1, H2. lia.
Qed.

Lemma vietnameseLetters_not_space :
  forallb (fun u => negb (isWhiteSpace u)) WordChecker.vietnameseLetters = true.
Proof. vm_compute. reflexivity. Qed.

Lemma isAsciiLetter_range (u : N) :
  isAsciiLetter u = true <-> 0x61 <= u <= 0x7A \/ 0x41 <= u <= 0x5A.
Proof.
  unfold isAsciiLetter. rewrite orb_true_iff, !andb_true_iff, !N.leb_le. reflexivity.
Qed.

Lemma allowedLetter_not_space (u : N) : allowedLetter u = true -> isWhiteSpace u = false.
Proof.
  intros H. apply not_true_iff_false. intros Hw.
  apply orb_true_iff in H as [H|H].
  - apply isAsciiLetter_range in H.
    apply isWhiteSpace_cases in Hw as [Hw|Hw]; [|lia].
    simpl in Hw. repeat (destruct Hw as [<-|Hw]; [lia|]). exact Hw.
  - apply existsb_exists in H as (x & Hx & He). apply N.eqb_eq in He. subst x.
    pose proof vietnameseLetters_not_space as Hall.
    rewrite forallb_forall in Hall. specialize (Hall u Hx). now rewrite Hw in Hall.
Qed.

Lemma vietnameseClass_letter (u : N) :
  WordChecker.vietnameseClass u = allowedLetter u || isWhiteSpace u.
Proof. reflexivity. Qed.

(** On a token the regular expression asks for allowed letters only. *)
Lemma vietnameseRegex_test_token (w : jsstring) :
  w <> [] -> forallb (fun u => negb (isWhiteSpace u)) w = true ->
  WordChecker.vietnameseRegex_test w = forallb allowedLetter w.
Proof.
  intros Hne Hw. unfold WordChecker.vietnameseRegex_test.
  destruct w as [|u0 w0]; [contradiction|]. clear Hne.
  revert Hw. generalize (u0 :: w0) as w. clear.
  induction w as [|u w IH]; simpl; [reflexivity|].
  intros H. apply andb_true_iff in H as [Hu Hw]. apply negb_true_iff in Hu.
  rewrite IH by exact Hw. rewrite vietnameseClass_letter, Hu, orb_false_r. reflexivity.
Qed.

Lemma validateFormat_letters (input : jsstring) :
  WordChecker.validateFormat input
  = match tokens input with
    | [w0; w1] => if forallb allowedLetter (w0 ++ w1) then formatValid w0 w1 else formatInvalid
    | _ => formatInvalid
    end.
Proof.
  rewrite validateFormat_tokens. pose proof (tokens_words input) as Hall.
  destruct (tokens input) as [|w0 [|w1 [|w2 ws]]]; try reflexivity.
  inversion Hall as [|? ? [Hne0 Hw0] Hall']; subst.
  inversion Hall' as [|? ? [Hne1 Hw1] _]; subst.
  rewrite !vietnameseRegex_test_token, forallb_app by assumption. reflexivity.
Qed.

(** C4: [validateFormat] ignores white space around its input and splits
    the rest into the maximal runs of other characters; it fails when the
    trimmed input is empty, when there are not exactly two tokens, and
    when a token has a character that is neither an ASCII letter nor one
    of the listed Vietnamese letters, and succeeds with the two tokens
    otherwise; [validateWord] reports every failure of the format as
    [invalid_format].  Two words of ASCII letters, such as "hello world",
    pass the format, so [validateWord] rejects them with [word_not_found]
    when the dictionary does not hold them. *)
Theorem C4_validateFormat (input : jsstring) :
  (forall pad pad', forallb isWhiteSpace pad = true -> forallb isWhiteSpace pad' = true ->
     WordChecker.validateFormat (pad ++ input ++ pad') = WordChecker.validateFormat input)
  /\ Tokenized input (tokens input)
  /\ (trim input = [] -> WordChecker.validateFormat input = formatInvalid)
  /\ (length (tokens input) <> 2%nat -> WordChecker.validateFormat input = formatInvalid)
  /\ (forall w0 w1 u, tokens input = [w0; w1] -> In u (w0 ++ w1) -> allowedLetter u = false ->
      WordChecker.validateFormat input = formatInvalid)
  /\ (forall w0 w1, tokens input = [w0; w1] -> forallb allowedLetter (w0 ++ w1) = true ->
      WordChecker.validateFormat input = formatValid w0 w1)
  /\ (forall self usedKeys, WordChecker.validateFormat input = formatInvalid ->
      WordChecker.validateWord self input usedKeys
      = Return {| isValid := false;
                  error := Some (js "Từ phải gồm đúng 2 chữ cách nhau bởi dấu cách");
                  reason := Some invalid_format |})
  /\ (forall w0 w1, w0 <> [] -> w1 <> [] -> forallb isAsciiLetter (w0 ++ w1) = true ->
      input = w0 ++ js " " ++ w1 ->
      WordChecker.validateFormat input = formatValid w0 w1
      /\ forall self usedKeys,
           WordChecker.isWordInDictionary self w0 w1 = false ->
           exists message,
             WordChecker.validateWord self input usedKeys
             = Return {| isValid := false; error := Some message;
                         reason := Some word_not_found |}).
Proof.
  split; [|split; [|split; [|split; [|split; [|split; [|split]]]]]].
  - intros pad pad' Hpad Hpad'. rewrite !validateFormat_letters.
    now rewrite tokens_padding.
  - apply Tokenized_tokens_self.
  - intros H. unfold WordChecker.validateFormat. now rewrite H.
  - intros H. rewrite validateFormat_letters.
    destruct (tokens input) as [|w0 [|w1 [|w2 ws]]]; try reflexivity. now contradict H.
  - intros w0 w1 u Ht Hu Hbad. rewrite validateFormat_letters, Ht.
    destruct (forallb allowedLetter (w0 ++ w1)) eqn:Hall; [|reflexivity].
    rewrite forallb_forall in Hall. rewrite (Hall u Hu) in Hbad. discriminate.
  - intros w0 w1 Ht Hall. now rewrite validateFormat_letters, Ht, Hall.
  - intros self usedKeys H. unfold WordChecker.validateWord. now rewrite H.
  - intros w0 w1 Hne0 Hne1 Hall ->.
    assert (Hletters : forallb allowedLetter (w0 ++ w1) = true).
    { rewrite forallb_forall in Hall |- *. intros u Hu.
      unfold allowedLetter. now rewrite (Hall u Hu). }
    assert (Hws : forall w, forallb allowedLetter w = true ->
                            forallb (fun u => negb (isWhiteSpace u)) w = true).
    { intros w Hw. rewrite forallb_forall in Hw |- *. intros u Hu.
      now rewrite (allowedLetter_not_space u (Hw u Hu)). }
    assert (Ht : tokens (w0 ++ js " " ++ w1) = [w0; w1]).
    { rewrite forallb_app in Hletters. apply andb_true_iff in Hletters as [H0 H1].
      apply Tokenized_tokens. apply (Tokenized_word w0 0x20 w1 [w1]); auto.
      apply Tokenized_last; auto. }
    assert (Hfmt : WordChecker.validateFormat (w0 ++ js " " ++ w1) = formatValid w0 w1)
      by now rewrite validateFormat_letters, Ht, Hletters.
    split; [exact Hfmt|].
    intros self usedKeys Hdict. unfold WordChecker.validateWord.
    rewrite Hfmt. simpl. rewrite Hdict. simpl. eauto.
Qed.

Lemma C4_validateFormat_witness :
  let checker := WordChecker.constructor sampleDictionary in
  WordChecker.validateFormat (js "  thế chân	") = WordChecker.validateFormat (js "thế chân")
  /\ WordChecker.validateFormat (js "   ") = formatInvalid
  /\ WordChecker.validateFormat (js "thế") = formatInvalid
  /\ WordChecker.validateFormat (js "thế chân thật") = formatInvalid
  /\ WordChecker.validateFormat (js "thế ch4n") = formatInvalid
  /\ WordChecker.validateFormat (js "thế, chân") = formatInvalid
  /\ WordChecker.validateFormat (js "thế   chân") = formatValid (js "thế") (js "chân")
  /\ WordChecker.validateWord checker (js "thế chân thật") ∅ = Return invalidFormat
  /\ WordChecker.validateFormat (js "hello world") = formatValid (js "hello") (js "world")
  /\ WordChecker.validateWord checker (js "hello world") ∅
     = Return (wordNotFound (js "hello") (js "world")).
Proof.
  intros checker.
  pose proof (C4_validateFormat (js "thế chân")) as (H1 & _).
  pose proof (C4_validateFormat (js "   ")) as (_ & _ & H2 & _).
  pose proof (C4_validateFormat (js "thế")) as (_ & _ & _ & H3 & _).
  pose proof (C4_validateFormat (js "thế chân thật")) as (_ & _ & _ & H4 & _ & _ & H8 & _).
  pose proof (C4_validateFormat (js "thế ch4n")) as (_ & _ & _ & _ & H5 & _).
  pose proof (C4_validateFormat (js "thế, chân")) as (_ & _ & _ & _ & H6 & _).
  pose proof (C4_validateFormat (js "thế   chân")) as (_ & _ & _ & _ & _ & H7 & _).
  pose proof (C4_validateFormat (js "hello world")) as (_ & _ & _ & _ & _ & _ & _ & H9).
  split; [exact (H1 (js "  ") [0x9] eq_refl eq_refl)|].
  split; [exact (H2 eq_refl)|].
  split; [apply H3; vm_compute; lia|].
  split; [apply H4; vm_compute; lia|].
  split; [apply (H5 (js "thế") (js "ch4n") 0x34); [vm_compute; reflexivity | in_list | vm_compute; reflexivity]|].
  split; [apply (H6 (js "thế,") (js "chân") 0x2C); [vm_compute; reflexivity | in_list | vm_compute; reflexivity]|].
  split; [apply (H7 (js "thế") (js "chân")); vm_compute; reflexivity|].
  split; [apply H8, H4; vm_compute; lia|].
  destruct (H9 (js "hello") (js "world")) as [Hfmt Hword];
    [vm_compute; discriminate | vm_compute; discriminate | vm_compute; reflexivity
    | vm_compute; reflexivity |].
  split; [exact Hfmt|].
  destruct (Hword checker ∅) as [message Hm]; [vm_compute; reflexivity|].
  vm_compute. reflexivity.
Defined.

(** ** Candidates *)

Lemma foldl_push_pairs (k : jsstring) (vs : list jsstring) (acc : list WordPair) :
  foldl (fun pairs v => pairs ++ [{| first := k; second := v |}]) acc vs
  = acc ++ map (fun v => {| first := k; second := v |}) vs.
Proof.
  revert acc. induction vs as [|v vs IH]; intros acc; simpl.
  - now rewrite app_nil_r.
  - rewrite IH. now rewrite <- app_assoc.
Qed.

Lemma getPossibleNextWords_entries (self : WordChecker.t) (ending : jsstring) :
  WordChecker.getPossibleNextWords self ending
  = flat_map pairsOf (matchingEntries (WordChecker.dictionary self) ending).
Proof.
  unfold WordChecker.getPossibleNextWords, matchingEntries.
  generalize (WordChecker.dictionary self) as d.
  enough (H : forall d acc,
             foldl (fun possiblePairs '(firstWord, secondWords) =>
                      if bool_decide (WordChecker.normalizeVietnamese (toLowerCase firstWord)
                                      = WordChecker.normalizeVietnamese (toLowerCase ending))
                      then foldl (fun pairs secondWord =>
                                    pairs ++ [{| first := firstWord; second := secondWord |}])
                                 possiblePairs secondWords
                      else possiblePairs) acc d
             = acc ++ flat_map pairsOf
                        (List.filter (fun e => bool_decide (fold (fst e) = fold ending)) d)).
  { intros d. now rewrite H. }
  induction d as [|[k vs] d IH]; intros acc; simpl.
  - now rewrite app_nil_r.
  - rewrite IH. unfold fold at 2. simpl.
    destruct (bool_decide _); simpl.
    + rewrite foldl_push_pairs. unfold pairsOf at 2. simpl. now rewrite <- app_assoc.
    + reflexivity.
Qed.

Lemma getPossibleNextWords_first (self : WordChecker.t) (ending : jsstring) (w : WordPair) :
  In w (WordChecker.getPossibleNextWords self ending) -> fold (first w) = fold ending.
Proof.
  rewrite getPossibleNextWords_entries. intros H.
  apply in_flat_map in H as ([k vs] & He & Hw).
  apply filter_In in He as [_ He]. apply bool_decide_eq_true in He.
  apply in_map_iff in Hw as (v & <- & _). exact He.
Qed.


(** ** The normalized index *)

(** The index keeps, for a normalized key, the values of the last entry
    of the dictionary with that normalized key. *)
Lemma constructor_index_from (d : WordDictionary) (m : gmap jsstring (list jsstring))
    (key : jsstring) :
  foldl (fun m '(k, values) =>
           let normalizedKey := WordChecker.normalizeVietnamese (toLowerCase k) in
           <[normalizedKey := map toLowerCase values]> m) m d !! key
  = match last (List.filter (fun e => bool_decide (fold (fst e) = key)) d) with
    | Some e => Some (map toLowerCase (snd e))
    | None => m !! key
    end.
Proof.
  revert m. induction d as [|[k vs] d IH]; intros m; [reflexivity|].
  cbn [foldl]. rewrite IH. cbn [List.filter fst].
  destruct (bool_decide (fold k = key)) eqn:Hk.
  - apply bool_decide_eq_true in Hk. rewrite last_cons.
    destruct (last (List.filter _ d)); [reflexivity|].
    cbn [snd]. rewrite <- Hk. apply lookup_insert_eq.
  - apply bool_decide_eq_false in Hk.
    destruct (last _); [reflexivity|]. now apply lookup_insert_ne.
Qed.

Lemma constructor_index (d : WordDictionary) (key : jsstring) :
  WordChecker.normalizedDictionary (WordChecker.constructor d) !! key
  = match last (List.filter (fun e => bool_decide (fold (fst e) = key)) d) with
    | Some e => Some (map toLowerCase (snd e))
    | None => None
    end.
Proof.
  unfold WordChecker.constructor. cbn [WordChecker.normalizedDictionary].
  rewrite constructor_index_from. now destruct (last _).
Qed.

Lemma filter_unique_key (d : WordDictionary) (k : jsstring) (vs : list jsstring) :
  NoDup (map (fun e => fold (fst e)) d) -> In (k, vs) d ->
  List.filter (fun e => bool_decide (fold (fst e) = fold k)) d = [(k, vs)].
Proof.
  induction d as [|[k' vs'] d IH]; intros Hnd Hin; [contradiction|].
  cbn [map fst] in Hnd. apply NoDup_cons in Hnd as [Hnot Hnd].
  cbn [List.filter fst]. destruct Hin as [He|Hin].
  - inversion He; subst k' vs'. rewrite bool_decide_eq_true_2 by reflexivity. f_equal.
    apply filter_none. intros e He'. apply bool_decide_eq_false. intros Heq.
    apply Hnot. apply list_elem_of_In. rewrite <- Heq.
    now apply (in_map (fun e => fold (fst e))).
  - rewrite bool_decide_eq_false_2.
    + now apply IH.
    + intros Heq. apply Hnot. apply list_elem_of_In. rewrite Heq.
      now apply (in_map (fun e => fold (fst e)) d (k, vs)).
Qed.

(** When no two keys of the dictionary share a normalized form, the
    index holds every key with the lowercased values of that key, and
    every pair of the dictionary is found in it. *)
Lemma constructor_index_unique (d : WordDictionary) (k : jsstring) (vs : list jsstring) :
  NoDup (map (fun e => fold (fst e)) d) -> In (k, vs) d ->
  WordChecker.normalizedDictionary (WordChecker.constructor d)
    !! WordChecker.normalizeVietnamese (toLowerCase k)
  = Some (map toLowerCase vs).
Proof.
  intros Hnd Hin. rewrite constructor_index.
  change (WordChecker.normalizeVietnamese (toLowerCase k)) with (fold k).
  now rewrite (filter_unique_key d k vs Hnd Hin).
Qed.


(** C1: the index is to hold, for every key [K] of the dictionary, the
    lowercased values of [K] under the normalized lowercased form of [K],
    and the values of all the keys that share a normalized form, one
    after the other.  In [collidingDictionary] the keys "bán" and "bạn"
    share the form "ban": the index holds only the values of "bạn" there,
    neither the values of "bán" nor the values of both. *)
Theorem C1_index_overwritten :
  let index := WordChecker.normalizedDictionary (WordChecker.constructor collidingDictionary) in
  In (js "bán", [js "hàng"]) collidingDictionary
  /\ In (js "bạn", [js "bè"]) collidingDictionary
  /\ WordChecker.normalizeVietnamese (toLowerCase (js "bán")) = js "ban"
  /\ WordChecker.normalizeVietnamese (toLowerCase (js "bạn")) = js "ban"
  /\ index !! js "ban" = Some [js "bè"]
  /\ index !! js "ban" <> Some (map toLowerCase [js "hàng"])
  /\ index !! js "ban" <> Some (map toLowerCase [js "hàng"] ++ map toLowerCase [js "bè"]).
Proof.
  intros index.
  assert (H : index !! js "ban" = Some [js "bè"]).
  { unfold index. rewrite constructor_index. vm_compute. reflexivity. }
  split; [in_list|]. split; [in_list|].
  split; [vm_compute; reflexivity|]. split; [vm_compute; reflexivity|].
  split; [exact H|]. rewrite H. split; vm_compute; discriminate.
Qed.

(** C2: every pair of the dictionary is to be in the dictionary for
    [isWordInDictionary].  "bán hàng" is a pair of [collidingDictionary],
    and [isWordInDictionary] does not find it, because the entry of "bạn"
    took the place of the entry of "bán" in the index; [validateWord]
    then reports it as [word_not_found], although [getPossibleNextWords]
    offers it as a move. *)
Theorem C2_dictionary_pair_rejected :
  let checker := WordChecker.constructor collidingDictionary in
  In (js "bán", [js "hàng"]) collidingDictionary
  /\ WordChecker.isWordInDictionary checker (js "bán") (js "hàng") = false
  /\ WordChecker.validateWord checker (js "bán hàng") ∅
     = Return (wordNotFound (js "bán") (js "hàng"))
  /\ In {| first := js "bán"; second := js "hàng" |}
        (WordChecker.getPossibleNextWords checker (js "bán")).
Proof.
  intros checker.
  assert (H : WordChecker.isWordInDictionary checker (js "bán") (js "hàng") = false).
  { unfold WordChecker.isWordInDictionary, checker. rewrite constructor_index.
    vm_compute. reflexivity. }
  split; [in_list|]. split; [exact H|]. split.
  - unfold WordChecker.validateWord.
    replace (WordChecker.validateFormat (js "bán hàng"))
      with (formatValid (js "bán") (js "hàng")) by (vm_compute; reflexivity).
    cbn [formatValid FormatCheck.isValid FormatCheck.words negb].
    rewrite H. reflexivity.
  - rewrite getPossibleNextWords_entries. vm_compute. auto.
Qed.

(** ** Validation of an input *)

(** C5: [validateWord] checks the format, then the dictionary, then the
    used keys, and tells the outcome in the value it returns: a format
    failure gives [invalid_format] with its fixed message; a pair the
    dictionary check rejects gives [word_not_found] with a message that
    quotes the two syllables as they were typed; a pair whose key (both
    syllables normalized and lowercased, joined by a hyphen) is among the
    used keys gives [word_used] with its fixed message; every other input
    is valid, with neither reason nor message.  No input makes it throw. *)
Theorem C5_validateWord (self : WordChecker.t) (input : jsstring) (usedKeys : gset jsstring) :
  (FormatCheck.isValid (WordChecker.validateFormat input) = false ->
   WordChecker.validateWord self input usedKeys
   = Return {| isValid := false;
               error := Some (js "Từ phải gồm đúng 2 chữ cách nhau bởi dấu cách");
               reason := Some invalid_format |})
  /\ (forall firstWord secondWord,
        WordChecker.validateFormat input = formatValid firstWord secondWord ->
        let pairKey := WordChecker.normalizeVietnamese (toLowerCase firstWord) ++ js "-"
                         ++ WordChecker.normalizeVietnamese (toLowerCase secondWord) in
        (WordChecker.isWordInDictionary self firstWord secondWord = false ->
         WordChecker.validateWord self input usedKeys
         = Return {| isValid := false;
                     error := Some (js "Từ " ++ [0x22] ++ firstWord ++ js " " ++ secondWord
                                      ++ [0x22] ++ js " không có trong từ điển");
                     reason := Some word_not_found |})
        /\ (WordChecker.isWordInDictionary self firstWord secondWord = true ->
            pairKey ∈ usedKeys ->
            WordChecker.validateWord self input usedKeys
            = Return {| isValid := false;
                        error := Some (js "Từ này đã được sử dụng trong game");
                        reason := Some word_used |})
        /\ (WordChecker.isWordInDictionary self firstWord secondWord = true ->
            pairKey ∉ usedKeys ->
            WordChecker.validateWord self input usedKeys
            = Return {| isValid := true; error := None; reason := None |}))
  /\ (exists result, WordChecker.validateWord self input usedKeys = Return result)
  /\ (FormatCheck.isValid (WordChecker.validateFormat input) = true ->
      exists firstWord secondWord,
        WordChecker.validateFormat input = formatValid firstWord secondWord).
Proof.
  split; [|split; [|split]].
  - intros H. unfold WordChecker.validateWord. rewrite H. reflexivity.
  - intros f s Hfmt pairKey. unfold WordChecker.validateWord. rewrite Hfmt. simpl.
    change (WordChecker.wordKey f s) with pairKey.
    split; [|split].
    + intros ->. reflexivity.
    + intros -> Hk. simpl. rewrite bool_decide_eq_true_2 by exact Hk. reflexivity.
    + intros -> Hk. simpl. rewrite bool_decide_eq_false_2 by exact Hk. reflexivity.
  - unfold WordChecker.validateWord.
    destruct (validateFormat_cases input) as [-> | (f & s & ->)]; simpl.
    + eauto.
    + destruct (WordChecker.isWordInDictionary self f s); simpl; [|eauto].
      destruct (bool_decide _); eauto.
  - destruct (validateFormat_cases input) as [-> | (f & s & ->)]; simpl.
    + discriminate.
    + eauto.
Qed.

Lemma C5_validateWord_witness :
  let checker := WordChecker.constructor sampleDictionary in
  WordChecker.validateWord checker (js "thế chân thật") ∅ = Return invalidFormat
  /\ WordChecker.validateWord checker (js "trời xanh") ∅ = Return valid
  /\ WordChecker.validateWord checker (js "trời xanh") {[ js "troi-xanh" ]} = Return wordUsed
  /\ WordChecker.validateWord checker (js "trời ơi") {[ js "troi-xanh" ]}
     = Return (wordNotFound (js "trời") (js "ơi")).
Proof.
  intros checker.
  pose proof (C5_validateWord checker (js "thế chân thật") ∅) as (H1 & _).
  pose proof (C5_validateWord checker (js "trời xanh") ∅) as (_ & H2 & _).
  pose proof (C5_validateWord checker (js "trời xanh") {[ js "troi-xanh" ]}) as (_ & H3 & _).
  pose proof (C5_validateWord checker (js "trời ơi") {[ js "troi-xanh" ]}) as (_ & H4 & _).
  split; [exact (H1 ltac:(vm_compute; reflexivity))|].
  split.
  { apply (H2 (js "trời") (js "xanh")); [vm_compute; reflexivity..|].
    apply not_elem_of_empty. }
  split.
  { apply (H3 (js "trời") (js "xanh")); [vm_compute; reflexivity..|].
    apply elem_of_singleton. vm_compute. reflexivity. }
  apply (H4 (js "trời") (js "ơi")); vm_compute; reflexivity.
Defined.

(** ** Used words *)




(** ** Connections *)

(** C6: [canConnect a b] holds exactly when the second syllable of [a]
    and the first syllable of [b] have the same normalized lowercased
    form; [validateConnection] accepts every pair at the start of a game
    (no current pair), and for a current pair it is invalid with reason
    [no_connection] exactly when [canConnect] fails, and valid otherwise. *)
Theorem C6_connection (a b current next : WordPair) :
  (WordChecker.canConnect a b = true <->
     WordChecker.normalizeVietnamese (toLowerCase (second a))
     = WordChecker.normalizeVietnamese (toLowerCase (first b)))
  /\ WordChecker.validateConnection None next = valid
  /\ (isValid (WordChecker.validateConnection (Some current) next) = false
      /\ reason (WordChecker.validateConnection (Some current) next) = Some no_connection
      <-> WordChecker.canConnect current next = false)
  /\ (WordChecker.canConnect current next = false ->
      error (WordChecker.validateConnection (Some current) next)
      = Some (js "Từ " ++ [0x22] ++ first next ++ [0x20] ++ second next ++ [0x22]
                ++ js " không nối được với " ++ [0x22] ++ second current ++ [0x22]))
  /\ (WordChecker.canConnect current next = true ->
      WordChecker.validateConnection (Some current) next = valid).
Proof.
  split; [|split; [|split; [|split]]].
  - unfold WordChecker.canConnect. apply bool_decide_eq_true.
  - reflexivity.
  - unfold WordChecker.validateConnection.
    destruct (WordChecker.canConnect current next); simpl; split.
    + intros [H _]. discriminate H.
    + discriminate.
    + reflexivity.
    + intros _. split; reflexivity.
  - intros H. unfold WordChecker.validateConnection. rewrite H. reflexivity.
  - intros H. unfold WordChecker.validateConnection. rewrite H. reflexivity.
Qed.

Lemma C6_connection_witness :
  let current := {| first := js "thế"; second := js "chân" |} in
  WordChecker.canConnect current {| first := js "xanh"; second := js "lá" |} = false
  /\ isValid (WordChecker.validateConnection (Some current)
                {| first := js "xanh"; second := js "lá" |}) = false
  /\ WordChecker.canConnect current {| first := js "chân"; second := js "thật" |} = true
  /\ WordChecker.validateConnection (Some current)
       {| first := js "chân"; second := js "thật" |} = valid.
Proof.
  intros current.
  pose proof (C6_connection current {| first := js "xanh"; second := js "lá" |}
                current {| first := js "xanh"; second := js "lá" |}) as (_ & _ & H1 & _ & _).
  pose proof (C6_connection current {| first := js "chân"; second := js "thật" |}
                current {| first := js "chân"; second := js "thật" |}) as (_ & _ & _ & _ & H2).
  assert (Hf : WordChecker.canConnect current {| first := js "xanh"; second := js "lá" |} = false)
    by (vm_compute; reflexivity).
  assert (Ht : WordChecker.canConnect current {| first := js "chân"; second := js "thật" |} = true)
    by (vm_compute; reflexivity).
  split; [exact Hf|]. split; [exact (proj1 (proj2 H1 Hf))|].
  split; [exact Ht|]. exact (H2 Ht).
Defined.

(** ** The candidates, as the specification has them *)

(** C7: [getPossibleNextWords] reads the original dictionary, not the
    normalized index: in the order of the dictionary, every entry whose
    key has the normalized lowercased form of the ending syllable
    contributes one pair per value, made of the key and the value as they
    are written in the dictionary. *)
Theorem C7_getPossibleNextWords (dictionary : WordDictionary)
    (index : gmap jsstring (list jsstring)) (endingSyllable : jsstring) :
  WordChecker.getPossibleNextWords
    {| WordChecker.dictionary := dictionary; WordChecker.normalizedDictionary := index |}
    endingSyllable
  = flat_map (fun e => map (fun v => {| first := fst e; second := v |}) (snd e))
      (List.filter
         (fun e => bool_decide
                     (WordChecker.normalizeVietnamese (toLowerCase (fst e))
                      = WordChecker.normalizeVietnamese (toLowerCase endingSyllable)))
         dictionary).
Proof. apply getPossibleNextWords_entries. Qed.


(** ** History *)

Lemma notInHistory_true (history : list WordPair) (w : WordPair) :
  NextWordFinder.notInHistory history w = true <->
  forall h, In h history -> ~ samePair h w.
Proof.
  unfold NextWordFinder.notInHistory. rewrite negb_true_iff.
  rewrite <- not_true_iff_false, existsb_exists. split.
  - intros Hno h Hh [H1 H2]. apply Hno. exists h. split; [exact Hh|].
    apply andb_true_iff. split; apply bool_decide_eq_true; assumption.
  - intros Hno (h & Hh & Hm). apply andb_true_iff in Hm as [H1 H2].
    apply bool_decide_eq_true in H1, H2. apply (Hno h Hh). split; assumption.
Qed.

(** ** The random index *)

Lemma randomIndex_lt (m : N) (n : nat) : (0 < n)%nat -> (NextWordFinder.randomIndex m n < n)%nat.
Proof.
  intros Hn. unfold NextWordFinder.randomIndex.
  set (d := 2 ^ 1074).
  assert (Hd : 0 < d) by (unfold d; apply N.neq_0_lt_0, N.pow_nonzero; discriminate).
  assert (Hm : m mod d < d) by (apply N.mod_lt; lia).
  assert (H : m mod d * N.of_nat n / d < N.of_nat n).
  { apply N.Div0.div_lt_upper_bound. nia. }
  lia.
Qed.

(** ** The next move *)

Lemma findNextWord_current (self : NextWordFinder.t) (random : nat -> N)
    (current : WordPair) (history : list WordPair) :
  let candidates :=
    WordChecker.getPossibleNextWords (NextWordFinder.wordChecker self) (second current) in
  let available := List.filter (NextWordFinder.notInHistory history) candidates in
  NextWordFinder.findNextWord self random (Some current) history
  = if (length candidates =? 0)%nat then NextWordFinder.notFound
    else if (length available =? 0)%nat
         then {| word := None; found := false; alternatives := Some candidates |}
         else {| word := available !! NextWordFinder.randomIndex (random 0%nat) (length available);
                 found := true;
                 alternatives := Some (take 5 available) |}.
Proof. reflexivity. Qed.

Lemma findNextWord_found (self : NextWordFinder.t) (random : nat -> N)
    (current : WordPair) (history : list WordPair) :
  found (NextWordFinder.findNextWord self random (Some current) history) = true ->
  exists w,
    word (NextWordFinder.findNextWord self random (Some current) history) = Some w
    /\ In w (List.filter (NextWordFinder.notInHistory history)
               (WordChecker.getPossibleNextWords (NextWordFinder.wordChecker self)
                  (second current))).
Proof.
  rewrite findNextWord_current. cbv zeta.
  set (candidates := WordChecker.getPossibleNextWords _ _).
  set (available := List.filter _ candidates).
  destruct (length candidates =? 0)%nat; [discriminate|].
  destruct (length available =? 0)%nat eqn:Hl; [discriminate|]. simpl. intros _.
  apply Nat.eqb_neq in Hl.
  destruct (lookup_lt_is_Some_2 available
              (NextWordFinder.randomIndex (random 0%nat) (length available))) as [w Hw].
  { apply randomIndex_lt. lia. }
  exists w. split; [exact Hw|].
  apply list_elem_of_In. eapply list_elem_of_lookup_2. exact Hw.
Qed.

Lemma normalizeVietnamese_same :
  NextWordFinder.normalizeVietnamese = WordChecker.normalizeVietnamese.
Proof. reflexivity. Qed.

(** C8: for a current pair and any history, the word [findNextWord]
    chooses matches no entry of the history (both syllables compared in
    normalized lowercased form); without candidates the result is
    not-found without alternatives; with candidates that are all in the
    history it is not-found with all the candidates as alternatives; and
    a found result carries a chosen word among the available candidates
    and the first five available candidates as alternatives. *)
Theorem C8_findNextWord (self : NextWordFinder.t) (random : nat -> N)
    (current : WordPair) (history : list WordPair) :
  let result := NextWordFinder.findNextWord self random (Some current) history in
  let candidates :=
    WordChecker.getPossibleNextWords (NextWordFinder.wordChecker self) (second current) in
  let available := List.filter (NextWordFinder.notInHistory history) candidates in
  (forall w, In w available <-> In w candidates /\ forall h, In h history -> ~ samePair h w)
  /\ (forall w h, word result = Some w -> In h history -> ~ samePair h w)
  /\ (candidates = [] ->
      result = {| word := None; found := false; alternatives := None |})
  /\ (candidates <> [] -> available = [] ->
      result = {| word := None; found := false; alternatives := Some candidates |})
  /\ (found result = true ->
      alternatives result = Some (take 5 available)
      /\ exists w, word result = Some w /\ In w available).
Proof.
  intros result candidates available.
  assert (Hav : forall w, In w available <->
                          In w candidates /\ forall h, In h history -> ~ samePair h w).
  { intros w. unfold available. rewrite filter_In, notInHistory_true. reflexivity. }
  assert (Hres := findNextWord_current self random current history).
  cbv zeta in Hres. fold candidates available result in Hres.
  assert (Hfound := findNextWord_found self random current history).
  fold candidates available result in Hfound.
  split; [exact Hav|]. split; [|split; [|split]].
  - intros w h Hw Hh.
    assert (Hin : In w available).
    { destruct Hfound as (w' & Hw' & Hin).
      - rewrite Hres in Hw |- *.
        destruct (length candidates =? 0)%nat; [discriminate|].
        destruct (length available =? 0)%nat; [discriminate|]. reflexivity.
      - congruence. }
    apply Hav in Hin as [_ Hin]. exact (Hin h Hh).
  - intros Hc. rewrite Hres, Hc. reflexivity.
  - intros Hc Ha. rewrite Hres, Ha.
    destruct candidates; [contradiction|]. reflexivity.
  - intros Hf. split; [|exact (Hfound Hf)].
    rewrite Hres in Hf |- *.
    destruct (length candidates =? 0)%nat; [discriminate|].
    destruct (length available =? 0)%nat; [discriminate|]. reflexivity.
Qed.

Lemma C8_findNextWord_witness :
  let finder := NextWordFinder.constructor sampleDictionary in
  let current := {| first := js "thế"; second := js "chân" |} in
  let chosen := NextWordFinder.findNextWord finder (fun _ => 0) (Some current)
                  [{| first := js "chân"; second := js "thật" |}] in
  word chosen = Some {| first := js "chân"; second := js "trời" |}
  /\ alternatives chosen = Some [{| first := js "chân"; second := js "trời" |}]
  /\ NextWordFinder.findNextWord finder (fun _ => 0)
       (Some {| first := js "xanh"; second := js "biếc" |}) []
     = {| word := None; found := false; alternatives := None |}
  /\ NextWordFinder.findNextWord finder (fun _ => 0) (Some current)
       [{| first := js "Chân"; second := js "that" |}; {| first := js "chan"; second := js "TRỜI" |}]
     = {| word := None; found := false;
          alternatives := Some [{| first := js "chân"; second := js "thật" |};
                                {| first := js "chân"; second := js "trời" |}] |}.
Proof.
  intros finder current chosen.
  pose proof (C8_findNextWord finder (fun _ => 0) current
                [{| first := js "chân"; second := js "thật" |}]) as (_ & _ & _ & _ & H5).
  pose proof (C8_findNextWord finder (fun _ => 0) {| first := js "xanh"; second := js "biếc" |} [])
    as (_ & _ & H3 & _ & _).
  pose proof (C8_findNextWord finder (fun _ => 0) current
                [{| first := js "Chân"; second := js "that" |};
                 {| first := js "chan"; second := js "TRỜI" |}]) as (_ & _ & _ & H4 & _).
  split; [vm_compute; reflexivity|].
  split; [exact (proj1 (H5 ltac:(vm_compute; reflexivity)))|].
  split; [exact (H3 ltac:(vm_compute; reflexivity))|].
  exact (H4 ltac:(vm_compute; discriminate) ltac:(vm_compute; reflexivity)).
Defined.

(** C9: when [findNextWord] finds a word for a current pair, that word
    connects to the current pair: its first syllable is a key of the
    dictionary with the normalized lowercased form of the second
    syllable of the current pair. *)
Theorem C9_found_word_connects (self : NextWordFinder.t) (random : nat -> N)
    (current : WordPair) (history : list WordPair) :
  found (NextWordFinder.findNextWord self random (Some current) history) = true ->
  exists w,
    word (NextWordFinder.findNextWord self random (Some current) history) = Some w
    /\ In (first w) (map fst (WordChecker.dictionary (NextWordFinder.wordChecker self)))
    /\ WordChecker.canConnect current w = true.
Proof.
  intros Hf.
  destruct (findNextWord_found self random current history Hf) as (w & Hw & Hin).
  exists w. split; [exact Hw|].
  apply filter_In in Hin as [Hin _]. split.
  - rewrite getPossibleNextWords_entries in Hin.
    apply in_flat_map in Hin as (e & He & Hp).
    apply filter_In in He as [He _].
    apply in_map_iff in Hp as (v & <- & _). simpl. now apply in_map.
  - apply getPossibleNextWords_first in Hin.
    unfold WordChecker.canConnect. apply bool_decide_eq_true. symmetry. exact Hin.
Qed.

Lemma C9_found_word_connects_witness :
  let finder := NextWordFinder.constructor sampleDictionary in
  let current := {| first := js "thế"; second := js "chân" |} in
  exists w,
    word (NextWordFinder.findNextWord finder (fun _ => 2 ^ 1073) (Some current) []) = Some w
    /\ In (first w) (map fst sampleDictionary)
    /\ WordChecker.canConnect current w = true.
Proof.
  intros finder current.
  apply (C9_found_word_connects finder (fun _ => 2 ^ 1073) current []).
  vm_compute. reflexivity.
Defined.

(** * Further properties of the engine *)

(** ** Moves without a current word *)

Lemma property_In (key : jsstring) (d : WordDictionary) (values : list jsstring) :
  NextWordFinder.property key d = Some values -> In (key, values) d.
Proof.
  induction d as [|[k vs] d IH]; [discriminate|]. cbn [NextWordFinder.property].
  destruct (bool_decide (k = key)) eqn:Hk.
  - apply bool_decide_eq_true in Hk. intros [= ->]. left. now subst.
  - intros H. right. auto.
Qed.

Lemma property_key (key : jsstring) (d : WordDictionary) :
  In key (map fst d) -> exists values, NextWordFinder.property key d = Some values.
Proof.
  induction d as [|[k vs] d IH]; [contradiction|]. cbn [NextWordFinder.property map fst].
  destruct (bool_decide (k = key)) eqn:Hk; [eauto|].
  apply bool_decide_eq_false in Hk. intros [H|H]; [contradiction | auto].
Qed.

Lemma randomWord_In {A} (m : N) (l : list A) (default : A) :
  l <> [] -> In (nth (NextWordFinder.randomIndex m (length l)) l default) l.
Proof.
  intros Hl. apply nth_In, randomIndex_lt. destruct l; [contradiction | simpl; lia].
Qed.

(** X1: [findFirstWord] never gives alternatives; on an empty dictionary
    it finds nothing; what it finds is a pair of the dictionary, a key
    with one of its own values; it finds nothing exactly when the key it
    drew has no values (there is no second draw of a key), so it always
    finds a word when the dictionary is not empty and no key is without
    values. *)
Theorem X1_findFirstWord (self : NextWordFinder.t) (random : nat -> N) :
  let result := NextWordFinder.findFirstWord self random in
  let keys := map fst (NextWordFinder.dictionary self) in
  let drawn := nth (NextWordFinder.randomIndex (random 0%nat) (length keys)) keys [] in
  alternatives result = None
  /\ (NextWordFinder.dictionary self = [] -> result = NextWordFinder.notFound)
  /\ (found result = true ->
      exists w, word result = Some w /\ first w = drawn
                /\ isPairOf (NextWordFinder.dictionary self) w)
  /\ (found result = false -> result = NextWordFinder.notFound)
  /\ (NextWordFinder.dictionary self <> [] ->
      (found result = false <-> In (drawn, []) (NextWordFinder.dictionary self)
                                /\ NextWordFinder.property drawn (NextWordFinder.dictionary self)
                                   = Some []))
  /\ (NextWordFinder.dictionary self <> [] ->
      (forall key values, In (key, values) (NextWordFinder.dictionary self) -> values <> []) ->
      found result = true).
Proof.
  intros result keys drawn. unfold result, NextWordFinder.findFirstWord.
  fold keys. fold drawn.
  assert (Hcases : NextWordFinder.dictionary self = [] \/ NextWordFinder.dictionary self <> [])
    by (destruct (NextWordFinder.dictionary self); [now left | now right]).
  destruct Hcases as [Hd|Hd].
  { unfold drawn, keys. rewrite Hd. cbn.
    repeat split; try discriminate; try reflexivity; intros; contradiction. }
  assert (Hkeys : keys <> []).
  { unfold keys. destruct (NextWordFinder.dictionary self); [contradiction | discriminate]. }
  replace (length keys =? 0)%nat with false
    by (symmetry; apply Nat.eqb_neq; destruct keys; [contradiction | discriminate]).
  assert (Hdrawn : In drawn keys) by (apply randomWord_In; exact Hkeys).
  destruct (property_key drawn _ Hdrawn) as [values Hp]. rewrite Hp.
  pose proof (property_In _ _ _ Hp) as Hin.
  destruct values as [|v values].
  - cbn. split; [reflexivity|]. split; [intros H; contradiction|].
    split; [discriminate|]. split; [reflexivity|]. split.
    + intros _. split; auto.
    + intros _ Hall. exfalso. now apply (Hall drawn []).
  - replace (length (v :: values) =? 0)%nat with false by reflexivity. cbn [alternatives found word].
    split; [reflexivity|]. split; [intros H; contradiction|].
    split; [|split; [discriminate|split]].
    + intros _. eexists. split; [reflexivity|]. split; [reflexivity|].
      exists (v :: values). split; [exact Hin|]. cbn [second]. now apply randomWord_In.
    + intros _. split; [discriminate|]. intros [_ H]. discriminate H.
    + reflexivity.
Qed.

Lemma X1_findFirstWord_witness :
  let finder := NextWordFinder.constructor [(js "thế", []); (js "chân", [js "thật"; js "trời"])] in
  found (NextWordFinder.findFirstWord finder (fun _ => 0)) = false
  /\ exists w, word (NextWordFinder.findFirstWord finder (fun _ => 2 ^ 1073)) = Some w
               /\ first w = js "chân"
               /\ isPairOf (NextWordFinder.dictionary finder) w.
Proof.
  intros finder.
  pose proof (X1_findFirstWord finder (fun _ => 0)) as (_ & _ & _ & _ & H0 & _).
  pose proof (X1_findFirstWord finder (fun _ => 2 ^ 1073)) as (_ & _ & H1 & _).
  split.
  - apply H0; [discriminate|]. split; [in_list | vm_compute; reflexivity].
  - apply H1. vm_compute. reflexivity.
Defined.









(** ** Moves after a current word *)

Lemma findNextWord_found_moves (self : NextWordFinder.t) (random : nat -> N)
    (current : WordPair) (history : list WordPair) :
  found (NextWordFinder.findNextWord self random (Some current) history)
  = (0 <? length (List.filter (NextWordFinder.notInHistory history)
                    (WordChecker.getPossibleNextWords (NextWordFinder.wordChecker self)
                       (second current))))%nat.
Proof.
  rewrite findNextWord_current. cbv zeta.
  generalize (WordChecker.getPossibleNextWords (NextWordFinder.wordChecker self)
                (second current)).
  intros [|c cs]; [reflexivity|]. cbn [length Nat.eqb].
  now destruct (List.filter _ (c :: cs)).
Qed.

(** X3: for a current pair [canContinue] says exactly whether
    [findNextWord] finds a word, whatever the random source does; the
    word found is one of the moves of [getAllPossibleMoves], and the
    alternatives are the first five of these moves. *)
Theorem X3_canContinue_findNextWord (self : NextWordFinder.t)
    (random random' : nat -> N) (current : WordPair) (history : list WordPair) :
  let result := NextWordFinder.findNextWord self random (Some current) history in
  let moves := NextWordFinder.getAllPossibleMoves self random' (Some current) history in
  found result = NextWordFinder.canContinue self random' (Some current) history
  /\ (NextWordFinder.canContinue self random' (Some current) history = true ->
      exists w, word result = Some w /\ In w moves)
  /\ (forall w, word result = Some w -> In w moves)
  /\ (found result = true -> alternatives result = Some (take 5 moves))
  /\ (NextWordFinder.canContinue self random' (Some current) history = false ->
      word result = None).
Proof.
  intros result moves.
  assert (Hres := findNextWord_current self random current history).
  cbv zeta in Hres. fold result in Hres.
  unfold NextWordFinder.canContinue.
  change (NextWordFinder.getAllPossibleMoves self random' (Some current) history) with moves.
  change (List.filter (NextWordFinder.notInHistory history)
            (WordChecker.getPossibleNextWords (NextWordFinder.wordChecker self)
               (second current))) with moves in Hres.
  set (candidates := WordChecker.getPossibleNextWords _ _) in *.
  assert (Hfound : found result = (0 <? length moves)%nat)
    by apply findNextWord_found_moves.
  assert (Hword : forall w, word result = Some w -> In w moves).
  { intros w. rewrite Hres.
    destruct (length candidates =? 0)%nat; [discriminate|].
    destruct (length moves =? 0)%nat; [discriminate|]. cbn [word]. intros Hw.
    apply list_elem_of_In. eapply list_elem_of_lookup_2. exact Hw. }
  split; [exact Hfound|]. split; [|split; [exact Hword|split]].
  - intros Hc. rewrite <- Hfound in Hc.
    destruct (findNextWord_found self random current history Hc) as (w & Hw & _).
    exists w. split; [exact Hw | now apply Hword].
  - rewrite Hres. destruct (length candidates =? 0)%nat; [discriminate|].
    destruct (length moves =? 0)%nat; [discriminate|]. reflexivity.
  - intros Hc. rewrite Hres. destruct (length candidates =? 0)%nat; [reflexivity|].
    destruct moves; [reflexivity | discriminate].
Qed.

Lemma X3_canContinue_findNextWord_witness :
  let finder := NextWordFinder.constructor sampleDictionary in
  let current := {| first := js "thế"; second := js "chân" |} in
  exists w, word (NextWordFinder.findNextWord finder (fun _ => 0) (Some current) []) = Some w
            /\ In w (NextWordFinder.getAllPossibleMoves finder (fun _ => 7) (Some current) []).
Proof.
  intros finder current.
  pose proof (X3_canContinue_findNextWord finder (fun _ => 0) (fun _ => 7) current [])
    as (_ & H & _).
  apply H. vm_compute. reflexivity.
Defined.

(** ** The history *)

Lemma samePair_refl (w : WordPair) : samePair w w.
Proof. now split. Qed.

Lemma samePair_sym (a b : WordPair) : samePair a b -> samePair b a.
Proof. intros [H1 H2]. now split. Qed.

Lemma samePair_trans (a b c : WordPair) : samePair a b -> samePair b c -> samePair a c.
Proof. intros [H1 H2] [H3 H4]. split; congruence. Qed.

Lemma notInHistory_false (history : list WordPair) (w : WordPair) :
  NextWordFinder.notInHistory history w = false <-> bars history w.
Proof.
  unfold NextWordFinder.notInHistory, bars. rewrite negb_false_iff, existsb_exists.
  split; intros (h & Hh & Hm); exists h; (split; [exact Hh|]).
  - apply andb_true_iff in Hm as [H1 H2]. apply bool_decide_eq_true in H1, H2. now split.
  - destruct Hm as [H1 H2]. apply andb_true_iff. split; now apply bool_decide_eq_true.
Qed.

Lemma bars_samePair (history : list WordPair) (a b : WordPair) :
  bars history a -> samePair a b -> bars history b.
Proof. intros (h & Hh & Hs) Hab. exists h. split; [exact Hh|]. now apply (samePair_trans h a b). Qed.

Lemma notInHistory_ext (h h' : list WordPair) (w : WordPair) :
  (forall x, In x h -> bars h' x) -> (forall x, In x h' -> bars h x) ->
  NextWordFinder.notInHistory h w = NextWordFinder.notInHistory h' w.
Proof.
  intros H1 H2.
  destruct (NextWordFinder.notInHistory h w) eqn:Ha, (NextWordFinder.notInHistory h' w) eqn:Hb;
    try reflexivity.
  - apply notInHistory_false in Hb as (x & Hx & Hs).
    assert (Hbar : bars h w) by (apply (bars_samePair h x w); auto).
    apply notInHistory_false in Hbar. congruence.
  - apply notInHistory_false in Ha as (x & Hx & Hs).
    assert (Hbar : bars h' w) by (apply (bars_samePair h' x w); auto).
    apply notInHistory_false in Hbar. congruence.
Qed.

(** X4: the history counts as a set of moves, each taken in comparison
    form: two histories of which every entry is the same move as some
    entry of the other (a permutation, a repetition, another spelling in
    case or diacritics) give the same moves and the same result of
    [findNextWord]. *)
Theorem X4_history_as_set (self : NextWordFinder.t) (random : nat -> N)
    (current : WordPair) (history history' : list WordPair) :
  (forall x, In x history -> bars history' x) ->
  (forall x, In x history' -> bars history x) ->
  NextWordFinder.getAllPossibleMoves self random (Some current) history
  = NextWordFinder.getAllPossibleMoves self random (Some current) history'
  /\ NextWordFinder.findNextWord self random (Some current) history
     = NextWordFinder.findNextWord self random (Some current) history'
  /\ NextWordFinder.canContinue self random (Some current) history
     = NextWordFinder.canContinue self random (Some current) history'.
Proof.
  intros H1 H2.
  assert (Hmoves : forall candidates,
            List.filter (NextWordFinder.notInHistory history) candidates
            = List.filter (NextWordFinder.notInHistory history') candidates).
  { intros candidates. apply filter_ext. intros w. now apply notInHistory_ext. }
  split; [apply Hmoves|]. split.
  - rewrite !findNextWord_current. cbv zeta. now rewrite Hmoves.
  - unfold NextWordFinder.canContinue, NextWordFinder.getAllPossibleMoves. now rewrite Hmoves.
Qed.

Lemma X4_history_as_set_witness :
  let finder := NextWordFinder.constructor sampleDictionary in
  let current := {| first := js "thế"; second := js "chân" |} in
  let a := {| first := js "chân"; second := js "thật" |} in
  let b := {| first := js "lá"; second := js "cây" |} in
  let b' := {| first := js "LA"; second := js "Cay" |} in
  NextWordFinder.findNextWord finder (fun _ => 0) (Some current) [a; b]
  = NextWordFinder.findNextWord finder (fun _ => 0) (Some current) [b'; a; a].
Proof.
  intros finder current a b b'.
  apply (X4_history_as_set finder (fun _ => 0) current [a; b] [b'; a; a]);
    intros x Hx; cbn [In] in Hx; apply notInHistory_false;
    repeat (destruct Hx as [<-|Hx]; [vm_compute; reflexivity|]); contradiction.
Defined.

Lemma notInHistory_app (h : list WordPair) (w x : WordPair) :
  NextWordFinder.notInHistory (h ++ [w]) x
  = NextWordFinder.notInHistory h x && NextWordFinder.notInHistory [w] x.
Proof.
  unfold NextWordFinder.notInHistory. rewrite existsb_app, negb_orb. reflexivity.
Qed.

Lemma filter_length_lt {A} (f g : A -> bool) (l : list A) (w : A) :
  (forall x, g x = true -> f x = true) -> In w l -> f w = true -> g w = false ->
  (length (List.filter g l) < length (List.filter f l))%nat.
Proof.
  intros Hgf Hin Hf Hg.
  assert (Hle : forall l', (length (List.filter g l') <= length (List.filter f l'))%nat).
  { induction l' as [|x l' IH]; [simpl; lia|]. simpl.
    destruct (g x) eqn:Hx; [rewrite (Hgf x Hx); simpl; lia|].
    destruct (f x); simpl; lia. }
  induction l as [|x l IH]; [contradiction|]. simpl. destruct Hin as [->|Hin].
  - rewrite Hf, Hg. simpl. specialize (Hle l). lia.
  - specialize (IH Hin). destruct (g x) eqn:Hx; [rewrite (Hgf x Hx); simpl; lia|].
    destruct (f x); simpl; lia.
Qed.

(** X5: when a move for the current pair is added to the history, as the
    game loop does with the word it was given, that move and every other
    spelling of it are no longer among the moves, nothing new becomes a
    move, and the number of moves goes down; so at most as many words as
    there are candidates are ever found for one current pair. *)
Theorem X5_used_move_is_gone (self : NextWordFinder.t) (random : nat -> N)
    (current w : WordPair) (history : list WordPair) :
  let moves := NextWordFinder.getAllPossibleMoves self random (Some current) history in
  let moves' := NextWordFinder.getAllPossibleMoves self random (Some current) (history ++ [w]) in
  In w moves ->
  (forall x, In x moves' <-> In x moves /\ ~ samePair w x)
  /\ ~ In w moves'
  /\ (length moves' < length moves)%nat.
Proof.
  intros moves moves' Hw. unfold moves, moves', NextWordFinder.getAllPossibleMoves in *.
  set (candidates := WordChecker.getPossibleNextWords _ _) in *.
  assert (Hiff : forall x,
            In x (List.filter (NextWordFinder.notInHistory (history ++ [w])) candidates)
            <-> In x (List.filter (NextWordFinder.notInHistory history) candidates)
                /\ ~ samePair w x).
  { intros x. rewrite !filter_In, notInHistory_app, andb_true_iff.
    rewrite (notInHistory_true [w] x). split.
    - intros (Hc & Hh & Hn). repeat split; auto. apply Hn. now left.
    - intros ((Hc & Hh) & Hn). repeat split; auto. intros h [<-|[]]. exact Hn. }
  split; [exact Hiff|]. split.
  - intros H. apply Hiff in H as [_ H]. apply H, samePair_refl.
  - apply filter_In in Hw as [Hc Hh].
    apply (filter_length_lt _ _ candidates w); auto.
    + intros x. rewrite notInHistory_app. intros H. now apply andb_true_iff in H as [H _].
    + rewrite notInHistory_app, Hh. cbn [andb].
      apply notInHistory_false. exists w. split; [now left | apply samePair_refl].
Qed.

Lemma X5_used_move_is_gone_witness :
  let finder := NextWordFinder.constructor sampleDictionary in
  let current := {| first := js "thế"; second := js "chân" |} in
  let w := {| first := js "chân"; second := js "trời" |} in
  ~ In w (NextWordFinder.getAllPossibleMoves finder (fun _ => 0) (Some current) ([] ++ [w]))
  /\ (length (NextWordFinder.getAllPossibleMoves finder (fun _ => 0%N) (Some current)
                ([] ++ [w])) < 2)%nat.
Proof.
  intros finder current w.
  pose proof (X5_used_move_is_gone finder (fun _ => 0) current w []) as H.
  cbv zeta in H. destruct H as (_ & H2 & H3); [in_list|].
  split; [exact H2|].
  replace 2%nat with (length (NextWordFinder.getAllPossibleMoves finder (fun _ => 0)
                                (Some current) [])) by (vm_compute; reflexivity).
  exact H3.
Defined.

(** ** The index and the dictionary *)

Lemma filter_some {A} (f : A -> bool) (l : list A) :
  (exists x, In x l /\ f x = true) <-> is_Some (last (List.filter f l)).
Proof.
  split.
  - intros (x & Hx & Hf).
    destruct (last (List.filter f l)) eqn:Hl; [eauto|].
    apply last_None in Hl. assert (H : In x (List.filter f l)) by now apply filter_In.
    rewrite Hl in H. contradiction.
  - intros [x Hx]. exists x. apply filter_In.
    apply last_Some in Hx as [l' Hx]. rewrite Hx. apply in_or_app. right. now left.
Qed.

Lemma last_filter_In {A} (f : A -> bool) (l : list A) (x : A) :
  last (List.filter f l) = Some x -> In x l /\ f x = true.
Proof.
  intros Hx. apply filter_In.
  apply last_Some in Hx as [l' Hx]. rewrite Hx. apply in_or_app. right. now left.
Qed.

Lemma last_filter_split {A} (f : A -> bool) (l1 l2 : list A) (x : A) :
  f x = true -> (forall y, In y l2 -> f y = false) ->
  last (List.filter f (l1 ++ x :: l2)) = Some x.
Proof.
  intros Hx Hl2. rewrite List.filter_app. cbn [List.filter]. rewrite Hx.
  rewrite (filter_none f l2 Hl2). apply last_snoc.
Qed.

(** X6: what the index holds.  A normalized key is in the index exactly
    when a key of the dictionary has that normalized lowercased form; it
    then holds the lowercased values of one entry with that form, namely
    of the last one: an entry after which no key of the same form comes
    is the one its normalized key leads to. *)
Theorem X6_index_lookup (d : WordDictionary) (key : jsstring) :
  let index := WordChecker.normalizedDictionary (WordChecker.constructor d) in
  (is_Some (index !! key) <->
   exists k, In k (map fst d) /\ WordChecker.normalizeVietnamese (toLowerCase k) = key)
  /\ (forall values, index !! key = Some values ->
      exists k vs, In (k, vs) d
                   /\ WordChecker.normalizeVietnamese (toLowerCase k) = key
                   /\ values = map toLowerCase vs)
  /\ (forall d1 k vs d2,
        d = d1 ++ (k, vs) :: d2 ->
        WordChecker.normalizeVietnamese (toLowerCase k) = key ->
        (forall k', In k' (map fst d2) ->
                    WordChecker.normalizeVietnamese (toLowerCase k') <> key) ->
        index !! key = Some (map toLowerCase vs)).
Proof.
  intros index. unfold index. rewrite constructor_index. split; [|split].
  - split.
    + intros [values Hv]. destruct (last _) as [[k vs]|] eqn:Hl; [|discriminate].
      apply last_filter_In in Hl as [Hin Hk]. apply bool_decide_eq_true in Hk.
      exists k. split; [now apply (in_map fst d (k, vs)) | exact Hk].
    + intros (k & Hin & Hk). apply in_map_iff in Hin as ([k' vs] & <- & Hin).
      assert (H : is_Some (last (List.filter
                                   (fun e => bool_decide (fold (fst e) = key)) d))).
      { apply filter_some. exists (k', vs). split; [exact Hin|].
        now apply bool_decide_eq_true. }
      destruct H as [e ->]. eauto.
  - intros values Hv. destruct (last _) as [[k vs]|] eqn:Hl; [|discriminate].
    apply last_filter_In in Hl as [Hin Hk]. apply bool_decide_eq_true in Hk.
    injection Hv as <-. now exists k, vs.
  - intros d1 k vs d2 -> Hk Hd2. rewrite last_filter_split; [reflexivity| |].
    + now apply bool_decide_eq_true.
    + intros [k' vs'] Hin. apply bool_decide_eq_false. apply Hd2.
      now apply (in_map fst d2 (k', vs')).
Qed.

Lemma X6_index_lookup_witness :
  WordChecker.normalizedDictionary (WordChecker.constructor collidingDictionary) !! js "ban"
  = Some (map toLowerCase [js "bè"]).
Proof.
  pose proof (X6_index_lookup collidingDictionary (js "ban")) as (_ & _ & H).
  apply (H [(js "bán", [js "hàng"])] (js "bạn") [js "bè"] []);
    [reflexivity | vm_compute; reflexivity | intros k' []].
Defined.

(** ** The outcomes of [validateWord] *)

Lemma validateWord_cases (self : WordChecker.t) (input : jsstring) (usedKeys : gset jsstring) :
  (WordChecker.validateFormat input = formatInvalid
   /\ WordChecker.validateWord self input usedKeys = Return invalidFormat)
  \/ exists f s,
       WordChecker.validateFormat input = formatValid f s
       /\ tokens input = [f; s]
       /\ forallb allowedLetter (f ++ s) = true
       /\ WordChecker.validateWord self input usedKeys
          = Return (if negb (WordChecker.isWordInDictionary self f s) then wordNotFound f s
                    else if bool_decide (WordChecker.wordKey f s ∈ usedKeys) then wordUsed
                         else valid).
Proof.
  unfold WordChecker.validateWord. rewrite validateFormat_letters.
  destruct (tokens input) as [|w0 [|w1 [|w2 ws]]]; try (left; split; reflexivity).
  destruct (forallb allowedLetter (w0 ++ w1)) eqn:Hall; [|left; split; reflexivity].
  right. exists w0, w1.
  split; [reflexivity|]. split; [reflexivity|]. split; [exact Hall|].
  cbn [formatValid FormatCheck.isValid FormatCheck.words negb].
  destruct (WordChecker.isWordInDictionary self w0 w1); [|reflexivity].
  cbn [negb]. now destruct (bool_decide _).
Qed.

Lemma isValid_outcome (self : WordChecker.t) (f s : jsstring) (usedKeys : gset jsstring) :
  isValid (if negb (WordChecker.isWordInDictionary self f s) then wordNotFound f s
           else if bool_decide (WordChecker.wordKey f s ∈ usedKeys) then wordUsed
                else valid) = true ->
  WordChecker.isWordInDictionary self f s = true /\ WordChecker.wordKey f s ∉ usedKeys.
Proof.
  destruct (WordChecker.isWordInDictionary self f s); [|discriminate]. cbn [negb].
  destruct (bool_decide _) eqn:Hk; [discriminate|].
  intros _. split; [reflexivity|]. now apply bool_decide_eq_false in Hk.
Qed.

(** X7: the dictionary check accepts nothing that the dictionary does not
    back: when [isWordInDictionary] says yes, the dictionary has a key of
    the normalized lowercased form of the first syllable, and among the
    values of that key one that is the second syllable up to letter case;
    [validateWord] accepts an input only if its two words are backed so. *)
Theorem X7_accepted_pair_is_backed (d : WordDictionary) :
  let checker := WordChecker.constructor d in
  (forall firstWord secondWord,
     WordChecker.isWordInDictionary checker firstWord secondWord = true ->
     exists k vs v,
       In (k, vs) d /\ In v vs
       /\ WordChecker.normalizeVietnamese (toLowerCase k)
          = WordChecker.normalizeVietnamese (toLowerCase firstWord)
       /\ toLowerCase v = toLowerCase secondWord)
  /\ (forall input usedKeys result,
        WordChecker.validateWord checker input usedKeys = Return result ->
        isValid result = true ->
        exists firstWord secondWord k vs v,
          tokens input = [firstWord; secondWord]
          /\ In (k, vs) d /\ In v vs
          /\ WordChecker.normalizeVietnamese (toLowerCase k)
             = WordChecker.normalizeVietnamese (toLowerCase firstWord)
          /\ toLowerCase v = toLowerCase secondWord).
Proof.
  intros checker.
  assert (Hback : forall f s,
            WordChecker.isWordInDictionary checker f s = true ->
            exists k vs v, In (k, vs) d /\ In v vs /\ fold k = fold f
                           /\ toLowerCase v = toLowerCase s).
  { intros f s. unfold WordChecker.isWordInDictionary, checker.
    rewrite constructor_index.
    destruct (last _) as [[k vs]|] eqn:Hl; [|discriminate].
    apply last_filter_In in Hl as [Hin Hk]. apply bool_decide_eq_true in Hk.
    intros H. apply bool_decide_eq_true, list_elem_of_In, in_map_iff in H as (v & Hv & Hvs).
    now exists k, vs, v. }
  split; [exact Hback|].
  intros input usedKeys result Hres Hvalid.
  destruct (validateWord_cases checker input usedKeys)
    as [[_ Hr]|(w0 & w1 & _ & Ht & _ & Hr)];
    rewrite Hr in Hres; injection Hres as <-; [discriminate Hvalid|].
  apply isValid_outcome in Hvalid as [Hd _].
  destruct (Hback w0 w1 Hd) as (k & vs & v & H1 & H2 & H3 & H4).
  now exists w0, w1, k, vs, v.
Qed.

Lemma X7_accepted_pair_is_backed_witness :
  exists k vs v,
    In (k, vs) sampleDictionary /\ In v vs
    /\ WordChecker.normalizeVietnamese (toLowerCase k)
       = WordChecker.normalizeVietnamese (toLowerCase (js "THE"))
    /\ toLowerCase v = toLowerCase (js "Giới").
Proof.
  pose proof (X7_accepted_pair_is_backed sampleDictionary) as (H & _).
  apply H. vm_compute. reflexivity.
Defined.

(** X8: an entry of the dictionary after which no key of the same
    normalized form comes is found by the dictionary check under every
    spelling: the first syllable in any letter case and with any
    diacritics that normalize to the key, the second in any letter case.
    In a dictionary whose keys have pairwise distinct normalized forms
    this holds for every entry. *)
Theorem X8_entries_are_found (d : WordDictionary) :
  let checker := WordChecker.constructor d in
  (forall d1 k vs d2 v firstWord secondWord,
     d = d1 ++ (k, vs) :: d2 ->
     (forall k', In k' (map fst d2) ->
                 WordChecker.normalizeVietnamese (toLowerCase k')
                 <> WordChecker.normalizeVietnamese (toLowerCase k)) ->
     In v vs ->
     WordChecker.normalizeVietnamese (toLowerCase firstWord)
     = WordChecker.normalizeVietnamese (toLowerCase k) ->
     toLowerCase secondWord = toLowerCase v ->
     WordChecker.isWordInDictionary checker firstWord secondWord = true)
  /\ (NoDup (map (fun e => WordChecker.normalizeVietnamese (toLowerCase (fst e))) d) ->
      forall k vs v firstWord secondWord,
        In (k, vs) d -> In v vs ->
        WordChecker.normalizeVietnamese (toLowerCase firstWord)
        = WordChecker.normalizeVietnamese (toLowerCase k) ->
        toLowerCase secondWord = toLowerCase v ->
        WordChecker.isWordInDictionary checker firstWord secondWord = true).
Proof.
  intros checker. split.
  - intros d1 k vs d2 v f s -> Hd2 Hv Hf Hs.
    unfold WordChecker.isWordInDictionary, checker. rewrite constructor_index, Hf, Hs.
    rewrite last_filter_split.
    + apply bool_decide_eq_true, list_elem_of_In. now apply in_map.
    + now apply bool_decide_eq_true.
    + intros [k' vs'] Hin. apply bool_decide_eq_false. apply Hd2.
      now apply (in_map fst d2 (k', vs')).
  - intros Hnd k vs v f s Hin Hv Hf Hs.
    unfold WordChecker.isWordInDictionary, checker. rewrite Hf, Hs.
    rewrite (constructor_index_unique d k vs Hnd Hin).
    apply bool_decide_eq_true, list_elem_of_In. now apply in_map.
Qed.

Lemma X8_entries_are_found_witness :
  WordChecker.isWordInDictionary (WordChecker.constructor collidingDictionary)
    (js "BAN") (js "BÈ") = true
  /\ WordChecker.isWordInDictionary (WordChecker.constructor sampleDictionary)
       (js "Troi") (js "Đất") = true.
Proof.
  pose proof (X8_entries_are_found collidingDictionary) as (H1 & _).
  pose proof (X8_entries_are_found sampleDictionary) as (_ & H2).
  split.
  - apply (H1 [(js "bán", [js "hàng"])] (js "bạn") [js "bè"] [] (js "bè"));
      [reflexivity | intros k' [] | now left | vm_compute; reflexivity..].
  - apply (H2 ltac:(apply (bool_decide_unpack _); vm_compute; exact I)
              (js "trời") [js "xanh"; js "đất"] (js "đất"));
      [in_list | in_list | vm_compute; reflexivity..].
Defined.

(** ** Candidates and connections *)

Lemma getPossibleNextWords_In (self : WordChecker.t) (ending : jsstring) (w : WordPair) :
  In w (WordChecker.getPossibleNextWords self ending) <->
  isPairOf (WordChecker.dictionary self) w /\ fold (first w) = fold ending.
Proof.
  rewrite getPossibleNextWords_entries. unfold matchingEntries, isPairOf, pairsOf.
  rewrite in_flat_map. split.
  - intros ([k vs] & He & Hw). apply filter_In in He as [He Hk].
    apply bool_decide_eq_true in Hk. apply in_map_iff in Hw as (v & <- & Hv).
    cbn [first second fst snd] in *. split; [now exists vs | exact Hk].
  - intros [(vs & He & Hv) Hk]. exists (first w, vs). split.
    + apply filter_In. split; [exact He|]. now apply bool_decide_eq_true.
    + apply in_map_iff. exists (second w). split; [now destruct w | exact Hv].
Qed.

(** X9: the candidates for an ending syllable are exactly the pairs of
    the dictionary whose first syllable has the normalized lowercased
    form of that syllable; there is none exactly when every key of that
    form has no values; for a current pair, the candidates are the pairs
    of the dictionary that [canConnect] accepts after it, and
    [validateConnection] accepts every one of them. *)
Theorem X9_candidates_are_connecting_pairs (self : WordChecker.t) (current w : WordPair) :
  (forall endingWord,
     In w (WordChecker.getPossibleNextWords self endingWord) <->
     isPairOf (WordChecker.dictionary self) w
     /\ WordChecker.normalizeVietnamese (toLowerCase (first w))
        = WordChecker.normalizeVietnamese (toLowerCase endingWord))
  /\ (forall endingWord,
        WordChecker.getPossibleNextWords self endingWord = [] <->
        forall k vs, In (k, vs) (WordChecker.dictionary self) ->
                     WordChecker.normalizeVietnamese (toLowerCase k)
                     = WordChecker.normalizeVietnamese (toLowerCase endingWord) ->
                     vs = [])
  /\ (In w (WordChecker.getPossibleNextWords self (second current)) <->
      isPairOf (WordChecker.dictionary self) w /\ WordChecker.canConnect current w = true)
  /\ (In w (WordChecker.getPossibleNextWords self (second current)) ->
      WordChecker.validateConnection (Some current) w = valid).
Proof.
  assert (Hconn : In w (WordChecker.getPossibleNextWords self (second current)) <->
                  isPairOf (WordChecker.dictionary self) w
                  /\ WordChecker.canConnect current w = true).
  { rewrite getPossibleNextWords_In. unfold WordChecker.canConnect.
    rewrite bool_decide_eq_true. unfold fold. split; intros [H1 H2]; split; auto. }
  split; [intros e; apply getPossibleNextWords_In|]. split; [|split; [exact Hconn|]].
  - intros e. split.
    + intros Hnil k vs Hin Hk. destruct vs as [|v vs]; [reflexivity|].
      assert (H : In {| first := k; second := v |} (WordChecker.getPossibleNextWords self e)).
      { apply getPossibleNextWords_In. split; [|exact Hk]. exists (v :: vs).
        split; [exact Hin | now left]. }
      rewrite Hnil in H. contradiction.
    + intros Hall. destruct (WordChecker.getPossibleNextWords self e) as [|x l] eqn:Hl;
        [reflexivity|].
      assert (H : In x (WordChecker.getPossibleNextWords self e)) by (rewrite Hl; now left).
      apply getPossibleNextWords_In in H as [(vs & Hin & Hv) Hk].
      rewrite (Hall _ _ Hin Hk) in Hv. contradiction.
  - intros H. apply Hconn in H as [_ H].
    unfold WordChecker.validateConnection. now rewrite H.
Qed.

Lemma X9_candidates_are_connecting_pairs_witness :
  let checker := WordChecker.constructor sampleDictionary in
  let current := {| first := js "thế"; second := js "CHAN" |} in
  let w := {| first := js "chân"; second := js "trời" |} in
  In w (WordChecker.getPossibleNextWords checker (second current))
  /\ WordChecker.validateConnection (Some current) w = valid.
Proof.
  intros checker current w.
  pose proof (X9_candidates_are_connecting_pairs checker current w) as (_ & _ & H3 & H4).
  assert (H : In w (WordChecker.getPossibleNextWords checker (second current))).
  { apply H3. split; [|vm_compute; reflexivity].
    exists [js "thật"; js "trời"]. split; in_list. }
  split; [exact H | exact (H4 H)].
Defined.

(** ** White space in the input *)

Lemma validateWord_tokens (self : WordChecker.t) (input input' : jsstring)
    (usedKeys : gset jsstring) :
  tokens input = tokens input' ->
  WordChecker.validateWord self input usedKeys = WordChecker.validateWord self input' usedKeys.
Proof.
  intros Ht. unfold WordChecker.validateWord. now rewrite !validateFormat_letters, Ht.
Qed.

Lemma Tokenized_spaces (pad s : jsstring) (ts : list jsstring) :
  forallb isWhiteSpace pad = true -> Tokenized s ts -> Tokenized (pad ++ s) ts.
Proof.
  induction pad as [|u pad IH]; [auto|]. cbn [forallb app]. intros H Hs.
  apply andb_true_iff in H as [Hu Hpad]. constructor; auto.
Qed.

Lemma tokens_two (w0 sep w1 : jsstring) :
  w0 <> [] -> forallb (fun u => negb (isWhiteSpace u)) w0 = true ->
  sep <> [] -> forallb isWhiteSpace sep = true ->
  w1 <> [] -> forallb (fun u => negb (isWhiteSpace u)) w1 = true ->
  tokens (w0 ++ sep ++ w1) = [w0; w1].
Proof.
  intros Hne0 Hw0 Hsep Hws Hne1 Hw1. destruct sep as [|u sep]; [contradiction|].
  cbn [forallb] in Hws. apply andb_true_iff in Hws as [Hu Hws].
  apply Tokenized_tokens. apply (Tokenized_word w0 u (sep ++ w1) [w1]); auto.
  apply Tokenized_spaces; [exact Hws|]. now apply Tokenized_last.
Qed.

(** X10: [validateWord] looks at the two words only: white space around
    the input does not change its answer, and neither does the white
    space between the two words, whichever characters and however many. *)
Theorem X10_white_space_is_immaterial (self : WordChecker.t) (usedKeys : gset jsstring) :
  (forall input pad pad',
     forallb isWhiteSpace pad = true -> forallb isWhiteSpace pad' = true ->
     WordChecker.validateWord self (pad ++ input ++ pad') usedKeys
     = WordChecker.validateWord self input usedKeys)
  /\ (forall w0 w1 sep sep',
        w0 <> [] -> forallb (fun u => negb (isWhiteSpace u)) w0 = true ->
        w1 <> [] -> forallb (fun u => negb (isWhiteSpace u)) w1 = true ->
        sep <> [] -> forallb isWhiteSpace sep = true ->
        sep' <> [] -> forallb isWhiteSpace sep' = true ->
        WordChecker.validateWord self (w0 ++ sep ++ w1) usedKeys
        = WordChecker.validateWord self (w0 ++ sep' ++ w1) usedKeys).
Proof.
  split.
  - intros input pad pad' Hpad Hpad'. apply validateWord_tokens. now apply tokens_padding.
  - intros w0 w1 sep sep' Hne0 Hw0 Hne1 Hw1 Hsep Hws Hsep' Hws'.
    apply validateWord_tokens. now rewrite !tokens_two.
Qed.

Lemma X10_white_space_is_immaterial_witness :
  let checker := WordChecker.constructor sampleDictionary in
  WordChecker.validateWord checker (js "  thế chân ") ∅
  = WordChecker.validateWord checker (js "thế chân") ∅
  /\ WordChecker.validateWord checker (js "thế" ++ [0x9; 0x3000; 0xA] ++ js "chân") ∅
     = WordChecker.validateWord checker (js "thế" ++ js " " ++ js "chân") ∅.
Proof.
  intros checker. pose proof (X10_white_space_is_immaterial checker ∅) as [H1 H2]. split.
  - exact (H1 (js "thế chân") (js "  ") (js " ") eq_refl eq_refl).
  - apply H2; solve [vm_compute; reflexivity | vm_compute; discriminate].
Defined.

(** ** The words of a valid input *)

(** X11: the two words [validateFormat] returns are the tokens of the
    input, not empty and made of allowed letters only, with no white
    space; written with one space between them they are an input with
    the same two words, to which [validateWord] gives the same answer. *)
Theorem X11_words_round_trip (input firstWord secondWord : jsstring) :
  WordChecker.validateFormat input = formatValid firstWord secondWord ->
  tokens input = [firstWord; secondWord]
  /\ firstWord <> [] /\ secondWord <> []
  /\ forallb allowedLetter (firstWord ++ secondWord) = true
  /\ forallb (fun u => negb (isWhiteSpace u)) (firstWord ++ secondWord) = true
  /\ WordChecker.validateFormat (firstWord ++ js " " ++ secondWord)
     = formatValid firstWord secondWord
  /\ (forall self usedKeys,
        WordChecker.validateWord self (firstWord ++ js " " ++ secondWord) usedKeys
        = WordChecker.validateWord self input usedKeys).
Proof.
  rewrite validateFormat_letters. intros Hfmt.
  pose proof (tokens_words input) as Hwords.
  destruct (tokens input) as [|w0 [|w1 [|w2 ws]]] eqn:Ht; try discriminate Hfmt.
  destruct (forallb allowedLetter (w0 ++ w1)) eqn:Hall; [|discriminate Hfmt].
  injection Hfmt as <- <-.
  inversion Hwords as [|? ? [Hne0 Hw0] Hwords']; subst.
  inversion Hwords' as [|? ? [Hne1 Hw1] _]; subst.
  assert (Ht' : tokens (w0 ++ js " " ++ w1) = [w0; w1])
    by (apply tokens_two; auto; discriminate).
  split; [reflexivity|]. split; [exact Hne0|]. split; [exact Hne1|].
  split; [exact Hall|]. split; [now rewrite forallb_app, Hw0, Hw1|]. split.
  - now rewrite validateFormat_letters, Ht', Hall.
  - intros self usedKeys. apply validateWord_tokens. now rewrite Ht'.
Qed.

Lemma X11_words_round_trip_witness :
  WordChecker.validateFormat (js "Thế" ++ js " " ++ js "chân")
  = formatValid (js "Thế") (js "chân").
Proof.
  apply (X11_words_round_trip (js "	Thế   chân ") (js "Thế") (js "chân")).
  vm_compute. reflexivity.
Defined.

(** ** The used keys *)

(** X12: the used keys matter to accepted words only.  An input that is
    valid has its key outside the used keys and is answered [word_used]
    once that key is added; more used keys never make an input valid
    that was not; and an input refused for its format or for the
    dictionary is refused with the same answer whatever the used keys. *)
Theorem X12_used_keys (self : WordChecker.t) (input : jsstring) (usedKeys : gset jsstring) :
  (WordChecker.validateWord self input usedKeys = Return valid ->
   exists firstWord secondWord,
     WordChecker.validateFormat input = formatValid firstWord secondWord
     /\ (WordChecker.wordKey firstWord secondWord ∉ usedKeys)
     /\ forall usedKeys' : gset jsstring,
          (WordChecker.wordKey firstWord secondWord ∈ usedKeys') ->
          WordChecker.validateWord self input usedKeys' = Return wordUsed)
  /\ (forall usedKeys' : gset jsstring,
        usedKeys ⊆ usedKeys' ->
        WordChecker.validateWord self input usedKeys' = Return valid ->
        WordChecker.validateWord self input usedKeys = Return valid)
  /\ (forall (usedKeys' : gset jsstring) result,
        WordChecker.validateWord self input usedKeys = Return result ->
        reason result = Some invalid_format \/ reason result = Some word_not_found ->
        WordChecker.validateWord self input usedKeys' = Return result).
Proof.
  split; [|split].
  - intros Hv.
    destruct (validateWord_cases self input usedKeys) as [[_ Hr]|(f & s & Hfmt & _ & _ & Hr)];
      rewrite Hr in Hv; [discriminate Hv|].
    assert (Hok : WordChecker.isWordInDictionary self f s = true
                  /\ WordChecker.wordKey f s ∉ usedKeys).
    { apply isValid_outcome. injection Hv as ->. reflexivity. }
    destruct Hok as [Hd Hk]. exists f, s. split; [exact Hfmt|]. split; [exact Hk|].
    intros usedKeys' Hk'.
    destruct (validateWord_cases self input usedKeys')
      as [[Hbad _]|(f' & s' & Hfmt' & _ & _ & Hr')];
      [rewrite Hfmt in Hbad; discriminate Hbad|].
    rewrite Hfmt in Hfmt'. injection Hfmt' as <- <-.
    rewrite Hr', Hd. cbn [negb]. now rewrite bool_decide_eq_true_2.
  - intros usedKeys' Hsub Hv.
    destruct (validateWord_cases self input usedKeys') as [[_ Hr]|(f & s & Hfmt & _ & _ & Hr)];
      rewrite Hr in Hv; [discriminate Hv|].
    assert (Hok : WordChecker.isWordInDictionary self f s = true
                  /\ WordChecker.wordKey f s ∉ usedKeys').
    { apply isValid_outcome. injection Hv as ->. reflexivity. }
    destruct Hok as [Hd Hk].
    destruct (validateWord_cases self input usedKeys)
      as [[Hbad _]|(f' & s' & Hfmt' & _ & _ & Hr')];
      [rewrite Hfmt in Hbad; discriminate Hbad|].
    rewrite Hfmt in Hfmt'. injection Hfmt' as <- <-.
    rewrite Hr', Hd. cbn [negb]. rewrite bool_decide_eq_false_2; [reflexivity|].
    intros Hin. apply Hk. now apply Hsub.
  - intros usedKeys' result Hres Hreason.
    destruct (validateWord_cases self input usedKeys) as [[Hbad Hr]|(f & s & Hfmt & _ & _ & Hr)].
    + destruct (validateWord_cases self input usedKeys')
        as [[_ Hr']|(f' & s' & Hfmt' & _)];
        [congruence | rewrite Hfmt' in Hbad; discriminate Hbad].
    + destruct (validateWord_cases self input usedKeys')
        as [[Hbad _]|(f' & s' & Hfmt' & _ & _ & Hr')];
      [rewrite Hfmt in Hbad; discriminate Hbad|].
      rewrite Hfmt in Hfmt'. injection Hfmt' as <- <-.
      rewrite Hr in Hres. rewrite Hr'. injection Hres as <-.
      destruct (WordChecker.isWordInDictionary self f s); [|reflexivity].
      cbn [negb] in *. destruct (bool_decide (WordChecker.wordKey f s ∈ usedKeys));
        cbn [wordUsed valid reason] in Hreason; destruct Hreason; discriminate.
Qed.

Lemma X12_used_keys_witness :
  let checker := WordChecker.constructor sampleDictionary in
  WordChecker.validateWord checker (js "xanh lá") {[ js "xanh-la" ]} = Return wordUsed
  /\ WordChecker.validateWord checker (js "xanh lá") ∅ = Return valid
  /\ WordChecker.validateWord checker (js "xanh lơ") {[ js "xanh-lo" ]}
     = Return (wordNotFound (js "xanh") (js "lơ")).
Proof.
  intros checker.
  assert (Hvalid : WordChecker.validateWord checker (js "xanh lá") ∅ = Return valid).
  { destruct (validateWord_cases checker (js "xanh lá") ∅)
      as [[Hbad _]|(f & s & Hfmt & _ & _ & Hr)]; [vm_compute in Hbad; discriminate Hbad|].
    vm_compute in Hfmt. injection Hfmt as <- <-. rewrite Hr.
    replace (WordChecker.isWordInDictionary checker [120; 97; 110; 104] [108; 225])
      with true by (vm_compute; reflexivity).
    cbn [negb]. now rewrite bool_decide_eq_false_2 by apply not_elem_of_empty. }
  pose proof (X12_used_keys checker (js "xanh lá") ∅) as (H1 & _).
  pose proof (X12_used_keys checker (js "xanh lá") ∅) as (_ & H2 & _).
  pose proof (X12_used_keys checker (js "xanh lơ") ∅) as (_ & _ & H3).
  split; [|split].
  - destruct (H1 Hvalid) as (f & s & Hfmt & _ & Hused).
    apply Hused. vm_compute in Hfmt. injection Hfmt as <- <-.
    apply elem_of_singleton. vm_compute. reflexivity.
  - apply (H2 ∅); [reflexivity | exact Hvalid].
  - apply H3; [|right; reflexivity].
    destruct (validateWord_cases checker (js "xanh lơ") ∅)
      as [[Hbad _]|(f & s & Hfmt & _ & _ & Hr)]; [vm_compute in Hbad; discriminate Hbad|].
    vm_compute in Hfmt. injection Hfmt as <- <-. rewrite Hr.
    now replace (WordChecker.isWordInDictionary checker [120; 97; 110; 104] [108; 417])
      with false by (vm_compute; reflexivity).
Defined.

(** ** The comparison form of a syllable *)

Lemma allowedLetters_In (c : N) : allowedLetter c = true -> In c allowedLetters.
Proof.
  unfold allowedLetter, allowedLetters. intros H. apply orb_true_iff in H as [H|H].
  - apply isAsciiLetter_range in H. destruct H as [H|H].
    + apply in_or_app. right. apply in_or_app. left. apply codePoints_In. lia.
    + apply in_or_app. left. apply codePoints_In. lia.
  - apply existsb_exists in H as (x & Hx & He). apply N.eqb_eq in He. subst x.
    apply in_or_app. right. apply in_or_app. now right.
Qed.

Lemma allowedLetters_ok : forallb letterOk allowedLetters = true.
Proof. vm_compute. reflexivity. Qed.

Lemma allowedLetter_ok (c : N) : allowedLetter c = true -> letterOk c = true.
Proof.
  intros H. pose proof allowedLetters_ok as Hall. rewrite forallb_forall in Hall.
  apply Hall. now apply allowedLetters_In.
Qed.

Lemma bmp_code_points (s : jsstring) :
  Forall (fun u => u < 0xD800) s -> StringToCodePoints s = s /\ CodePointsToString s = s.
Proof.
  induction 1 as [|u s Hu _ [IH1 IH2]]; [now split|].
  cbn [StringToCodePoints]. unfold CodePointsToString in *. cbn [flat_map].
  replace (isHighSurrogate u) with false
    by (symmetry; apply andb_false_iff; left; apply N.leb_gt; lia).
  unfold UTF16EncodeCodePoint at 1.
  replace (u <? 0x10000) with true by (symmetry; apply N.ltb_lt; lia).
  rewrite IH1, IH2. now split.
Qed.

Lemma lower_go_no_sigma (before l : list N) :
  Forall (fun c => c <> 0x3A3) l -> lower_go before l = flat_map lowerCodePoint l.
Proof.
  intros H. revert before. induction H as [|c l Hc _ IH]; intros before; [reflexivity|].
  cbn [lower_go flat_map]. rewrite IH.
  now replace (c =? 0x3A3) with false by (symmetry; now apply N.eqb_neq).
Qed.

Lemma ordered_app (l1 l2 : list N) :
  ordered l1 = true -> ordered l2 = true ->
  match l2 with [] => True | b :: _ => ccc b = 0 end ->
  ordered (l1 ++ l2) = true.
Proof.
  intros H1 H2 Hb. induction l1 as [|a l1 IH]; [exact H2|].
  cbn [ordered] in H1. apply andb_true_iff in H1 as [Ha H1].
  cbn [app ordered]. rewrite (IH H1), andb_true_r.
  destruct l1 as [|a' l1]; [|exact Ha].
  destruct l2 as [|b l2]; [reflexivity|]. cbn [app okBefore].
  rewrite Hb. reflexivity.
Qed.

Lemma starterFirst_flat_map (l : list N) :
  Forall (fun c => starterFirst (decompose c) = true) l ->
  ordered (flat_map decompose l) = true
  /\ match flat_map decompose l with [] => True | b :: _ => ccc b = 0 end.
Proof.
  induction 1 as [|c l Hc _ [IH1 IH2]]; [now split|].
  cbn [flat_map]. unfold starterFirst in Hc.
  destruct (decompose c) as [|b d] eqn:Hd; [discriminate|].
  apply andb_true_iff in Hc as [Hb Ho]. apply N.eqb_eq in Hb. split.
  - now apply ordered_app.
  - exact Hb.
Qed.

Lemma stripFold_app (l l' : list N) : stripFold (l ++ l') = stripFold l ++ stripFold l'.
Proof.
  unfold stripFold, removeRange, replaceUnit. now rewrite List.filter_app, !map_app.
Qed.

Lemma stripFold_flat_map (f : N -> list N) (l : list N) :
  stripFold (flat_map f l) = flat_map (fun c => stripFold (f c)) l.
Proof.
  induction l as [|c l IH]; [reflexivity|]. cbn [flat_map]. now rewrite stripFold_app, IH.
Qed.

(** The comparison form of allowed letters, letter by letter. *)
Lemma fold_letters (w : jsstring) :
  forallb allowedLetter w = true ->
  fold w = flat_map foldLetter w
  /\ Forall (fun c => exists b, foldLetter c = [b] /\ isLowerAscii b = true) w.
Proof.
  intros Hw.
  assert (Hok : Forall (fun c => letterOk c = true) w).
  { apply List.Forall_forall. intros c Hc. rewrite forallb_forall in Hw.
    apply allowedLetter_ok. auto. }
  assert (Hfacts : Forall (fun c => c < 0xD800 /\ c <> 0x3A3
                              /\ (exists l, lowerCodePoint c = [l] /\ l < 0xD800
                                            /\ starterFirst (decompose l) = true)
                              /\ exists b, foldLetter c = [b] /\ isLowerAscii b = true) w).
  { eapply List.Forall_impl; [|exact Hok]. intros c Hc. unfold letterOk in Hc.
    apply andb_true_iff in Hc as [Hc Hb]. apply andb_true_iff in Hc as [Hc Hl].
    apply andb_true_iff in Hc as [Hlt Hs].
    apply N.ltb_lt in Hlt. apply negb_true_iff, N.eqb_neq in Hs.
    split; [exact Hlt|]. split; [exact Hs|]. split.
    - destruct (lowerCodePoint c) as [|l [|l' t]]; try discriminate Hl.
      apply andb_true_iff in Hl as [Hl1 Hl2]. apply N.ltb_lt in Hl1. now exists l.
    - destruct (foldLetter c) as [|b [|b' t]]; try discriminate Hb. now exists b. }
  split; [|eapply List.Forall_impl; [|exact Hfacts]; cbv beta; tauto].
  (* lowercasing *)
  assert (Hbmp : Forall (fun u => u < 0xD800) w)
    by (eapply List.Forall_impl; [|exact Hfacts]; cbv beta; tauto).
  assert (Hlow : toLowerCase w = flat_map lowerCodePoint w
                 /\ Forall (fun l => l < 0xD800 /\ starterFirst (decompose l) = true)
                      (flat_map lowerCodePoint w)).
  { assert (Hl : Forall (fun l => l < 0xD800 /\ starterFirst (decompose l) = true)
                   (flat_map lowerCodePoint w)).
    { clear Hw Hok Hbmp. induction Hfacts as [|c w (_ & _ & (l & Hl & H1 & H2) & _) _ IH];
        [constructor|]. cbn [flat_map]. rewrite Hl. now constructor. }
    split; [|exact Hl]. unfold toLowerCase, toLowercase.
    destruct (bmp_code_points w Hbmp) as [-> _].
    rewrite lower_go_no_sigma by (eapply List.Forall_impl; [|exact Hfacts]; cbv beta; tauto).
    apply bmp_code_points. eapply List.Forall_impl; [|exact Hl]. cbv beta. tauto. }
  destruct Hlow as [Hlow Hl].
  unfold fold. rewrite normalizeVietnamese_code_points, Hlow.
  destruct (bmp_code_points (flat_map lowerCodePoint w)) as [-> _];
    [eapply List.Forall_impl; [|exact Hl]; cbv beta; tauto|].
  change (normalizeCodePoints (flat_map lowerCodePoint w))
    with (stripFold (NFD (flat_map lowerCodePoint w))).
  unfold NFD.
  destruct (starterFirst_flat_map (flat_map lowerCodePoint w)) as [Hord _];
    [eapply List.Forall_impl; [|exact Hl]; cbv beta; tauto|].
  rewrite (canonicalOrder_id _ Hord), stripFold_flat_map.
  assert (Heq : flat_map (fun c => stripFold (decompose c)) (flat_map lowerCodePoint w)
                = flat_map foldLetter w).
  { clear. induction w as [|c w IH]; [reflexivity|].
    cbn [flat_map]. rewrite flat_map_app, IH. f_equal.
    unfold foldLetter. now rewrite stripFold_flat_map. }
  rewrite Heq. apply bmp_code_points.
  clear -Hfacts. induction Hfacts as [|c w (_ & _ & _ & b & Hb & Hr) _ IH]; [constructor|].
  cbn [flat_map]. rewrite Hb. constructor; [|exact IH].
  apply andb_true_iff in Hr as [_ Hr]. apply N.leb_le in Hr. lia.
Qed.

Lemma fold_syllable (w : jsstring) :
  forallb allowedLetter w = true ->
  length (fold w) = length w /\ forallb isLowerAscii (fold w) = true.
Proof.
  intros Hw. destruct (fold_letters w Hw) as [-> Hall]. clear Hw.
  induction Hall as [|c w (b & Hb & Hr) _ [IH1 IH2]]; [now split|].
  cbn [flat_map]. rewrite Hb. cbn [app length forallb]. now rewrite IH1, IH2, Hr.
Qed.

Lemma isLowerAscii_allowed (w : jsstring) :
  forallb isLowerAscii w = true -> forallb allowedLetter w = true.
Proof.
  rewrite !forallb_forall. intros H c Hc. specialize (H c Hc).
  unfold allowedLetter, isAsciiLetter. unfold isLowerAscii in H. now rewrite H.
Qed.

Lemma foldLetter_lower (b : N) : isLowerAscii b = true -> foldLetter b = [b].
Proof.
  intros Hb. apply andb_true_iff in Hb as [H1 H2]. apply N.leb_le in H1, H2.
  pose proof (codePoints_forall (fun b => bool_decide (foldLetter b = [b])) 0x61 26) as H.
  cbv beta in H. apply (bool_decide_eq_true_1 _), H; [|lia].
  vm_compute. reflexivity.
Qed.

Lemma fold_lower_ascii (w : jsstring) : forallb isLowerAscii w = true -> fold w = w.
Proof.
  intros Hw. destruct (fold_letters w (isLowerAscii_allowed w Hw)) as [-> _].
  induction w as [|b w IH]; [reflexivity|].
  cbn [forallb] in Hw. apply andb_true_iff in Hw as [Hb Hw].
  cbn [flat_map]. now rewrite (foldLetter_lower b Hb), IH.
Qed.

Lemma fold_one_letter (u : N) : allowedLetter u = true -> fold [u] = foldLetter u.
Proof.
  intros Hu. destruct (fold_letters [u]) as [-> _]; [cbn [forallb]; now rewrite Hu|].
  cbn [flat_map]. now rewrite app_nil_r.
Qed.

(** X13: the comparison form of a syllable (allowed letters only) has
    one letter of a to z for each of its letters; it is a syllable that
    is its own comparison form, so a first syllable typed in lowercase
    without diacritics gets the same answer from the dictionary check,
    and a pair spelled so connects as the pair itself does. *)
Theorem X13_comparison_form_of_a_syllable (w : jsstring) :
  forallb allowedLetter w = true ->
  let form := WordChecker.normalizeVietnamese (toLowerCase w) in
  length form = length w
  /\ Forall (fun u => 0x61 <= u <= 0x7A) form
  /\ form = flat_map (fun u => WordChecker.normalizeVietnamese (toLowerCase [u])) w
  /\ WordChecker.normalizeVietnamese (toLowerCase form) = form
  /\ (forall self secondWord,
        WordChecker.isWordInDictionary self form secondWord
        = WordChecker.isWordInDictionary self w secondWord)
  /\ (forall a b,
        WordChecker.canConnect {| first := a; second := form |} b
        = WordChecker.canConnect {| first := a; second := w |} b).
Proof.
  intros Hw form. change form with (fold w).
  destruct (fold_syllable w Hw) as [Hlen Hlow].
  pose proof (fold_lower_ascii (fold w) Hlow) as Hidem.
  split; [exact Hlen|]. split; [|split; [|split; [exact Hidem|split]]].
  - apply List.Forall_forall. intros u Hu. rewrite forallb_forall in Hlow.
    specialize (Hlow u Hu). apply andb_true_iff in Hlow as [H1 H2].
    apply N.leb_le in H1, H2. lia.
  - destruct (fold_letters w Hw) as [-> _]. clear -Hw.
    induction w as [|u w IH]; [reflexivity|].
    cbn [forallb] in Hw. apply andb_true_iff in Hw as [Hu Hw].
    cbn [flat_map]. rewrite (IH Hw). f_equal. symmetry. now apply fold_one_letter.
  - intros self s. unfold WordChecker.isWordInDictionary.
    change (WordChecker.normalizeVietnamese (toLowerCase (fold w))) with (fold (fold w)).
    now rewrite Hidem.
  - intros a b. unfold WordChecker.canConnect. cbn [second].
    change (WordChecker.normalizeVietnamese (toLowerCase (fold w))) with (fold (fold w)).
    now rewrite Hidem.
Qed.

Lemma X13_comparison_form_of_a_syllable_witness :
  length (WordChecker.normalizeVietnamese (toLowerCase (js "Nghiêng"))) = 7%nat
  /\ WordChecker.normalizeVietnamese (toLowerCase (js "Nghiêng")) = js "nghieng".
Proof.
  pose proof (X13_comparison_form_of_a_syllable (js "Nghiêng")) as H.
  cbv zeta in H. destruct H as (H1 & _); [vm_compute; reflexivity|].
  split; [rewrite H1|]; vm_compute; reflexivity.
Defined.

Lemma app_separator_inj {A} (x : A) (a b a' b' : list A) :
  ~ In x a -> ~ In x a' -> a ++ x :: b = a' ++ x :: b' -> a = a' /\ b = b'.
Proof.
  revert a'. induction a as [|y a IH]; intros [|y' a'] Ha Ha' H.
  - now injection H.
  - injection H as <- _. exfalso. apply Ha'. now left.
  - injection H as -> _. exfalso. apply Ha. now left.
  - injection H as <- H. destruct (IH a') as [-> ->]; auto.
    + intros Hi. apply Ha. now right.
    + intros Hi. apply Ha'. now right.
Qed.

Lemma fold_no_hyphen (w : jsstring) : forallb allowedLetter w = true -> ~ In 0x2D (fold w).
Proof.
  intros Hw Hin. destruct (fold_syllable w Hw) as [_ Hlow].
  rewrite forallb_forall in Hlow. specialize (Hlow _ Hin). discriminate Hlow.
Qed.

Lemma wordKey_inj (f s f' s' : jsstring) :
  forallb allowedLetter f = true -> forallb allowedLetter f' = true ->
  WordChecker.wordKey f s = WordChecker.wordKey f' s' ->
  fold f = fold f' /\ fold s = fold s'.
Proof.
  intros Hf Hf'. unfold WordChecker.wordKey. apply app_separator_inj; now apply fold_no_hyphen.
Qed.

(** X14: on syllables the key of a pair tells the pair: two pairs of
    words made of allowed letters have the same key only if they are the
    same move (both syllables agree in normalized lowercased form).  So
    [validateWord] answers [word_used] against the key of one used pair
    only for an input that is that move. *)
Theorem X14_key_tells_the_move (f s f' s' : jsstring) :
  forallb allowedLetter (f ++ s) = true -> forallb allowedLetter (f' ++ s') = true ->
  (WordChecker.wordKey f s = WordChecker.wordKey f' s' <->
   WordChecker.normalizeVietnamese (toLowerCase f)
   = WordChecker.normalizeVietnamese (toLowerCase f')
   /\ WordChecker.normalizeVietnamese (toLowerCase s)
      = WordChecker.normalizeVietnamese (toLowerCase s'))
  /\ (forall self input,
        WordChecker.validateFormat input = formatValid f s ->
        WordChecker.validateWord self input {[ WordChecker.wordKey f' s' ]} = Return wordUsed ->
        samePair {| first := f'; second := s' |} {| first := f; second := s |}).
Proof.
  rewrite !forallb_app, !andb_true_iff. intros [Hf Hs] [Hf' Hs'].
  pose proof (wordKey_inj f s f' s' Hf Hf') as Hinj.
  split.
  - split; [exact Hinj|]. intros [H1 H2]. unfold WordChecker.wordKey. now rewrite H1, H2.
  - intros self input Hfmt Hres.
    destruct (validateWord_cases self input {[ WordChecker.wordKey f' s' ]})
      as [[Hbad _]|(f0 & s0 & Hfmt0 & _ & _ & Hr)]; [rewrite Hfmt in Hbad; discriminate Hbad|].
    rewrite Hfmt in Hfmt0. injection Hfmt0 as <- <-. rewrite Hr in Hres.
    destruct (WordChecker.isWordInDictionary self f s); [|discriminate Hres].
    cbn [negb] in Hres. destruct (bool_decide _) eqn:Hk; [|discriminate Hres].
    apply bool_decide_eq_true, elem_of_singleton in Hk.
    destruct (Hinj Hk) as [H1 H2]. now split.
Qed.

Lemma X14_key_tells_the_move_witness :
  WordChecker.wordKey (js "Lá") (js "cây") = WordChecker.wordKey (js "la") (js "cầy").
Proof.
  pose proof (X14_key_tells_the_move (js "Lá") (js "cây") (js "la") (js "cầy")
                ltac:(vm_compute; reflexivity) ltac:(vm_compute; reflexivity)) as [H _].
  apply H. split; vm_compute; reflexivity.
Defined.

(** ** The engine's own moves *)








(** ** Dictionaries as values *)

Section Values.
Context {number : Type} (isZeroOrNaN : number -> bool).

Lemma itemsAreStrings_map (words : list jsstring) :
  Index.itemsAreStrings (number := number) (map Index.String words) = true.
Proof. induction words as [|w words IH]; [reflexivity | exact IH]. Qed.

Lemma itemsAreStrings_inv (items : list (Index.value number)) :
  Index.itemsAreStrings items = true -> exists words, items = map Index.String words.
Proof.
  induction items as [|item items IH]; [now exists []|].
  cbn [Index.itemsAreStrings]. destruct item; try discriminate. cbn. intros H.
  destruct (IH H) as [words ->]. now exists (s :: words).
Qed.

Lemma indexed_values (i : nat) (elements : list (Index.value number)) :
  map snd (Index.indexed i elements) = elements.
Proof.
  revert i. induction elements as [|x elements IH]; intros i; [reflexivity|].
  cbn [Index.indexed map snd]. now rewrite IH.
Qed.

Lemma entriesAreLists_values (l : list (jsstring * Index.value number)) :
  Index.entriesAreLists l = true <->
  exists rows, map snd l = map listValue rows.
Proof.
  induction l as [|[key value] l IH].
  - split; [now exists [] | reflexivity].
  - cbn [Index.entriesAreLists map snd Index.typeof Index.typeName_eqb negb orb]. split.
    + destruct value as [| | | | |items|]; try discriminate. cbn [Index.isArray negb].
      destruct (Index.itemsAreStrings items) eqn:Hi; [|discriminate]. intros H.
      apply IH in H as [rows Hrows]. apply itemsAreStrings_inv in Hi as [words ->].
      exists (words :: rows). cbn [map]. now rewrite Hrows.
    + intros [[|words rows] H]; [discriminate|]. cbn [map] in H. injection H as -> H.
      cbn [listValue Index.isArray negb]. rewrite itemsAreStrings_map.
      apply IH. now exists rows.
Qed.

Lemma map_snd_inv (l : list (jsstring * Index.value number)) (rows : list (list jsstring)) :
  map snd l = map listValue rows ->
  exists d : WordDictionary, l = map (fun e => (fst e, listValue (snd e))) d /\ map snd d = rows.
Proof.
  revert rows. induction l as [|[key value] l IH]; intros [|words rows] H; try discriminate.
  - now exists [].
  - cbn [map snd] in H. injection H as -> H. destruct (IH rows H) as (d & -> & <-).
    now exists ((key, words) :: d).
Qed.

End Values.

(** X16: [validateDictionary] accepts every dictionary, with or without
    keys and whatever its keys and words are, and every array of arrays
    of strings as well; it accepts nothing else: an accepted value is an
    object whose properties all hold arrays of strings, or an array of
    arrays of strings. *)
Theorem X16_validateDictionary {number : Type} (isZeroOrNaN : number -> bool) :
  (forall d : WordDictionary,
     Index.validateDictionary isZeroOrNaN (dictionaryValue d) = true)
  /\ (forall rows : list (list jsstring),
        Index.validateDictionary isZeroOrNaN (Index.Array (map listValue rows)) = true)
  /\ (forall v,
        Index.validateDictionary isZeroOrNaN v = true ->
        (exists d : WordDictionary, v = dictionaryValue d)
        \/ (exists rows : list (list jsstring), v = Index.Array (map listValue rows))).
Proof.
  split; [|split].
  - intros d. unfold Index.validateDictionary, dictionaryValue.
    cbn [Index.not Index.typeof Index.typeName_eqb negb orb Index.entries].
    apply entriesAreLists_values. exists (map snd d). rewrite !map_map. reflexivity.
  - intros rows. unfold Index.validateDictionary.
    cbn [Index.not Index.typeof Index.typeName_eqb negb orb Index.entries].
    apply entriesAreLists_values. exists rows. apply indexed_values.
  - intros v. unfold Index.validateDictionary.
    destruct v as [| |b|n|s|elements|properties];
      cbn [Index.not Index.typeof Index.typeName_eqb negb orb Index.entries];
      try discriminate.
    + destruct (negb b); discriminate.
    + destruct (isZeroOrNaN n); discriminate.
    + destruct (length s =? 0)%nat; discriminate.
    + intros H. apply entriesAreLists_values in H as [rows H].
      rewrite indexed_values in H. right. exists rows. now rewrite H.
    + intros H. apply entriesAreLists_values in H as [rows H].
      apply map_snd_inv in H as (d & -> & _). left. now exists d.
Qed.

Lemma X16_validateDictionary_witness :
  exists d : WordDictionary,
    Index.Object [(js "lá", Index.Array [Index.String (js "cây")])]
    = dictionaryValue (number := N) d.
Proof.
  pose proof (X16_validateDictionary (N.eqb 0%N)) as (_ & _ & H).
  destruct (H (Index.Object [(js "lá", Index.Array [Index.String (js "cây")])]) eq_refl)
    as [Hd|[rows Hrows]]; [exact Hd | discriminate Hrows].
Defined.
